(** * Student progress monitoring: normalisation pipeline and cohort analysis

    A shallow embedding of [CWPreprocessing.py], [underperformingStudent.py]
    and [studentPerformance.py].

    Conventions of the embedding.
    - A pandas cell is a [cell]: missing ([NaN]), a number ([Num]) or text
      ([Str]).  Numbers are exact rationals ([Qc]): float64 arithmetic is
      read as exact arithmetic, and [round] is numpy's round-half-to-even.
    - A [DataFrame] is a list of column labels and a list of rows; every
      row carries its index label, so that [sort_index] can restore the
      file order after a sort.
    - Code with effects (the SQLite store, the connection, printing and
      plotting, exceptions) runs in the monad [M] over a [World]. *)

From Stdlib Require Import QArith Qcanon Qround ZArith String Ascii List Lia Lqa.
From Stdlib Require Import Floats Uint63.
From stdpp Require Import base option list strings gmap sorting.

Set Warnings "-clear-no-such-hyp".

Local Open Scope Z_scope.
Local Open Scope string_scope.
Local Open Scope list_scope.

(** ** Cells and numbers *)

Inductive cell : Type :=
  | NaN
  | Num (q : Qc)
  | Str (s : string).

Global Instance cell_eq_dec : EqDecision cell.
Proof. solve_decision. Defined.

Global Instance cell_inhabited : Inhabited cell := populate NaN.

Definition isna (c : cell) : bool :=
  match c with NaN => true | _ => false end.

Definition QcZ (z : Z) : Qc := Qc_of_Z z.

Definition Qc_half : Qc := Q2Qc (1 # 2).

(** [floor q]: the greatest integer below or equal to [q]. *)
Definition Qcfloor (q : Qc) : Z := Qfloor (this q).

(** numpy's [round] (used by [Series.round]): to the nearest integer, a
    value halfway between two integers goes to the even one. *)
Definition round_half_even (q : Qc) : Z :=
  let f := Qcfloor q in
  let r := (q - QcZ f)%Qc in
  if decide (r < Qc_half)%Qc then f
  else if decide (Qc_half < r)%Qc then f + 1
  else if Z.even f then f else f + 1.

(** Arithmetic of a Series on one cell: a missing value stays missing.
    Text never reaches these steps: [clean_numeric_columns] runs first and
    leaves only numbers in the columns they touch. *)
Definition num_op (f : Qc → Qc) (c : cell) : cell :=
  match c with
  | Num q => Num (f q)
  | _ => c
  end.

(** [.round().astype("Int64")] on one cell. *)
Definition round_Int64 (c : cell) : cell :=
  num_op (λ q, QcZ (round_half_even q)) c.

(** ** Data frames *)

(** A row with its index label. *)
Record Row : Type := mkRow { label : nat; cells : list cell }.

Record DataFrame : Type := mkDF { columns : list string; rows : list Row }.

(** What a CSV file or a database table holds: a header and the rows of
    cells, without index labels. *)
Record Table : Type := mkTable { header : list string; body : list (list cell) }.

Global Instance Row_eq_dec : EqDecision Row.
Proof. solve_decision. Defined.
Global Instance DataFrame_eq_dec : EqDecision DataFrame.
Proof. solve_decision. Defined.
Global Instance Table_eq_dec : EqDecision Table.
Proof. solve_decision. Defined.

(** [pd.read_csv] and [pd.read_sql_query] give the rows the labels
    0, 1, 2, ... (a RangeIndex). *)
Definition frame_of (t : Table) : DataFrame :=
  mkDF (header t) (imap mkRow (body t)).

(** [to_sql(..., index=False)] stores the columns without the labels. *)
Definition table_of (df : DataFrame) : Table :=
  mkTable (columns df) (cells <$> rows df).

Fixpoint col_pos (c : string) (cols : list string) : option nat :=
  match cols with
  | [] => None
  | x :: cols' => if decide (x = c) then Some 0%nat else S <$> col_pos c cols'
  end.

(** The cell of column [c] among the cells [cs] of a row, for the column
    labels [cols]; none when the column or the cell is not there. *)
Definition cell_at (cols : list string) (c : string) (cs : list cell) : option cell :=
  col_pos c cols ≫= λ i, cs !! i.

(** [row[c]] for a row of a frame with column labels [cols]. *)
Definition get (cols : list string) (c : string) (r : Row) : cell :=
  default NaN (cell_at cols c (cells r)).

(** [df[c] = f(df[c])], cell by cell. *)
Definition map_col (c : string) (f : cell → cell) (df : DataFrame) : DataFrame :=
  mkDF (columns df)
       ((λ r, mkRow (label r)
                (zip_with (λ name x, if decide (name = c) then f x else x)
                          (columns df) (cells r))) <$> rows df).

(** ** Exceptions and results *)

Inductive exn : Type :=
  | MissingColumns (table_name : string) (missing current : list string)
      (** the KeyError of [check_required_columns] *)
  | KeyError (key : string)
  | TypeError
  | FileNotFoundError (path : string)
  | DatabaseError (sql : string).

Inductive result (A : Type) : Type :=
  | Ok (a : A)
  | Raise (e : exn).
Global Arguments Ok {A} a.
Global Arguments Raise {A} e.

Global Instance exn_eq_dec : EqDecision exn.
Proof. solve_decision. Defined.
Global Instance result_eq_dec `{EqDecision A} : EqDecision (result A).
Proof. solve_decision. Defined.

(** [f] on every element, up to the first exception. *)
Fixpoint mapM_result {A B} (f : A → result B) (l : list A) : result (list B) :=
  match l with
  | [] => Ok []
  | x :: l' =>
      match f x with
      | Ok y => match mapM_result f l' with
                | Ok ys => Ok (y :: ys)
                | Raise e => Raise e
                end
      | Raise e => Raise e
      end
  end.

(** ** Sorting, as pandas does it *)

(** Python's [<=] on two cells of one kind.  Between a number and text
    Python raises TypeError: [sort_values] below raises before it compares
    such a pair. *)
Definition cell_le (a b : cell) : Prop :=
  match a, b with
  | Num x, Num y => (x ≤ y)%Qc
  | Str x, Str y => String.le x y
  | _, _ => False
  end.

Global Instance cell_le_dec : RelDecision cell_le.
Proof. intros [| x | x] [| y | y]; simpl; apply _. Defined.

Definition is_num (c : cell) : bool := match c with Num _ => true | _ => false end.
Definition is_str (c : cell) : bool := match c with Str _ => true | _ => false end.

(** The values can be ordered against each other: all numbers or all text. *)
Definition comparable (l : list cell) : bool :=
  forallb is_num l || forallb is_str l.

(** [l[order]]: the elements of [l] at the positions [order]. *)
Definition take_rows {A} (l : list A) (order : list nat) : list A :=
  omap (λ i, l !! i) order.

(** numpy's [argsort] with [kind="quicksort"], the default of
    [sort_values]: it returns the positions in an ascending order of the
    values.  Quicksort is not a stable sort, so the order it gives to equal
    values is not part of its contract; what it promises is below. *)
Record sorter : Type := mkSorter {
  argsort : list cell → list nat;
  argsort_perm : ∀ l, argsort l ≡ₚ seq 0 (length l);
  argsort_sorted : ∀ l, comparable l → Sorted cell_le (take_rows l (argsort l))
}.

(** A sort is stable when equal values keep their order. *)
Definition stable (S : sorter) : Prop :=
  ∀ l i j a b, comparable l → (i < j)%nat →
    argsort S l !! i = Some a → argsort S l !! j = Some b →
    l !! a = l !! b → (a < b)%nat.

(** [df.sort_values(by, ascending=False)].  pandas ([nargsort]) sets the
    rows with a missing value aside, reverses the others, sorts them in
    ascending order, reverses the outcome, and puts the rows with a missing
    value last, in their original order. *)
Definition sort_values_desc (S : sorter) (by_ : string) (df : DataFrame)
    : result DataFrame :=
  if decide (by_ ∈ columns df) then
    let key := get (columns df) by_ in
    let nonnan := filter (λ r, isna (key r) = false) (rows df) in
    let nan := filter (λ r, isna (key r) = true) (rows df) in
    if comparable (key <$> nonnan) then
      let rev := reverse nonnan in
      let indexer := argsort S (key <$> rev) in
      Ok (mkDF (columns df) (reverse (take_rows rev indexer) ++ nan))
    else Raise TypeError
  else Raise (KeyError by_).

(** The rows whose key was not seen before, in the order of the list. *)
Fixpoint first_of_each {A} (key : A → cell) (seen : list cell) (l : list A)
    : list A :=
  match l with
  | [] => []
  | r :: l' =>
      if decide (key r ∈ seen) then first_of_each key seen l'
      else r :: first_of_each key (key r :: seen) l'
  end.

(** [df.drop_duplicates(subset=[c], keep="first")]; two missing values
    count as equal. *)
Definition drop_duplicates (c : string) (df : DataFrame) : result DataFrame :=
  if decide (c ∈ columns df) then
    Ok (mkDF (columns df) (first_of_each (get (columns df) c) [] (rows df)))
  else Raise (KeyError c).

Definition label_le (r1 r2 : Row) : Prop := (label r1 ≤ label r2)%nat.

Global Instance label_le_dec : RelDecision label_le.
Proof. intros r1 r2. unfold label_le. apply _. Defined.

(** [df.sort_index()]: the rows in ascending order of their labels. *)
Definition sort_index (df : DataFrame) : DataFrame :=
  mkDF (columns df) (merge_sort label_le (rows df)).

(** ** CWPreprocessor: the steps *)

(** Python's [str.strip()], on the ASCII white space. *)
Definition is_space (a : ascii) : bool :=
  let n := nat_of_ascii a in
  ((9 <=? n) && (n <=? 13) || (28 <=? n) && (n <=? 32))%nat.

Fixpoint lstrip (s : string) : string :=
  match s with
  | String a s' => if is_space a then lstrip s' else s
  | EmptyString => EmptyString
  end.

Definition strip (s : string) : string :=
  String.rev (lstrip (String.rev (lstrip s))).

Definition strip_column_names (df : DataFrame) : DataFrame :=
  mkDF (strip <$> columns df) (rows df).

Fixpoint assoc {V} (k : string) (m : list (string * V)) : option V :=
  match m with
  | [] => None
  | (k', v) :: m' => if decide (k' = k) then Some v else assoc k m'
  end.

Definition apply_rename (df : DataFrame) (rename_map : list (string * string))
    : DataFrame :=
  mkDF ((λ c, default c (assoc c rename_map)) <$> columns df) (rows df).

(** [df.replace("-", 0)] on one cell. *)
Definition replace_dash (c : cell) : cell :=
  if decide (c = Str "-") then Num (QcZ 0) else c.

(** [pd.to_numeric(..., errors="coerce")] on one cell: [parse] is the
    numeral parser of pandas; text that it does not read becomes NaN. *)
Definition to_numeric_coerce (parse : string → option Qc) (c : cell) : cell :=
  match c with
  | Str s => match parse s with Some q => Num q | None => NaN end
  | _ => c
  end.

Definition fillna (v : cell) (c : cell) : cell :=
  if isna c then v else c.

Definition clean_numeric_columns (parse : string → option Qc)
    (df : DataFrame) (cols : list string) : DataFrame :=
  let df := mkDF (columns df)
              ((λ r, mkRow (label r) (replace_dash <$> cells r)) <$> rows df) in
  foldl (λ df col,
           if decide (col ∈ columns df)
           then map_col col (λ c, fillna (Num (QcZ 0)) (to_numeric_coerce parse c)) df
           else df)
        df cols.

Definition keep_best_attempt (S : sorter) (df : DataFrame) : result DataFrame :=
  match sort_values_desc S "Grade" df with
  | Ok df =>
      match drop_duplicates "research_id" df with
      | Ok df => Ok (sort_index df)
      | Raise e => Raise e
      end
  | Raise e => Raise e
  end.

(** [df.drop(columns=existing)]. *)
Definition drop_columns (existing : list string) (df : DataFrame) : DataFrame :=
  let keep (cs : list cell) :=
    snd <$> filter (λ p, p.1 ∉ existing) (zip (columns df) cs) in
  mkDF (filter (λ c, c ∉ existing) (columns df))
       ((λ r, mkRow (label r) (keep (cells r))) <$> rows df).

Definition remove_redundant_columns (df : DataFrame) (cols_to_drop : list string)
    : DataFrame :=
  let existing := filter (λ c, c ∈ columns df) cols_to_drop in
  if decide (existing = []) then df else drop_columns existing df.

Definition normalise_grade_to_10000 (df : DataFrame) (grade_total : Z) : DataFrame :=
  map_col "Grade"
    (λ c, round_Int64 (num_op (λ g, g * (QcZ 10000 / QcZ grade_total))%Qc c)) df.

Definition scale_cols_to_100 (df : DataFrame) (cols : list string) : DataFrame :=
  let existing := filter (λ c, c ∈ columns df) cols in
  foldl (λ df col,
           map_col col (λ c, round_Int64 (num_op (λ x, x * QcZ 100)%Qc c)) df)
        df existing.

Definition scale_cols_to_10000 (df : DataFrame)
    (col_to_maxscore : list (string * Z)) : DataFrame :=
  foldl (λ df '(col, max_score),
           if decide (col ∈ columns df)
           then map_col col
                  (λ c, round_Int64
                          (num_op (λ x, x * (QcZ 10000 / QcZ max_score))%Qc c)) df
           else df)
        df col_to_maxscore.

Definition check_required_columns (df : DataFrame) (required : list string)
    (table_name : string) : result unit :=
  let missing := filter (λ c, c ∉ columns df) required in
  if decide (missing = []) then Ok tt
  else Raise (MissingColumns table_name missing (columns df)).

(** ** The world: files, the database, the connection, the output *)

(** What the presentation layer receives. *)
Inductive event : Type :=
  | Print (text : string)
  | PrintTable (table : list (list cell))
  | ShowBar (title : string) (series : list (string * cell))
  | ShowGroupedBar (title : string) (labels : list cell) (first second : list cell).

Record World : Type := mkWorld {
  files : gmap string Table;      (** the CSV files, by path *)
  db : gmap string Table;         (** the tables of the SQLite database *)
  open_connections : nat;         (** connections opened and not yet closed *)
  output : list event             (** what was printed and plotted, oldest first *)
}.

Global Instance event_eq_dec : EqDecision event.
Proof. solve_decision. Defined.
Global Instance World_eq_dec : EqDecision World.
Proof. solve_decision. Defined.

(** A computation that may raise: it returns a value or an exception, and
    the world as it is at that point. *)
Definition M (A : Type) : Type := World → result A * World.

Global Instance M_ret : MRet M := λ A a w, (Ok a, w).
Global Instance M_bind : MBind M := λ A B f m w,
  match m w with
  | (Ok a, w') => f a w'
  | (Raise e, w') => (Raise e, w')
  end.

Definition lift {A} (r : result A) : M A := λ w, (r, w).

(** [sqlite3.connect(db_path)]. *)
Definition connect (db_path : string) : M unit := λ w,
  (Ok tt, mkWorld (files w) (db w) (S (open_connections w)) (output w)).

(** [conn.close()]. *)
Definition close : M unit := λ w,
  (Ok tt, mkWorld (files w) (db w) (pred (open_connections w)) (output w)).

Definition emit (e : event) : M unit := λ w,
  (Ok tt, mkWorld (files w) (db w) (open_connections w) (output w ++ [e])).

(** [pd.read_csv(path)]. *)
Definition read_csv (csv_path : string) : M DataFrame := λ w,
  match files w !! csv_path with
  | Some t => (Ok (frame_of t), w)
  | None => (Raise (FileNotFoundError csv_path), w)
  end.

(** [df.to_sql(table_name, conn, if_exists="replace", index=False)]. *)
Definition write_table (df : DataFrame) (table_name : string) : M unit := λ w,
  (Ok tt, mkWorld (files w) (<[table_name := table_of df]> (db w))
            (open_connections w) (output w)).

(** ** CWPreprocessor: the pipelines *)

Record CWPreprocessor : Type := mkPre {
  db_path : string;
  file_test_1 : string;
  file_test_2 : string;
  file_test_3 : string;
  file_test_4 : string;
  file_mock : string;
  file_rate : string;
  file_sum : string
}.

(** The [rename_map] of each pipeline. *)
Definition rename_map_test_1 : list (string * string) :=
  [("research id", "research_id"); ("Started on", "Started_on");
   ("Time taken", "Time_taken"); ("Grade/600", "Grade"); ("Q 1 /100", "Q1");
   ("Q 2 /100", "Q2"); ("Q 3 /100", "Q3"); ("Q 4 /100", "Q4");
   ("Q 5 /100", "Q5"); ("Q 6 /100", "Q6")].

Definition rename_map_test_2 : list (string * string) :=
  [("research id", "research_id"); ("Started on", "Started_on");
   ("Time taken", "Time_taken"); ("Grade/700", "Grade"); ("Q 1 /100", "Q1");
   ("Q 2 /100", "Q2"); ("Q 3 /100", "Q3"); ("Q 4 /200", "Q4");
   ("Q 5 /100", "Q5"); ("Q 6 /100", "Q6")].

Definition rename_map_test_3 : list (string * string) :=
  [("research id", "research_id"); ("Started on", "Started_on");
   ("Time taken", "Time_taken"); ("Grade/600", "Grade"); ("Q 1 /100", "Q1");
   ("Q 2 /100", "Q2"); ("Q 3 /100", "Q3"); ("Q 4 /100", "Q4");
   ("Q 5 /100", "Q5"); ("Q 6 /100", "Q6")].

Definition rename_map_test_4 : list (string * string) :=
  [("research id", "research_id"); ("Started on", "Started_on");
   ("Time taken", "Time_taken"); ("Grade/1000", "Grade"); ("Q 1 /500", "Q1");
   ("Q 2 /500", "Q2")].

Definition rename_map_mock_test : list (string * string) :=
  [("research id", "research_id"); ("Started on", "Started_on");
   ("Time taken", "Time_taken"); ("Grade/10000", "Grade");
   ("Q 1 /500", "Q1"); ("Q 2 /300", "Q2"); ("Q 3 /600", "Q3");
   ("Q 4 /700", "Q4"); ("Q 5 /500", "Q5"); ("Q 6 /400", "Q6");
   ("Q 7 /1000", "Q7"); ("Q 8 /2000", "Q8"); ("Q 9 /2000", "Q9");
   ("Q 10 /2000", "Q10")].

Definition rename_map_sum_test : list (string * string) :=
  [("research id", "research_id"); ("Started on", "Started_on");
   ("Time taken", "Time_taken"); ("Grade/10000", "Grade");
   ("Q 1 /500", "Q1"); ("Q 2 /300", "Q2"); ("Q 3 /600", "Q3");
   ("Q 4 /700", "Q4"); ("Q 5 /400", "Q5"); ("Q 6 /500", "Q6");
   ("Q 7 /1500", "Q7"); ("Q 8 /1500", "Q8"); ("Q 9 /1500", "Q9");
   ("Q 10 /1000", "Q10"); ("Q 11 /400", "Q11"); ("Q 12 /500", "Q12");
   ("Q 13 /600", "Q13")].

Section Preprocessor.

(** The sort of numpy and the numeral parser of pandas. *)
Context (S : sorter) (parse : string → option Qc).
Context (self : CWPreprocessor).

Definition preprocess_test_1 : M DataFrame :=
  df_raw ← read_csv (file_test_1 self);
  let df := strip_column_names df_raw in
  let rename_map := rename_map_test_1 in
  let df := apply_rename df rename_map in
  _ ← lift (check_required_columns df ["research_id"; "Grade"] "Test_1");
  df ← lift (keep_best_attempt S df);
  let df := remove_redundant_columns df ["State"; "Time_taken"] in
  let cols_numeric := ["Grade"; "Q1"; "Q2"; "Q3"; "Q4"; "Q5"; "Q6"] in
  let df := clean_numeric_columns parse df cols_numeric in
  let df := normalise_grade_to_10000 df 600 in
  let df := scale_cols_to_100 df ["Q1"; "Q2"; "Q3"; "Q4"; "Q5"; "Q6"] in
  mret df.

Definition preprocess_test_2 : M DataFrame :=
  df ← read_csv (file_test_2 self);
  let df := strip_column_names df in
  let rename_map := rename_map_test_2 in
  let df := apply_rename df rename_map in
  _ ← lift (check_required_columns df ["research_id"; "Grade"] "Test_2");
  df ← lift (keep_best_attempt S df);
  let df := remove_redundant_columns df ["State"; "Time_taken"] in
  let cols_numeric := ["Grade"; "Q1"; "Q2"; "Q3"; "Q4"; "Q5"; "Q6"] in
  let df := clean_numeric_columns parse df cols_numeric in
  let df := normalise_grade_to_10000 df 700 in
  let df := scale_cols_to_100 df ["Q1"; "Q2"; "Q3"; "Q5"; "Q6"] in
  let df := scale_cols_to_10000 df [("Q4", 200)] in
  mret df.

Definition preprocess_test_3 : M DataFrame :=
  df ← read_csv (file_test_3 self);
  let df := strip_column_names df in
  let rename_map := rename_map_test_3 in
  let df := apply_rename df rename_map in
  _ ← lift (check_required_columns df ["research_id"; "Grade"] "Test_3");
  df ← lift (keep_best_attempt S df);
  let df := remove_redundant_columns df ["State"; "Time_taken"] in
  let cols_numeric := ["Grade"; "Q1"; "Q2"; "Q3"; "Q4"; "Q5"; "Q6"] in
  let df := clean_numeric_columns parse df cols_numeric in
  let df := normalise_grade_to_10000 df 600 in
  let df := scale_cols_to_100 df ["Q1"; "Q2"; "Q3"; "Q4"; "Q5"; "Q6"] in
  mret df.

Definition preprocess_test_4 : M DataFrame :=
  df ← read_csv (file_test_4 self);
  let df := strip_column_names df in
  let rename_map := rename_map_test_4 in
  let df := apply_rename df rename_map in
  _ ← lift (check_required_columns df ["research_id"; "Grade"] "Test_4");
  df ← lift (keep_best_attempt S df);
  let df := remove_redundant_columns df ["State"; "Time_taken"] in
  let cols_numeric := ["Grade"; "Q1"; "Q2"] in
  let df := clean_numeric_columns parse df cols_numeric in
  let df := normalise_grade_to_10000 df 1000 in
  let df := scale_cols_to_10000 df [("Q1", 500); ("Q2", 500)] in
  mret df.

Definition preprocess_mock_test : M DataFrame :=
  df ← read_csv (file_mock self);
  let df := strip_column_names df in
  let rename_map := rename_map_mock_test in
  let df := apply_rename df rename_map in
  _ ← lift (check_required_columns df ["research_id"; "Grade"] "Mock_Test");
  df ← lift (keep_best_attempt S df);
  let df := remove_redundant_columns df ["State"; "Time_taken"] in
  let cols_numeric :=
    ["Grade"; "Q1"; "Q2"; "Q3"; "Q4"; "Q5"; "Q6"; "Q7"; "Q8"; "Q9"; "Q10"] in
  let df := clean_numeric_columns parse df cols_numeric in
  let df := map_col "Grade" round_Int64 df in
  let df := scale_cols_to_10000 df [("Q1", 500); ("Q5", 500)] in
  let df := scale_cols_to_10000 df [("Q8", 2000); ("Q9", 2000); ("Q10", 2000)] in
  let df := scale_cols_to_10000 df
              [("Q2", 300); ("Q3", 600); ("Q4", 700); ("Q6", 400); ("Q7", 1000)] in
  mret df.

Definition preprocess_student_rate : M DataFrame :=
  df ← read_csv (file_rate self);
  let df := strip_column_names df in
  let df := mkDF (columns df)
              ((λ r, mkRow (label r) (fillna (Num (QcZ 0)) <$> cells r)) <$> rows df) in
  mret df.

Definition preprocess_sum_test : M DataFrame :=
  df ← read_csv (file_sum self);
  let df := strip_column_names df in
  let rename_map := rename_map_sum_test in
  let df := apply_rename df rename_map in
  _ ← lift (check_required_columns df ["research_id"; "Grade"] "Sum_Test");
  df ← lift (keep_best_attempt S df);
  let df := remove_redundant_columns df ["State"; "Time_taken"] in
  let cols_numeric :=
    ["Grade"; "Q1"; "Q2"; "Q3"; "Q4"; "Q5"; "Q6"; "Q7"; "Q8"; "Q9";
     "Q10"; "Q11"; "Q12"; "Q13"] in
  let df := clean_numeric_columns parse df cols_numeric in
  let df := map_col "Grade" round_Int64 df in
  let df := scale_cols_to_10000 df
              [("Q1", 500); ("Q2", 300); ("Q3", 600); ("Q4", 700); ("Q5", 400);
               ("Q6", 500); ("Q7", 1500); ("Q8", 1500); ("Q9", 1500); ("Q10", 1000);
               ("Q11", 400); ("Q12", 500); ("Q13", 600)] in
  mret df.

(** [run]: there is no [try]/[finally]; an exception raised by a step
    leaves at once, past [conn.close()]. *)
Definition run : M unit :=
  _ ← connect (db_path self);
  df ← preprocess_test_1; _ ← write_table df "Test_1";
  df ← preprocess_test_2; _ ← write_table df "Test_2";
  df ← preprocess_test_3; _ ← write_table df "Test_3";
  df ← preprocess_test_4; _ ← write_table df "Test_4";
  df ← preprocess_mock_test; _ ← write_table df "Mock_Test";
  df ← preprocess_student_rate; _ ← write_table df "Student_Rate";
  df ← preprocess_sum_test; _ ← write_table df "Sum_Test";
  _ ← close;
  emit (Print ("Database written successfully: " +:+ db_path self)).

End Preprocessor.

(** The six assessments whose attempts are deduplicated and rescaled, with
    the pipeline, the CSV file and the [rename_map] of each. *)
Inductive assessment : Type :=
  | Test_1 | Test_2 | Test_3 | Test_4 | Mock_Test | Sum_Test.

Definition table_name (a : assessment) : string :=
  match a with
  | Test_1 => "Test_1" | Test_2 => "Test_2" | Test_3 => "Test_3"
  | Test_4 => "Test_4" | Mock_Test => "Mock_Test" | Sum_Test => "Sum_Test"
  end.

Definition preprocess (S : sorter) (parse : string → option Qc)
    (self : CWPreprocessor) (a : assessment) : M DataFrame :=
  match a with
  | Test_1 => preprocess_test_1 S parse self
  | Test_2 => preprocess_test_2 S parse self
  | Test_3 => preprocess_test_3 S parse self
  | Test_4 => preprocess_test_4 S parse self
  | Mock_Test => preprocess_mock_test S parse self
  | Sum_Test => preprocess_sum_test S parse self
  end.

Definition csv_file (self : CWPreprocessor) (a : assessment) : string :=
  match a with
  | Test_1 => file_test_1 self | Test_2 => file_test_2 self
  | Test_3 => file_test_3 self | Test_4 => file_test_4 self
  | Mock_Test => file_mock self | Sum_Test => file_sum self
  end.

Definition rename_map_of (a : assessment) : list (string * string) :=
  match a with
  | Test_1 => rename_map_test_1 | Test_2 => rename_map_test_2
  | Test_3 => rename_map_test_3 | Test_4 => rename_map_test_4
  | Mock_Test => rename_map_mock_test | Sum_Test => rename_map_sum_test
  end.

(** The frame a pipeline works on after the renaming. *)
Definition renamed (t : Table) (rename_map : list (string * string)) : DataFrame :=
  apply_rename (strip_column_names (frame_of t)) rename_map.

(** The cell of column [c] (its name after the renaming) in row [i] of
    the file. *)
Definition raw_cell (t : Table) (rename_map : list (string * string))
    (c : string) (i : nat) : option cell :=
  body t !! i ≫= cell_at (columns (renamed t rename_map)) c.


(** ** Reading the database *)

(** The rows of ["SELECT research_id, Grade FROM <table>"]: the two
    columns, row by row.  SQLite refuses a table or a column that does not
    exist. *)
Definition select_id_grade (d : gmap string Table) (table : string)
    : result (list (cell * cell)) :=
  match d !! table with
  | Some t =>
      if decide ("research_id" ∈ header t ∧ "Grade" ∈ header t) then
        Ok ((λ r, (get (header t) "research_id" r, get (header t) "Grade" r))
              <$> rows (frame_of t))
      else Raise (DatabaseError ("SELECT research_id, Grade FROM " +:+ table))
  | None => Raise (DatabaseError ("SELECT research_id, Grade FROM " +:+ table))
  end.

(** [pd.read_sql_query("SELECT research_id, Grade FROM <table>", conn)]. *)
Definition read_id_grade (table : string) : M (list (cell * cell)) := λ w,
  (select_id_grade (db w) table, w).

(** [pd.read_sql_query("SELECT * FROM <table>", conn)]. *)
Definition read_table (table : string) : M DataFrame := λ w,
  match db w !! table with
  | Some t => (Ok (frame_of t), w)
  | None => (Raise (DatabaseError ("SELECT * FROM " +:+ table)), w)
  end.

(** ** find_underperforming_students *)

(** A row of the combined formative results. *)
Record formative_row : Type := mkFormative {
  f_id : cell;
  f_grade : Qc;
  f_test : string
}.

(** A row of the result that is printed and plotted. *)
Record under_row : Type := mkUnder {
  research_id : cell;
  Summative_Grade : Qc;
  Lowest_Formative_Grade : option Qc;      (** [None]: NaN after the left join *)
  Lowest_Formative_Test : option string;
  Attempts : nat
}.

Global Instance formative_row_eq_dec : EqDecision formative_row.
Proof. solve_decision. Defined.
Global Instance under_row_eq_dec : EqDecision under_row.
Proof. solve_decision. Defined.

(** [dropna(subset=["research_id", "Grade"])]. *)
Definition dropna (l : list (cell * cell)) : list (cell * cell) :=
  filter (λ p, isna p.1 = false ∧ isna p.2 = false) l.

(** Arithmetic and comparisons with numbers need a numeric Grade column:
    on text pandas raises TypeError. *)
Definition numeric (l : list (cell * cell)) : result (list (cell * Qc)) :=
  match mapM (λ p, match p.2 with Num q => Some (p.1, q) | _ => None end) l with
  | Some l' => Ok l'
  | None => Raise TypeError
  end.

(** An order on identifiers, for sorting and grouping: numbers by value,
    text character by character. *)
Definition kind_rank (c : cell) : nat :=
  match c with NaN => 0 | Num _ => 1 | Str _ => 2 end.

Definition id_le (a b : cell) : Prop :=
  match a, b with
  | Num x, Num y => (x ≤ y)%Qc
  | Str x, Str y => String.le x y
  | _, _ => (kind_rank a ≤ kind_rank b)%nat
  end.

Global Instance id_le_dec : RelDecision id_le.
Proof. intros [| x | x] [| y | y]; simpl; apply _. Defined.

(** The order of [sort_values(["research_id", "Grade", "Test"])]. *)
Definition low_le (r1 r2 : formative_row) : Prop :=
  if decide (f_id r1 = f_id r2) then
    if decide (f_grade r1 = f_grade r2) then String.le (f_test r1) (f_test r2)
    else (f_grade r1 ≤ f_grade r2)%Qc
  else id_le (f_id r1) (f_id r2).

Global Instance low_le_dec : RelDecision low_le.
Proof. intros r1 r2. unfold low_le. repeat case_decide; apply _. Defined.

(** [groupby("research_id").size()]: the keys in ascending order, each with
    the number of its rows. *)
Definition groupby_size (l : list formative_row) : list (cell * nat) :=
  (λ k, (k, length (filter (λ r, f_id r = k) l)))
    <$> merge_sort id_le (remove_dups (f_id <$> l)).

(** [sort_values(["research_id", "Grade", "Test"]).groupby("research_id")
    .first()]: after the sort the rows of a student are together, the first
    of them is the row of the group. *)
Definition lowest_formative (l : list formative_row) : list formative_row :=
  first_of_each f_id [] (merge_sort low_le l).

Definition Qcsum (l : list Qc) : Qc := foldr Qcplus (QcZ 0) l.

(** [Series.mean()]: NaN for an empty column. *)
Definition mean (l : list Qc) : option Qc :=
  match l with
  | [] => None
  | _ => Some (Qcsum l / QcZ (Z.of_nat (length l)))%Qc
  end.

(** [df.sort_values(by="Grade", ascending=True)] on rows whose Grade is a
    number; the sort is numpy's. *)
Definition sort_by_grade (S : sorter) (l : list (cell * Qc)) : list (cell * Qc) :=
  take_rows l (argsort S ((λ p, Num p.2) <$> l)).

(** [pd.merge(left, right, on="research_id", how="left")]: every left row,
    with each of the right rows of the same key, or alone. *)
Definition merge_left {L R} (key_l : L → cell) (key_r : R → cell)
    (left : list L) (right : list R) : list (L * option R) :=
  l ← left;
  match filter (λ r, key_r r = key_l l) right with
  | [] => [(l, None)]
  | ms => (λ r, (l, Some r)) <$> ms
  end.

(** [Grade < sum_average]; a comparison with NaN is false. *)
Definition below (sum_average : option Qc) (g : Qc) : Prop :=
  match sum_average with
  | Some a => (g < a)%Qc
  | None => False
  end.

Global Instance below_dec a g : Decision (below a g).
Proof. destruct a; simpl; apply _. Defined.

(** The formative rows with a number as Grade; TypeError on text. *)
Definition numeric_formative (l : list (cell * cell * string))
    : result (list formative_row) :=
  match mapM (λ p, match p.1.2 with
                   | Num q => Some (mkFormative p.1.1 q p.2)
                   | _ => None
                   end) l with
  | Some l' => Ok l'
  | None => Raise TypeError
  end.

(** Steps 1 to 7 of [find_underperforming_students], on what the queries
    returned: the Sum_Test rows, and the rows of each formative table with
    the table's name. *)
Definition underperforming (S : sorter) (sum_rows : list (cell * cell))
    (formative_results : list (string * list (cell * cell)))
    : result (list under_row) :=
  let df_sum := dropna sum_rows in
  let df_formative :=
    filter (λ p : cell * cell * string, isna p.1.1 = false ∧ isna p.1.2 = false)
      ('(table, l) ← formative_results; (λ p, (p, table)) <$> l) in
  match numeric_formative df_formative with
  | Raise e => Raise e
  | Ok df_formative =>
      let df_attempts :=
        groupby_size (filter (λ r, (QcZ 0 < f_grade r)%Qc) df_formative) in
      let df_attended := filter (λ r, (QcZ 0 < f_grade r)%Qc) df_formative in
      let df_low := lowest_formative df_attended in
      match numeric df_sum with
      | Raise e => Raise e
      | Ok df_sum =>
          let sum_average := mean (snd <$> df_sum) in
          let df_under := filter (λ p, below sum_average p.2) df_sum in
          let df_under := sort_by_grade S df_under in
          let df_result := merge_left fst fst df_under df_attempts in
          let df_result := merge_left (λ p, p.1.1) f_id df_result df_low in
          let df_result :=
            (λ p, mkUnder p.1.1.1 p.1.1.2
                    (f_grade <$> p.2) (f_test <$> p.2)
                    (default 0%nat (snd <$> p.1.2))) <$> df_result in
          Ok (filter (λ r, (3 ≤ Attempts r)%nat) df_result)
      end
  end.

Definition under_table (l : list under_row) : list (list cell) :=
  (λ r, [research_id r; Num (Summative_Grade r);
         from_option Num NaN (Lowest_Formative_Grade r);
         from_option Str NaN (Lowest_Formative_Test r);
         Num (QcZ (Z.of_nat (Attempts r)))]) <$> l.

Definition find_underperforming_students (S : sorter) (db_path : string) : M unit :=
  _ ← connect db_path;
  df_sum ← read_id_grade "Sum_Test";
  formative_results ←
    mapM (λ table, df ← read_id_grade table; mret (table, df))
         ["Test_1"; "Test_2"; "Test_3"; "Test_4"; "Mock_Test"];
  df_result ← lift (underperforming S df_sum formative_results);
  if decide (df_result = []) then
    _ ← emit (Print "No underperforming students found (after inactive filter).");
    close
  else
    _ ← emit (PrintTable (under_table df_result));
    _ ← emit (ShowGroupedBar
                "Underperforming Students: Summative vs Lowest Formative Grade"
                (research_id <$> df_result)
                ((λ r, Num (Summative_Grade r)) <$> df_result)
                ((λ r, Num (default (QcZ 0) (Lowest_Formative_Grade r))) <$> df_result));
    close.

(** ** student_performance *)

(** [df[c]]: the cells of a column. *)
Definition column (df : DataFrame) (c : string) : list cell :=
  get (columns df) c <$> rows df.

(** The numbers among the cells (the others are missing values). *)
Definition numbers (l : list cell) : list Qc :=
  omap (λ c, match c with Num q => Some q | _ => None end) l.

(** The mean of a column, missing values left out; NaN when nothing is
    left; TypeError on text. *)
Definition column_mean (l : list cell) : result cell :=
  if decide (Exists (λ c, is_str c = true) l) then Raise TypeError
  else Ok (from_option Num NaN (mean (numbers l))).

(** [a - b] on cells. *)
Definition cell_sub (a b : cell) : result cell :=
  match a, b with
  | Num x, Num y => Ok (Num (x - y)%Qc)
  | Str _, _ | _, Str _ => Raise TypeError
  | _, _ => Ok NaN
  end.

(** [series == value], on one cell: a missing value equals nothing. *)
Definition cell_eqb (c v : cell) : bool :=
  bool_decide (c = v) && negb (isna c).

Definition question_cols (df : DataFrame) : list string :=
  filter (λ col, String.prefix "Q" col = true) (columns df).

Definition student_performance (db_path : string) (student_id : cell)
    (test_name : string) : M unit :=
  _ ← connect db_path;
  df_test ← read_table test_name;
  _ ← lift (if decide ("research_id" ∈ columns df_test) then Ok tt
            else Raise (KeyError "research_id"));
  let df_student :=
    filter (λ r, cell_eqb (get (columns df_test) "research_id" r) student_id = true)
           (rows df_test) in
  match df_student with
  | [] =>
      _ ← emit (Print "Student ID not found in this test.");
      close
  | r :: _ =>
      let absolute_scores := (λ c, (c, get (columns df_test) c r)) <$> question_cols df_test in
      average_scores ←
        lift (mapM_result (λ c, column_mean (column df_test c)) (question_cols df_test));
      relative_scores ←
        lift (mapM_result (λ p, match cell_sub p.1.2 p.2 with
                                | Ok d => Ok (p.1.1, d)
                                | Raise e => Raise e
                                end)
                (zip absolute_scores average_scores));
      _ ← emit (ShowBar "Score (%)" absolute_scores);
      _ ← emit (ShowBar "Score Difference" relative_scores);
      close
  end.

(** ** Two sorts that meet numpy's contract

    Insertion sort on the pairs (position, value).  [argsort_insertion
    false] puts a value before the equal values that follow it in the input
    (a stable sort); [argsort_insertion true] puts it after them.  Both
    return an ascending order, so both are outcomes that the contract of
    [sorter] allows. *)

Fixpoint insert_pos (after_equal : bool) (x : nat * cell) (l : list (nat * cell))
    : list (nat * cell) :=
  match l with
  | [] => [x]
  | y :: l' =>
      if after_equal then
        if decide (cell_le y.2 x.2) then y :: insert_pos after_equal x l'
        else x :: y :: l'
      else
        if decide (cell_le x.2 y.2) then x :: y :: l'
        else y :: insert_pos after_equal x l'
  end.

Definition argsort_insertion (after_equal : bool) (l : list cell) : list nat :=
  fst <$> foldr (insert_pos after_equal) [] (imap pair l).

(** ** Shapes of frames *)

(** The index labels increase along the rows, as after [read_csv]. *)
Definition ascending_index (df : DataFrame) : Prop :=
  StronglySorted lt (label <$> rows df).



(** Two attempts of one student with the same grade. *)
Definition tied_attempts : DataFrame :=
  frame_of (mkTable ["research_id"; "Grade"]
              [[Str "S1"; Num (QcZ 480)]; [Str "S1"; Num (QcZ 480)]]).

(** Attempts whose Grade column holds text, as [read_csv] returns it when
    one value of the column is the placeholder. *)
Definition text_attempts : DataFrame :=
  frame_of (mkTable ["research_id"; "Grade"]
              [[Str "S1"; Str "100"]; [Str "S1"; Str "90"]; [Str "S2"; Str "-"]]).

(** ** Following a cell through the steps *)

(** What [clean_numeric_columns] makes of a cell of a listed column. *)
Definition coerce (parse : string → option Qc) (c : cell) : cell :=
  fillna (Num (QcZ 0)) (to_numeric_coerce parse (replace_dash c)).

(** [df'] has the rows of [df], each cell of a column [c] outside [dropped]
    changed by [F c]. *)
Definition cellwise (dropped : list string) (F : string → cell → cell)
    (df df' : DataFrame) : Prop :=
  (∀ c, c ∉ dropped → c ∈ columns df' ↔ c ∈ columns df) ∧
  Forall2 (λ r r', label r' = label r ∧
             ∀ c, c ∉ dropped →
               cell_at (columns df') c (cells r') = F c <$> cell_at (columns df) c (cells r))
          (rows df) (rows df').

(** The effect of a list of column updates on a cell of column [name]. *)
Definition fold_cols (fs : list (string * (cell → cell))) (name : string) (x : cell)
    : cell :=
  foldl (λ x p, if decide (name = p.1) then p.2 x else x) x fs.

(** A cell that holds no number: empty, the placeholder, or text that the
    parser does not read. *)
Definition non_numeric (parse : string → option Qc) (x : cell) : Prop :=
  x = NaN ∨ x = Str "-" ∨ ∃ s, x = Str s ∧ parse s = None.

(** The place of an assessment among the steps of [run] (Student_Rate is
    the sixth step, before Sum_Test). *)
Definition position (a : assessment) : nat :=
  match a with
  | Test_1 => 0 | Test_2 => 1 | Test_3 => 2 | Test_4 => 3 | Mock_Test => 4
  | Sum_Test => 6
  end.

(** The database after the tables [l] were written, in that order. *)
Definition with_tables (d : gmap string Table) (l : list (string * DataFrame))
    : gmap string Table :=
  foldl (λ d p, <[p.1 := table_of p.2]> d) d l.


(** How a call leaves the connection it opened: closed when the call
    returns, open when the call raises. *)
Definition closed_unless_raised {A} (w : World) (o : result A * World) : Prop :=
  open_connections o.2
  = match o.1 with
    | Ok _ => open_connections w
    | Raise _ => Datatypes.S (open_connections w)
    end.

(** The combined formative rows of step 2: the rows of the tables in
    their order, each with the name of its table, without the rows that lack
    an identifier or a grade. *)
Definition formative_cells (formative_results : list (string * list (cell * cell)))
    : list (cell * cell * string) :=
  filter (λ p : cell * cell * string, isna p.1.1 = false ∧ isna p.1.2 = false)
    ('(table, l) ← formative_results; (λ p, (p, table)) <$> l).

(** The attempted rows: the formative rows with a grade above 0. *)
Definition attended (l : list formative_row) : list formative_row :=
  filter (λ r, (QcZ 0 < f_grade r)%Qc) l.

(** The attempts of a student: the number of the attempted rows of that
    student. *)
Definition attempts_of (s : cell) (l : list formative_row) : nat :=
  length (filter (λ r, f_id r = s) (attended l)).

(** ** Definitions for the proofs *)

(** The values of the pairs are all numbers or all text. *)
Definition same_kind (l : list (nat * cell)) : Prop :=
  Forall (λ p, is_num p.2 = true) l ∨ Forall (λ p, is_str p.2 = true) l.

(** [a] is not above [b]: a missing value is below everything. *)
Definition grade_le (a b : cell) : Prop := a = NaN ∨ cell_le a b.

(** The shape that the six pipelines share. *)
Definition pipeline (S : sorter) (path : string) (rename_map : list (string * string))
    (name : string) (tail : DataFrame → DataFrame) : M DataFrame :=
  df ← read_csv path;
  let df := apply_rename (strip_column_names df) rename_map in
  _ ← lift (check_required_columns df ["research_id"; "Grade"] name);
  df ← lift (keep_best_attempt S df);
  mret (tail df).

(** What a pipeline does after the deduplication. *)
Definition tail_of (parse : string → option Qc) (a : assessment)
    (df : DataFrame) : DataFrame :=
  let df := remove_redundant_columns df ["State"; "Time_taken"] in
  match a with
  | Test_1 | Test_3 =>
      let df := clean_numeric_columns parse df
                  ["Grade"; "Q1"; "Q2"; "Q3"; "Q4"; "Q5"; "Q6"] in
      let df := normalise_grade_to_10000 df 600 in
      scale_cols_to_100 df ["Q1"; "Q2"; "Q3"; "Q4"; "Q5"; "Q6"]
  | Test_2 =>
      let df := clean_numeric_columns parse df
                  ["Grade"; "Q1"; "Q2"; "Q3"; "Q4"; "Q5"; "Q6"] in
      let df := normalise_grade_to_10000 df 700 in
      let df := scale_cols_to_100 df ["Q1"; "Q2"; "Q3"; "Q5"; "Q6"] in
      scale_cols_to_10000 df [("Q4", 200)]
  | Test_4 =>
      let df := clean_numeric_columns parse df ["Grade"; "Q1"; "Q2"] in
      let df := normalise_grade_to_10000 df 1000 in
      scale_cols_to_10000 df [("Q1", 500); ("Q2", 500)]
  | Mock_Test =>
      let df := clean_numeric_columns parse df
                  ["Grade"; "Q1"; "Q2"; "Q3"; "Q4"; "Q5"; "Q6"; "Q7"; "Q8"; "Q9"; "Q10"] in
      let df := map_col "Grade" round_Int64 df in
      let df := scale_cols_to_10000 df [("Q1", 500); ("Q5", 500)] in
      let df := scale_cols_to_10000 df [("Q8", 2000); ("Q9", 2000); ("Q10", 2000)] in
      scale_cols_to_10000 df
        [("Q2", 300); ("Q3", 600); ("Q4", 700); ("Q6", 400); ("Q7", 1000)]
  | Sum_Test =>
      let df := clean_numeric_columns parse df
                  ["Grade"; "Q1"; "Q2"; "Q3"; "Q4"; "Q5"; "Q6"; "Q7"; "Q8"; "Q9";
                   "Q10"; "Q11"; "Q12"; "Q13"] in
      let df := map_col "Grade" round_Int64 df in
      scale_cols_to_10000 df
        [("Q1", 500); ("Q2", 300); ("Q3", 600); ("Q4", 700); ("Q5", 400);
         ("Q6", 500); ("Q7", 1500); ("Q8", 1500); ("Q9", 1500); ("Q10", 1000);
         ("Q11", 400); ("Q12", 500); ("Q13", 600)]
  end.

(** A step of [run] reads the files and leaves the world as it is. *)
Definition reader {A} (m : M A) : Prop :=
  ∃ f : gmap string Table → result A, ∀ w, m w = (f (files w), w).

(** The steps of [run] between [connect] and [close], in their order. *)
Definition steps (S : sorter) (parse : string → option Qc) (self : CWPreprocessor)
    : list (string * M DataFrame) :=
  [("Test_1", preprocess_test_1 S parse self);
   ("Test_2", preprocess_test_2 S parse self);
   ("Test_3", preprocess_test_3 S parse self);
   ("Test_4", preprocess_test_4 S parse self);
   ("Mock_Test", preprocess_mock_test S parse self);
   ("Student_Rate", preprocess_student_rate self);
   ("Sum_Test", preprocess_sum_test S parse self)].

(** Each step followed by the write of its table, then [k]. *)
Fixpoint write_all (l : list (string * M DataFrame)) (k : M unit) : M unit :=
  match l with
  | [] => k
  | (name, m) :: l' => df ← m; _ ← write_table df name; write_all l' k
  end.

(** The world with the database [d]. *)
Definition set_db (w : World) (d : gmap string Table) : World :=
  mkWorld (files w) d (open_connections w) (output w).

(** The exception of the first step that raises, if any, and the database
    with the tables of the steps before it. *)
Fixpoint written (outcomes : list (string * result DataFrame)) (d : gmap string Table)
    : option exn * gmap string Table :=
  match outcomes with
  | [] => (None, d)
  | (name, Ok df) :: l' => written l' (<[name := table_of df]> d)
  | (_, Raise e) :: _ => (Some e, d)
  end.

(** What each step returns in the world [w]. *)
Definition outcomes (l : list (string * M DataFrame)) (w : World)
    : list (string * result DataFrame) :=
  (λ s, (s.1, (s.2 w).1)) <$> l.

(** The world after [connect]. *)
Definition opened (w : World) : World :=
  mkWorld (files w) (db w) (Datatypes.S (open_connections w)) (output w).

(** The world with the output [es] added. *)
Definition printed (w : World) (es : list event) : World :=
  mkWorld (files w) (db w) (open_connections w) (output w ++ es).

(** The five formative queries, in their order. *)
Definition select_formative (d : gmap string Table)
    : result (list (string * list (cell * cell))) :=
  mapM_result (λ table, match select_id_grade d table with
                        | Ok df => Ok (table, df)
                        | Raise e => Raise e
                        end)
    ["Test_1"; "Test_2"; "Test_3"; "Test_4"; "Mock_Test"].

(** ** The grade in binary64

    The pipelines compute [df["Grade"] * (10000 / grade_total)] and its
    [round] in binary64.  These are the same operations on Rocq's primitive
    floats; [float_rint] is round-half-to-even for values from 0 up to 2^52
    (adding and subtracting 2^52 in the default rounding mode). *)

Definition float_of_Z (z : Z) : float := PrimFloat.of_uint63 (Uint63.of_Z z).

Definition float_rint (x : float) : float :=
  (x + 4503599627370496 - 4503599627370496)%float.

Definition float_normalise (g grade_total : float) : float :=
  float_rint (g * (10000 / grade_total))%float.

(** The binary64 result for the whole-number grade [k] is the integer of
    the exact model. *)
Definition float_agrees (grade_total k : Z) : bool :=
  PrimFloat.eqb (float_normalise (float_of_Z k) (float_of_Z grade_total))
    (float_of_Z (round_half_even (QcZ k * QcZ 10000 / QcZ grade_total))).

(** ** A small world for the examples *)

(** The Test_1 export of the specification's example (section 8): S1 with
    480 of 600 and 0.8 on the first question; a header with stray spaces; a
    second attempt of S1; an attempt of S2 without a grade. *)
Definition example_test_1 : Table :=
  mkTable [" research id"; "State"; "Grade/600 "; "Q 1 /100"]
    [[Str "S1"; Str "Finished"; Num (QcZ 480); Num (Q2Qc (8 # 10))];
     [Str "S1"; Str "Finished"; Num (QcZ 300); Num (Q2Qc (5 # 10))];
     [Str "S2"; Str "In progress"; NaN; Str "-"]].

Definition example_pre : CWPreprocessor :=
  mkPre "cw.db" "test_1.csv" "test_2.csv" "test_3.csv" "test_4.csv"
        "mock.csv" "rate.csv" "sum.csv".

Definition example_world : World :=
  mkWorld {["test_1.csv" := example_test_1]} ∅ 0 [].

(** A Test_2 export without a grade column. *)
Definition example_test_2_no_grade : Table :=
  mkTable ["research id"; "Mark"] [[Str "S1"; Num (QcZ 5)]].

Definition example_world_no_grade : World :=
  mkWorld {["test_1.csv" := example_test_1; "test_2.csv" := example_test_2_no_grade]}
          ∅ 0 [].

(** The normalised Test_1 table of the example. *)
Definition example_test_1_normalised : DataFrame :=
  mkDF ["research_id"; "Grade"; "Q1"]
    [mkRow 0 [Str "S1"; Num (QcZ 8000); Num (QcZ 80)];
     mkRow 2 [Str "S2"; Num (QcZ 0); Num (QcZ 0)]].

(** Seven exports with which the whole run succeeds. *)
Definition example_files : gmap string Table :=
  {[ "test_1.csv" := example_test_1;
     "test_2.csv" := mkTable ["research id"; "Grade/700"; "Q 4 /200"]
                       [[Str "S1"; Num (QcZ 350); Num (Q2Qc (1 # 2))];
                        [Str "S2"; Num (QcZ 700); Num (QcZ 1)]];
     "test_3.csv" := mkTable ["research id"; "Grade/600"]
                       [[Str "S1"; Num (QcZ 120)]; [Str "S2"; NaN]];
     "test_4.csv" := mkTable ["research id"; "Grade/1000"; "Q 1 /500"]
                       [[Str "S1"; Num (QcZ 250); Num (Q2Qc (1 # 4))]];
     "mock.csv" := mkTable ["research id"; "Grade/10000"; "Q 8 /2000"]
                     [[Str "S1"; Num (QcZ 1000); Num (Q2Qc (1 # 2))]];
     "rate.csv" := mkTable ["research id"; "rate "] [[Str "S1"; NaN]];
     "sum.csv" := mkTable ["research id"; "Grade/10000"]
                    [[Str "S1"; Num (QcZ 4000)]; [Str "S2"; Num (QcZ 9000)]] ]}.

Definition example_world_full : World := mkWorld example_files ∅ 0 [].

(** A store that holds the normalised Test_1 table of the example. *)
Definition example_store : World :=
  mkWorld ∅ {["Test_1" := table_of example_test_1_normalised]} 0 [].

(** Summative and formative results of three students.  The mean of the
    summative grades is 17000/3.  A has three attempts, the lowest grade
    twice (Test_2 and Test_1); B has two attempts and a grade 0; C is above
    the mean. *)
Definition example_sum_rows : list (cell * cell) :=
  [(Str "A", Num (QcZ 3000)); (Str "B", Num (QcZ 5000)); (Str "C", Num (QcZ 9000));
   (NaN, Num (QcZ 100)); (Str "D", NaN)].

Definition example_formative : list (string * list (cell * cell)) :=
  [("Test_1", [(Str "A", Num (QcZ 2000)); (Str "B", Num (QcZ 1000))]);
   ("Test_2", [(Str "A", Num (QcZ 2000)); (Str "B", Num (QcZ 0))]);
   ("Test_3", [(Str "A", Num (QcZ 4000)); (Str "B", Num (QcZ 3000))]);
   ("Test_4", [(Str "C", Num (QcZ 8000)); (Str "D", NaN)]);
   ("Mock_Test", [])].

(** The same with a third attempt of B, in the mock test. *)
Definition example_formative_third : list (string * list (cell * cell)) :=
  [("Test_1", [(Str "A", Num (QcZ 2000)); (Str "B", Num (QcZ 1000))]);
   ("Test_2", [(Str "A", Num (QcZ 2000)); (Str "B", Num (QcZ 0))]);
   ("Test_3", [(Str "A", Num (QcZ 4000)); (Str "B", Num (QcZ 3000))]);
   ("Test_4", [(Str "C", Num (QcZ 8000)); (Str "D", NaN)]);
   ("Mock_Test", [(Str "B", Num (QcZ 500))])].

Definition example_ss : list (cell * Qc) :=
  [(Str "A", QcZ 3000); (Str "B", QcZ 5000); (Str "C", QcZ 9000)].

Definition example_fs : list formative_row :=
  [mkFormative (Str "A") (QcZ 2000) "Test_1"; mkFormative (Str "B") (QcZ 1000) "Test_1";
   mkFormative (Str "A") (QcZ 2000) "Test_2"; mkFormative (Str "B") (QcZ 0) "Test_2";
   mkFormative (Str "A") (QcZ 4000) "Test_3"; mkFormative (Str "B") (QcZ 3000) "Test_3";
   mkFormative (Str "C") (QcZ 8000) "Test_4"].

Definition example_result : list under_row :=
  [mkUnder (Str "A") (QcZ 3000) (Some (QcZ 2000)) (Some "Test_1") 3].

(** A parser that reads no text as a number. *)
Definition no_parse : string → option Qc := λ _, None.

(** ** Shapes of strings *)




(** ** The columns of the pipelines *)

(** The columns that the pipeline of an assessment makes numeric (its
    [cols_numeric]). *)
Definition cols_numeric (a : assessment) : list string :=
  match a with
  | Test_1 | Test_2 | Test_3 => ["Grade"; "Q1"; "Q2"; "Q3"; "Q4"; "Q5"; "Q6"]
  | Test_4 => ["Grade"; "Q1"; "Q2"]
  | Mock_Test => ["Grade"; "Q1"; "Q2"; "Q3"; "Q4"; "Q5"; "Q6"; "Q7"; "Q8"; "Q9"; "Q10"]
  | Sum_Test =>
      ["Grade"; "Q1"; "Q2"; "Q3"; "Q4"; "Q5"; "Q6"; "Q7"; "Q8"; "Q9";
       "Q10"; "Q11"; "Q12"; "Q13"]
  end.

(** The question columns that the pipeline of an assessment rescales, each
    with the factor of its call: 100 in [scale_cols_to_100], and
    [10000 / max_score] in [scale_cols_to_10000]. *)
Definition question_factor (a : assessment) : list (string * Qc) :=
  let percent (c : string) := (c, QcZ 100) in
  let of_max (p : string * Z) := (p.1, (QcZ 10000 / QcZ p.2)%Qc) in
  match a with
  | Test_1 | Test_3 => percent <$> ["Q1"; "Q2"; "Q3"; "Q4"; "Q5"; "Q6"]
  | Test_2 => (percent <$> ["Q1"; "Q2"; "Q3"; "Q5"; "Q6"]) ++ (of_max <$> [("Q4", 200)])
  | Test_4 => of_max <$> [("Q1", 500); ("Q2", 500)]
  | Mock_Test =>
      of_max <$> [("Q1", 500); ("Q5", 500); ("Q8", 2000); ("Q9", 2000); ("Q10", 2000);
                  ("Q2", 300); ("Q3", 600); ("Q4", 700); ("Q6", 400); ("Q7", 1000)]
  | Sum_Test =>
      of_max <$> [("Q1", 500); ("Q2", 300); ("Q3", 600); ("Q4", 700); ("Q5", 400);
                  ("Q6", 500); ("Q7", 1500); ("Q8", 1500); ("Q9", 1500); ("Q10", 1000);
                  ("Q11", 400); ("Q12", 500); ("Q13", 600)]
  end.

(** The research_id of row [i] of the file, as [df["research_id"]] gives
    it after the renaming. *)
Definition raw_id (t : Table) (rename_map : list (string * string)) (i : nat) : cell :=
  default NaN (raw_cell t rename_map "research_id" i).

(** A frame with question scores as fractions: S1, and S2 without a score
    for the first question. *)
Definition example_scores : DataFrame :=
  mkDF ["research_id"; "Q1"; "Q4"]
    [mkRow 0 [Str "S1"; Num (Q2Qc (8 # 10)); Num (QcZ 150)];
     mkRow 2 [Str "S2"; NaN; Num (QcZ 200)]].

(** ** Frames as SQLite stores them *)


(** The identifiers of the six assessment tables of a database are text
    (or missing), as in the exports: no research_id is a number. *)
Definition text_ids (d : gmap string Table) : Prop :=
  Forall (λ name,
            match d !! name with
            | Some t => Forall (λ r, is_num (get (header t) "research_id" r) = false)
                               (rows (frame_of t))
            | None => True
            end)
         ["Sum_Test"; "Test_1"; "Test_2"; "Test_3"; "Test_4"; "Mock_Test"].

(** ** Sanity checks of the rounding rule *)

Example round_half_even_examples :
  round_half_even (Q2Qc (5 # 2)) = 2 ∧
  round_half_even (Q2Qc (7 # 2)) = 4 ∧
  round_half_even (Q2Qc (-5 # 2)) = -2 ∧
  round_half_even (Q2Qc (8 # 3)) = 3 ∧
  round_half_even (Q2Qc (7 # 3)) = 2 ∧
  round_half_even (QcZ 8000) = 8000.
Proof. repeat split; vm_compute; reflexivity. Qed.

(** ** Properties of the two insertion sorts *)

Lemma cell_le_total_kind (a b : cell) :
  (is_num a = true ∧ is_num b = true) ∨ (is_str a = true ∧ is_str b = true) →
  cell_le a b ∨ cell_le b a.
Proof.
  destruct a as [| x | x], b as [| y | y]; simpl; intros [[??]|[??]]; try done.
  - destruct (total Qcle x y); auto.
  - destruct (total String.le x y); auto.
Qed.

Global Instance cell_le_trans : Transitive cell_le.
Proof.
  intros [| x | x] [| y | y] [| z | z]; simpl; try done.
  - apply Qcle_trans.
  - intros ??. by etrans.
Qed.

Lemma insert_pos_perm f x l : insert_pos f x l ≡ₚ x :: l.
Proof.
  induction l as [| y l IH]; simpl; [done|].
  destruct f; case_decide; try done; rewrite IH; apply Permutation_swap.
Qed.

Lemma isort_pos_perm f l : foldr (insert_pos f) [] l ≡ₚ l.
Proof.
  induction l as [| x l IH]; simpl; [done|].
  by rewrite insert_pos_perm, IH.
Qed.

Lemma same_kind_total (x : nat * cell) l y :
  same_kind (x :: l) → y ∈ l → cell_le x.2 y.2 ∨ cell_le y.2 x.2.
Proof.
  intros [H|H] Hy; apply Forall_cons in H as [Hx H];
    rewrite Forall_forall in H; specialize (H _ Hy);
    apply cell_le_total_kind; auto.
Qed.

Lemma insert_pos_HdRel f x a l :
  cell_le a.2 x.2 → HdRel (λ p q, cell_le p.2 q.2) a l →
  HdRel (λ p q, cell_le p.2 q.2) a (insert_pos f x l).
Proof.
  intros Hax Hal. destruct l as [| y l]; simpl; [by constructor|].
  apply HdRel_inv in Hal.
  destruct f; case_decide; by constructor.
Qed.

Lemma insert_pos_Sorted f x l :
  same_kind (x :: l) →
  Sorted (λ p q, cell_le p.2 q.2) l →
  Sorted (λ p q, cell_le p.2 q.2) (insert_pos f x l).
Proof.
  intros Hk Hs. induction Hs as [| y l Hs IH Hy]; simpl.
  { repeat constructor. }
  assert (cell_le x.2 y.2 ∨ cell_le y.2 x.2) as Htot.
  { apply (same_kind_total x (y :: l)); [done | by left]. }
  assert (same_kind (x :: l)) as Hk'.
  { destruct Hk as [Hk|Hk]; [left|right];
      apply Forall_cons in Hk as [? Hk]; apply Forall_cons in Hk as [? Hk];
      by constructor. }
  destruct f; case_decide.
  - constructor; [by apply IH|]. by apply insert_pos_HdRel.
  - constructor; [by constructor|]. constructor. tauto.
  - constructor; [by constructor|]. by constructor.
  - constructor; [by apply IH|]. apply insert_pos_HdRel; [tauto | done].
Qed.

Lemma isort_pos_Sorted f l :
  same_kind l → Sorted (λ p q, cell_le p.2 q.2) (foldr (insert_pos f) [] l).
Proof.
  induction l as [| x l IH]; simpl; intros Hk; [constructor|].
  assert (same_kind l) as Hk'.
  { destruct Hk as [Hk|Hk]; [left|right]; by apply Forall_cons in Hk as [? Hk]. }
  apply insert_pos_Sorted; [|by apply IH].
  destruct Hk as [Hk|Hk]; [left|right];
    apply Forall_cons in Hk as [? Hk]; constructor; try done;
    by rewrite (isort_pos_perm f l).
Qed.

Lemma imap_pair_fst {A} (l : list A) k :
  fst <$> imap (λ i, pair (k + i)%nat) l = seq k (length l).
Proof.
  revert k. induction l as [| x l IH]; intros k; simpl; [done|].
  rewrite Nat.add_0_r. f_equal.
  rewrite <- (IH (S k)). f_equal. apply imap_ext. intros i y _. simpl. f_equal. lia.
Qed.

Lemma imap_pair_lookup {A} (l : list A) i x :
  (i, x) ∈ imap pair l → l !! i = Some x.
Proof.
  intros H. apply list_elem_of_lookup in H as [j Hj].
  rewrite list_lookup_imap in Hj.
  destruct (l !! j) eqn:E; simplify_eq/=. done.
Qed.

Lemma take_rows_pairs {A} (l : list A) (ps : list (nat * A)) :
  (∀ p, p ∈ ps → l !! p.1 = Some p.2) →
  take_rows l (fst <$> ps) = snd <$> ps.
Proof.
  unfold take_rows. induction ps as [| p ps IH]; intros H; simpl; [done|].
  rewrite (H p) by left. simpl. f_equal. apply IH. intros q Hq. apply H. by right.
Qed.

Lemma comparable_same_kind (l : list cell) :
  comparable l → same_kind (imap pair l).
Proof.
  unfold comparable, same_kind. intros H.
  apply Is_true_true, orb_true_iff in H as [H|H]; [left|right];
    rewrite forallb_forall in H; apply Forall_forall; intros [i x] Hx;
    apply imap_pair_lookup in Hx; apply H, list_elem_of_In;
    by eapply list_elem_of_lookup_2.
Qed.

Lemma argsort_insertion_perm f l : argsort_insertion f l ≡ₚ seq 0 (length l).
Proof.
  unfold argsort_insertion. rewrite isort_pos_perm.
  by rewrite <- (imap_pair_fst l 0).
Qed.

Lemma argsort_insertion_sorted f l :
  comparable l → Sorted cell_le (take_rows l (argsort_insertion f l)).
Proof.
  intros Hc. unfold argsort_insertion.
  rewrite take_rows_pairs.
  - pose proof (isort_pos_Sorted f _ (comparable_same_kind l Hc)) as Hs.
    induction Hs as [| p ps Hs IH Hp]; simpl; constructor; [done|].
    destruct Hp; simpl; by constructor.
  - intros [i x] Hp. rewrite (isort_pos_perm f) in Hp.
    by apply imap_pair_lookup.
Qed.

(** The stable insertion sort, and the one that reverses equal values. *)
Definition stable_sorter : sorter :=
  mkSorter (argsort_insertion false)
           (argsort_insertion_perm false) (argsort_insertion_sorted false).

Definition reversing_sorter : sorter :=
  mkSorter (argsort_insertion true)
           (argsort_insertion_perm true) (argsort_insertion_sorted true).

(** ** keep_best_attempt *)

Section first_of_each.
Context {A : Type} (key : A → cell).

Lemma first_of_each_sublist seen l : first_of_each key seen l `sublist_of` l.
Proof.
  revert seen. induction l as [| r l IH]; intros seen; simpl; [done|].
  case_decide; [apply sublist_cons | apply sublist_skip]; apply IH.
Qed.

Lemma first_of_each_not_seen seen l y :
  y ∈ first_of_each key seen l → key y ∉ seen.
Proof.
  revert seen. induction l as [| r l IH]; intros seen; simpl; [by inv 1|].
  case_decide as Hr; [apply IH|].
  intros [->|Hy]%elem_of_cons; [done|].
  apply IH in Hy. set_solver.
Qed.

Lemma first_of_each_NoDup seen l : NoDup (key <$> first_of_each key seen l).
Proof.
  revert seen. induction l as [| r l IH]; intros seen; simpl; [constructor|].
  case_decide; [apply IH|]. csimpl. constructor; [|apply IH].
  intros (y & Hk & Hy)%list_elem_of_fmap.
  apply first_of_each_not_seen in Hy. rewrite Hk in Hy. set_solver.
Qed.

(** Every row has a kept row of its key at or before it. *)
Lemma first_of_each_before seen l x :
  x ∈ l → key x ∉ seen →
  ∃ y l1 l2, l = l1 ++ y :: l2 ∧ y ∈ first_of_each key seen l ∧
             key y = key x ∧ (x = y ∨ x ∈ l2).
Proof.
  revert seen. induction l as [| r l IH]; intros seen Hx Hseen; [by inv Hx|].
  simpl. case_decide as Hr.
  - apply elem_of_cons in Hx as [->|Hx]; [done|].
    destruct (IH seen Hx Hseen) as (y & l1 & l2 & -> & Hy & Hk & Hor).
    exists y, (r :: l1), l2. done.
  - destruct (decide (key x = key r)) as [Hk|Hk].
    + exists r, [], l. split_and!; [done | by left | done |].
      apply elem_of_cons in Hx as [->|Hx]; auto.
    + apply elem_of_cons in Hx as [->|Hx]; [done|].
      destruct (IH (key r :: seen) Hx) as (y & l1 & l2 & -> & Hy & Hk' & Hor).
      { set_solver. }
      exists y, (r :: l1), l2. split_and!; [done | by right | done | done].
Qed.

End first_of_each.

Lemma NoDup_sublist {A} (l1 l2 : list A) :
  l1 `sublist_of` l2 → NoDup l2 → NoDup l1.
Proof. intros Hs Hn. revert Hs. by apply sublist_NoDup. Qed.

Lemma NoDup_fmap_eq {A B} (f : A → B) (l : list A) x y :
  NoDup (f <$> l) → x ∈ l → y ∈ l → f x = f y → x = y.
Proof.
  induction l as [| z l IH]; csimpl; intros Hnd Hx Hy Hf; [by inv Hx|].
  apply NoDup_cons in Hnd as [Hz Hnd].
  apply elem_of_cons in Hx as [->|Hx]; apply elem_of_cons in Hy as [->|Hy]; auto.
  - exfalso. apply Hz. rewrite Hf. by apply list_elem_of_fmap_2.
  - exfalso. apply Hz. rewrite <- Hf. by apply list_elem_of_fmap_2.
Qed.

(** A list in strictly ascending order that draws its elements from
    another one keeps the order of that one. *)
Lemma ascending_incl_sublist {A} (f : A → nat) (l1 l2 : list A) :
  StronglySorted (λ a b, (f a < f b)%nat) l1 →
  StronglySorted (λ a b, (f a < f b)%nat) l2 →
  l1 ⊆ l2 → l1 `sublist_of` l2.
Proof.
  intros H1 H2. revert l1 H1.
  induction H2 as [| y l2 H2 IH Hy]; intros l1 H1 Hincl.
  { destruct l1 as [| x l1]; [done|]. specialize (Hincl x). set_solver. }
  destruct H1 as [| x l1 H1 Hx]; [apply sublist_nil_l|].
  rewrite Forall_forall in Hx, Hy.
  assert (∀ z, z ∈ l1 → z ∈ l2) as Htail.
  { intros z Hz. assert (z ∈ y :: l2) as Hz' by (apply Hincl; by right).
    apply elem_of_cons in Hz' as [->|]; [|done].
    assert (x ∈ y :: l2) as Hx' by (apply Hincl; by left).
    apply elem_of_cons in Hx' as [->|Hx'].
    - specialize (Hx _ Hz). lia.
    - specialize (Hx _ Hz). specialize (Hy _ Hx'). lia. }
  assert (x ∈ y :: l2) as Hx' by (apply Hincl; by left).
  apply elem_of_cons in Hx' as [->|Hx'].
  - apply sublist_skip, IH; [done|]. intros z Hz. by apply Htail.
  - apply sublist_cons, IH; [by constructor; [|apply Forall_forall]|].
    intros z [->|Hz]%elem_of_cons; [done | by apply Htail].
Qed.

Lemma take_rows_seq {A} (l0 l : list A) :
  take_rows (l0 ++ l) (seq (length l0) (length l)) = l.
Proof.
  unfold take_rows. revert l0. induction l as [| x l IH]; intros l0; simpl; [done|].
  rewrite list_lookup_middle by done. simpl. f_equal.
  specialize (IH (l0 ++ [x])).
  rewrite length_app, <- (assoc_L (++)) in IH. simpl in IH.
  by rewrite Nat.add_1_r in IH.
Qed.

Lemma take_rows_perm {A} (l : list A) idx :
  idx ≡ₚ seq 0 (length l) → take_rows l idx ≡ₚ l.
Proof.
  intros H. unfold take_rows. rewrite H. apply reflexive_eq, (take_rows_seq [] l).
Qed.

Lemma take_rows_fmap {A B} (f : A → B) (l : list A) idx :
  f <$> take_rows l idx = take_rows (f <$> l) idx.
Proof.
  unfold take_rows. induction idx as [| i idx IH]; simpl; [done|].
  rewrite list_lookup_fmap. destruct (l !! i); simpl; [by f_equal|done].
Qed.

Lemma StronglySorted_weaken {A} (R1 R2 : relation A) (l : list A) :
  (∀ x y, R1 x y → R2 x y) → StronglySorted R1 l → StronglySorted R2 l.
Proof.
  intros HR. induction 1 as [| x l Hs IH Hx]; constructor; [done|].
  eapply Forall_impl; [exact Hx|]. intros y. apply HR.
Qed.

Lemma StronglySorted_fmap_inv {A B} (f : A → B) (R : relation B) (l : list A) :
  StronglySorted R (f <$> l) → StronglySorted (λ a b, R (f a) (f b)) l.
Proof.
  induction l as [| x l IH]; csimpl; intros H; [constructor|].
  apply StronglySorted_cons in H as [H1 H2]. constructor; [by apply IH|].
  apply Forall_forall. intros y Hy. rewrite Forall_forall in H1.
  by apply H1, list_elem_of_fmap_2.
Qed.

Lemma filter_isna_split {A} (key : A → cell) (l : list A) :
  filter (λ r, isna (key r) = false) l ++ filter (λ r, isna (key r) = true) l ≡ₚ l.
Proof.
  induction l as [| x l IH]; [done|].
  rewrite !filter_cons. destruct (isna (key x)) eqn:E; repeat case_decide; try done.
  - rewrite <- Permutation_middle. by apply Permutation_skip.
  - simpl. by apply Permutation_skip.
Qed.

Lemma sort_values_desc_spec (S : sorter) (c : string) (df : DataFrame) :
  c ∈ columns df →
  comparable (get (columns df) c <$>
              filter (λ r, isna (get (columns df) c r) = false) (rows df)) →
  ∃ out, sort_values_desc S c df = Ok (mkDF (columns df) out) ∧
         out ≡ₚ rows df ∧
         StronglySorted (λ a b, grade_le (get (columns df) c b) (get (columns df) c a)) out.
Proof.
  intros Hc Hcmp. unfold sort_values_desc.
  rewrite decide_True by done.
  set (key := get (columns df) c) in *.
  set (nonnan := filter (λ r, isna (key r) = false) (rows df)) in *.
  set (nan := filter (λ r, isna (key r) = true) (rows df)).
  assert (comparable (key <$> reverse nonnan)) as Hcmp'.
  { unfold comparable in *. apply Is_true_true. apply Is_true_true in Hcmp.
    rewrite fmap_reverse.
    rewrite !orb_true_iff, !forallb_forall in *.
    destruct Hcmp as [H|H]; [left|right]; intros x Hx; apply H;
      apply list_elem_of_In; apply list_elem_of_In in Hx; by apply elem_of_reverse. }
  destruct (comparable (key <$> nonnan)); [|done].
  eexists. split; [done|].
  pose proof (argsort_perm S (key <$> reverse nonnan)) as Hperm.
  rewrite length_fmap in Hperm.
  split.
  - rewrite reverse_Permutation, (take_rows_perm _ _ Hperm), reverse_Permutation.
    apply filter_isna_split.
  - apply StronglySorted_app_2.
    + intros a b _ Hb. left. apply list_elem_of_filter in Hb as [Hb _].
      by destruct (key b).
    + apply StronglySorted_fmap_inv with (R := λ x y, grade_le y x).
      rewrite fmap_reverse, take_rows_fmap.
      pose proof (argsort_sorted S _ Hcmp') as Hs.
      apply Sorted_reverse in Hs.
      apply (Sorted_StronglySorted (flip cell_le)) in Hs.
      eapply StronglySorted_weaken; [|exact Hs]. intros x y. by right.
    + assert (Forall (λ r, key r = NaN) nan) as Hn.
      { apply Forall_forall. intros r Hr. apply list_elem_of_filter in Hr as [Hr _].
        by destruct (key r). }
      induction Hn as [| r l Hr Hn IH]; constructor; [done|].
      apply Forall_forall. intros b Hb. left.
      rewrite Forall_forall in Hn. by apply Hn.
Qed.

Lemma grade_le_refl (a : cell) : grade_le a a.
Proof. destruct a; [by left | right; simpl; done | right; simpl; done]. Qed.

Global Instance label_le_trans : Transitive label_le.
Proof. unfold label_le. intros ???. lia. Qed.
Global Instance label_le_total : Total label_le.
Proof. unfold label_le. intros ??. lia. Qed.

Lemma StronglySorted_le_lt {A} (f : A → nat) (l : list A) :
  StronglySorted (λ a b, (f a ≤ f b)%nat) l → NoDup (f <$> l) →
  StronglySorted (λ a b, (f a < f b)%nat) l.
Proof.
  induction 1 as [| x l Hs IH Hx]; csimpl; intros Hnd; [constructor|].
  apply NoDup_cons in Hnd as [Hx' Hnd]. constructor; [by apply IH|].
  apply Forall_forall. intros y Hy. rewrite Forall_forall in Hx.
  specialize (Hx _ Hy).
  assert (f x ≠ f y); [|lia].
  intros Heq. apply Hx'. rewrite Heq. by apply list_elem_of_fmap_2.
Qed.

Lemma ascending_index_NoDup (df : DataFrame) :
  ascending_index df → NoDup (label <$> rows df).
Proof.
  unfold ascending_index. generalize (label <$> rows df). intros l.
  induction 1 as [| x l Hs IH Hx]; constructor; [|done].
  intros Hin. rewrite Forall_forall in Hx. specialize (Hx _ Hin). lia.
Qed.

(** What [keep_best_attempt] does whenever the Grade column can be sorted
    (all numbers or all text): one row for every identifier, not below any
    row of that identifier in the order of the sort, the kept rows in the
    order of the file. *)
Lemma keep_best_attempt_sorted (S : sorter) (df : DataFrame) :
  "Grade" ∈ columns df → "research_id" ∈ columns df →
  ascending_index df →
  comparable (get (columns df) "Grade" <$>
              filter (λ r, isna (get (columns df) "Grade" r) = false) (rows df)) →
  ∃ out, keep_best_attempt S df = Ok (mkDF (columns df) out) ∧
         out `sublist_of` rows df ∧
         NoDup (get (columns df) "research_id" <$> out) ∧
         ∀ r, r ∈ rows df →
           ∃ r', r' ∈ out ∧
                 get (columns df) "research_id" r' = get (columns df) "research_id" r ∧
                 grade_le (get (columns df) "Grade" r) (get (columns df) "Grade" r').
Proof.
  intros Hg Hid Hasc Hcmp.
  destruct (sort_values_desc_spec S "Grade" df Hg Hcmp) as (sorted & Hsort & Hperm & Hss).
  unfold keep_best_attempt. rewrite Hsort.
  unfold drop_duplicates. simpl. rewrite decide_True by done.
  set (kid := get (columns df) "research_id").
  set (dedup := first_of_each kid [] sorted).
  eexists. split; [done|]. simpl.
  assert (merge_sort label_le dedup ≡ₚ dedup) as Hout by apply merge_sort_Permutation.
  assert (dedup `sublist_of` sorted) as Hsub by apply first_of_each_sublist.
  split_and!.
  - apply (ascending_incl_sublist label).
    + apply StronglySorted_le_lt.
      * apply (StronglySorted_merge_sort label_le).
      * rewrite Hout. apply (NoDup_sublist (label <$> dedup) (label <$> sorted));
          [exact (fmap_sublist label _ _ Hsub)|].
        rewrite Hperm. by apply ascending_index_NoDup.
    + by apply StronglySorted_fmap_inv.
    + intros x Hx. rewrite Hout in Hx. rewrite <- Hperm.
      by eapply elem_of_sublist.
  - rewrite Hout. apply first_of_each_NoDup.
  - intros r Hr. rewrite <- Hperm in Hr.
    destruct (first_of_each_before kid [] sorted r Hr) as (y & l1 & l2 & Heq & Hy & Hk & Hor).
    { set_solver. }
    exists y. split_and!; [by rewrite Hout | done |].
    destruct Hor as [->|Hr2]; [apply grade_le_refl|].
    rewrite Heq in Hss. apply StronglySorted_app_1_r, StronglySorted_cons in Hss as [Hss _].
    rewrite Forall_forall in Hss. by apply Hss.
Qed.

(** *** Equal grades under a stable sort *)

Lemma StronglySorted_lookup {A} (R : relation A) (l : list A) :
  StronglySorted R l ↔
  ∀ i j x y, (i < j)%nat → l !! i = Some x → l !! j = Some y → R x y.
Proof.
  split.
  - induction 1 as [| z l Hs IH Hz]; intros i j x y Hij Hi Hj; [done|].
    destruct j as [| j]; [lia|]. simpl in Hj.
    destruct i as [| i]; simpl in Hi.
    + simplify_eq. rewrite Forall_forall in Hz. apply Hz.
      by eapply list_elem_of_lookup_2.
    + apply (IH i j); [lia | done | done].
  - induction l as [| z l IH]; intros H; constructor.
    + apply IH. intros i j x y Hij Hi Hj. apply (H (S i) (S j)); [lia | done | done].
    + apply Forall_forall. intros y Hy. apply list_elem_of_lookup in Hy as [j Hj].
      apply (H 0%nat (S j)); [lia | done | done].
Qed.


Lemma StronglySorted_sublist {A} (R : relation A) (l1 l2 : list A) :
  l1 `sublist_of` l2 → StronglySorted R l2 → StronglySorted R l1.
Proof.
  induction 1 as [| x l1 l2 Hsub IH | x l1 l2 Hsub IH]; intros H; [done|..].
  - apply StronglySorted_cons in H as [Hx H]. constructor; [by apply IH|].
    rewrite Forall_forall in *. intros y Hy. apply Hx. by eapply elem_of_sublist.
  - apply StronglySorted_cons in H as [_ H]. by apply IH.
Qed.




Lemma insert_pos_stable (x : nat * cell) (l : list (nat * cell)) :
  Forall (λ y, (x.1 < y.1)%nat) l → cell_le x.2 x.2 →
  StronglySorted (λ p q, p.2 = q.2 → (p.1 < q.1)%nat) l →
  StronglySorted (λ p q, p.2 = q.2 → (p.1 < q.1)%nat) (insert_pos false x l).
Proof.
  intros Hx Hrefl Hs. induction Hs as [| y l Hs IH Hy]; simpl.
  { repeat constructor. }
  apply Forall_cons in Hx as [Hxy Hx].
  case_decide as Hle.
  - constructor; [by constructor|].
    constructor; [done|]. eapply Forall_impl; [exact Hx|]. by intros z Hz _.
  - constructor; [by apply IH|].
    rewrite (insert_pos_perm false x l). constructor; [|done].
    intros Heq. exfalso. apply Hle. rewrite Heq. exact Hrefl.
Qed.

Lemma isort_pos_stable (l : list (nat * cell)) :
  StronglySorted (λ p q, (p.1 < q.1)%nat) l → Forall (λ p, cell_le p.2 p.2) l →
  StronglySorted (λ p q, p.2 = q.2 → (p.1 < q.1)%nat) (foldr (insert_pos false) [] l).
Proof.
  induction 1 as [| x l Hs IH Hx]; simpl; intros Hr; [constructor|].
  apply Forall_cons in Hr as [Hrx Hr].
  apply insert_pos_stable; [|done|by apply IH].
  by rewrite (isort_pos_perm false l).
Qed.

Lemma stable_sorter_stable : stable stable_sorter.
Proof.
  intros l i j a b Hcmp Hij Ha Hb Hab. simpl in Ha, Hb.
  unfold argsort_insertion in Ha, Hb.
  set (ps := foldr (insert_pos false) [] (imap pair l)) in *.
  rewrite list_lookup_fmap in Ha, Hb.
  destruct (ps !! i) as [[a' ka]|] eqn:Ei; simplify_eq/=.
  destruct (ps !! j) as [[b' kb]|] eqn:Ej; simplify_eq/=.
  assert (∀ p, p ∈ ps → l !! p.1 = Some p.2) as Hin.
  { intros [n k] Hp. unfold ps in Hp. rewrite (isort_pos_perm false) in Hp.
    by apply imap_pair_lookup. }
  pose proof (Hin _ (list_elem_of_lookup_2 _ _ _ Ei)) as Hka.
  pose proof (Hin _ (list_elem_of_lookup_2 _ _ _ Ej)) as Hkb.
  simpl in Hka, Hkb.
  assert (StronglySorted (λ p q, p.2 = q.2 → (p.1 < q.1)%nat) ps) as Hs.
  { apply isort_pos_stable.
    - apply StronglySorted_fmap_inv with (f := fst) (R := lt).
      replace (fst <$> imap pair l) with (seq 0 (length l))
        by (symmetry; apply (imap_pair_fst l 0)).
      apply StronglySorted_lookup.
      intros n m x y Hnm Hx Hy. apply lookup_seq in Hx, Hy. lia.
    - apply Forall_forall. intros [n k] Hp. apply imap_pair_lookup in Hp. simpl.
      apply list_elem_of_lookup_2 in Hp.
      unfold comparable in Hcmp. apply Is_true_true, orb_true_iff in Hcmp.
      rewrite !forallb_forall in Hcmp. apply list_elem_of_In in Hp.
      destruct Hcmp as [H|H]; specialize (H _ Hp); destruct k; simpl in *; done. }
  rewrite StronglySorted_lookup in Hs.
  apply (Hs i j _ _ Hij Ei Ej). simpl. congruence.
Qed.



Lemma frame_of_ascending (t : Table) : ascending_index (frame_of t).
Proof.
  unfold ascending_index, frame_of. simpl.
  apply StronglySorted_lookup. intros i j x y Hij Hi Hj.
  rewrite list_lookup_fmap, list_lookup_imap in Hi, Hj.
  destruct (body t !! i); destruct (body t !! j); simplify_eq/=. done.
Qed.




(** The stable sort keeps the first of the two tied attempts. *)
Example keep_best_attempt_tie_stable :
  keep_best_attempt stable_sorter tied_attempts
    = Ok (mkDF ["research_id"; "Grade"] [mkRow 0 [Str "S1"; Num (QcZ 480)]]).
Proof. apply (bool_decide_unpack _). vm_compute. exact I. Qed.

(** A Grade column of text is sorted character by character, because the
    attempts are compared before the column is made numeric: of the grades
    100 and 90 of S1 the row with 90 is kept. *)
Example keep_best_attempt_text_grades :
  keep_best_attempt stable_sorter text_attempts
    = Ok (mkDF ["research_id"; "Grade"]
            [mkRow 1 [Str "S1"; Str "90"]; mkRow 2 [Str "S2"; Str "-"]]).
Proof. apply (bool_decide_unpack _). vm_compute. exact I. Qed.

(** ** Cells through the steps of a pipeline *)

Lemma col_pos_lookup (c : string) (cols : list string) i :
  col_pos c cols = Some i → cols !! i = Some c.
Proof.
  revert i. induction cols as [| x cols IH]; intros i; simpl; [done|].
  case_decide as Hx; [by intros [= <-]; subst|].
  destruct (col_pos c cols) as [j|]; simpl; [|done].
  intros [= <-]. by apply IH.
Qed.

Lemma col_pos_elem_of (c : string) (cols : list string) :
  c ∈ cols ↔ is_Some (col_pos c cols).
Proof.
  induction cols as [| x cols IH]; simpl.
  - split; [by inv 1 | by intros [? ?]].
  - case_decide as Hx; [subst; split; [by eauto | by left]|].
    rewrite elem_of_cons, IH, fmap_is_Some. naive_solver.
Qed.

Lemma cell_at_zip_with (h : string → cell → cell) cols c cs :
  cell_at cols c (zip_with h cols cs) = h c <$> cell_at cols c cs.
Proof.
  unfold cell_at. destruct (col_pos c cols) as [i|] eqn:E; simpl; [|done].
  apply col_pos_lookup in E. rewrite lookup_zip_with, E. simpl.
  by destruct (cs !! i).
Qed.

Lemma cell_at_fmap (f : cell → cell) cols c cs :
  cell_at cols c (f <$> cs) = f <$> cell_at cols c cs.
Proof.
  unfold cell_at. destruct (col_pos c cols) as [i|]; simpl; [|done].
  by rewrite list_lookup_fmap.
Qed.

Lemma cell_at_nil cols c : cell_at cols c [] = None.
Proof. unfold cell_at. by destruct (col_pos c cols). Qed.

Lemma cell_at_cons_eq c cols y cs : cell_at (c :: cols) c (y :: cs) = Some y.
Proof. unfold cell_at. simpl. by rewrite decide_True. Qed.

Lemma cell_at_cons_ne x c cols y cs :
  x ≠ c → cell_at (x :: cols) c (y :: cs) = cell_at cols c cs.
Proof.
  intros Hx. unfold cell_at. simpl. rewrite decide_False by done.
  by destruct (col_pos c cols).
Qed.

Lemma cell_at_drop (ex : list string) cols c cs :
  c ∉ ex →
  cell_at (filter (λ x, x ∉ ex) cols) c
          (snd <$> filter (λ p : string * cell, p.1 ∉ ex) (zip cols cs))
  = cell_at cols c cs.
Proof.
  intros Hc. revert cs.
  induction cols as [| x cols IH]; intros cs; [done|].
  destruct cs as [| y cs].
  { simpl. by rewrite !cell_at_nil. }
  simpl zip. rewrite !filter_cons. simpl.
  destruct (decide (x ∉ ex)) as [Hx|Hx]; simpl.
  - destruct (decide (x = c)) as [->|Hxc].
    + by rewrite !cell_at_cons_eq.
    + by rewrite !cell_at_cons_ne.
  - destruct (decide (x = c)) as [->|Hxc]; [done|].
    by rewrite cell_at_cons_ne.
Qed.

Section cellwise.
Context (dropped : list string).

Lemma cellwise_refl df : cellwise dropped (λ _ x, x) df df.
Proof.
  split; [done|]. apply Forall2_same_length_lookup_2; [done|].
  intros i r r' Hr Hr'. simplify_eq. split; [done|]. intros c _.
  by destruct (cell_at _ _ _).
Qed.

Lemma cellwise_trans F G df1 df2 df3 :
  cellwise dropped F df1 df2 → cellwise dropped G df2 df3 →
  cellwise dropped (λ c x, G c (F c x)) df1 df3.
Proof.
  intros [Hc1 H1] [Hc2 H2]. split.
  { intros c Hc. by rewrite Hc2, Hc1. }
  revert H2. generalize (rows df3). induction H1 as [| r r' l l' [Hl Hr] H1 IH];
    intros l3 H2; inv H2 as [| ? r'' ? l'' [Hl' Hr'] H2']; constructor.
  - split; [congruence|]. intros c Hc. rewrite Hr', Hr by done.
    by destruct (cell_at _ _ _).
  - by apply IH.
Qed.

Lemma cellwise_ext F G df df' :
  (∀ c x, c ∉ dropped → F c x = G c x) →
  cellwise dropped F df df' → cellwise dropped G df df'.
Proof.
  intros HFG [Hc H]. split; [done|].
  eapply Forall2_impl; [exact H|]. intros r r' [Hl Hr]. split; [done|].
  intros c Hd. rewrite Hr by done. destruct (cell_at _ _ _); simpl; [|done].
  by rewrite HFG.
Qed.

Lemma cellwise_rows (h : string → cell → cell) df :
  cellwise dropped h df
    (mkDF (columns df)
       ((λ r, mkRow (label r) (zip_with h (columns df) (cells r))) <$> rows df)).
Proof.
  split; [done|]. simpl. apply Forall2_fmap_r, Forall_Forall2_diag, Forall_forall.
  intros r _. simpl. split; [done|]. intros c _. apply cell_at_zip_with.
Qed.

Lemma cellwise_map_col c f df :
  cellwise dropped (λ name x, if decide (name = c) then f x else x) df (map_col c f df).
Proof. apply cellwise_rows. Qed.

Lemma cellwise_map_col_if c f df :
  cellwise dropped (λ name x, if decide (name = c) then f x else x) df
    (if decide (c ∈ columns df) then map_col c f df else df).
Proof.
  case_decide as Hc; [apply cellwise_map_col|].
  split; [done|]. apply Forall_Forall2_diag, Forall_forall. intros r _.
  split; [done|]. intros name _. case_decide as Hn.
  - subst. rewrite col_pos_elem_of in Hc.
    unfold cell_at. destruct (col_pos c (columns df)) eqn:E; [|done].
    exfalso. apply Hc. by eexists.
  - by destruct (cell_at _ _ _).
Qed.

Lemma cellwise_fold_cols (fs : list (string * (cell → cell))) df :
  cellwise dropped (fold_cols fs) df
    (foldl (λ df p, if decide (p.1 ∈ columns df) then map_col p.1 p.2 df else df) df fs).
Proof.
  revert df. induction fs as [| [c f] fs IH]; intros df; simpl.
  { apply cellwise_refl. }
  eapply cellwise_ext; [|eapply cellwise_trans; [apply (cellwise_map_col_if c f)|apply IH]].
  intros name x _. unfold fold_cols. simpl. done.
Qed.

Lemma cellwise_fmap (f : cell → cell) df :
  cellwise dropped (λ _, f) df
    (mkDF (columns df) ((λ r, mkRow (label r) (f <$> cells r)) <$> rows df)).
Proof.
  split; [done|]. simpl. apply Forall2_fmap_r, Forall_Forall2_diag, Forall_forall.
  intros r _. simpl. split; [done|]. intros c _. apply cell_at_fmap.
Qed.

Lemma cellwise_remove_redundant_columns df :
  cellwise dropped (λ _ x, x) df (remove_redundant_columns df dropped).
Proof.
  unfold remove_redundant_columns. case_decide as He; [apply cellwise_refl|].
  set (ex := filter (λ c, c ∈ columns df) dropped).
  assert (∀ c, c ∉ dropped → c ∉ ex) as Hex.
  { intros c Hc Hin. apply list_elem_of_filter in Hin as [_ Hin]. done. }
  split.
  - intros c Hc. simpl. rewrite list_elem_of_filter. naive_solver.
  - simpl. apply Forall2_fmap_r, Forall_Forall2_diag, Forall_forall.
    intros r _. simpl. split; [done|]. intros c Hc.
    rewrite cell_at_drop by auto. by destruct (cell_at _ _ _).
Qed.

Lemma cellwise_clean_numeric_columns parse df cols :
  cellwise dropped
    (λ name x, fold_cols ((λ c, (c, λ y, fillna (Num (QcZ 0)) (to_numeric_coerce parse y)))
                            <$> cols) name (replace_dash x))
    df (clean_numeric_columns parse df cols).
Proof.
  unfold clean_numeric_columns.
  eapply cellwise_trans; [apply (cellwise_fmap replace_dash)|].
  set (df1 := mkDF _ _). clearbody df1.
  pose proof (cellwise_fold_cols
    ((λ c, (c, λ y, fillna (Num (QcZ 0)) (to_numeric_coerce parse y))) <$> cols) df1) as H.
  by rewrite foldl_fmap in H.
Qed.

Lemma cellwise_normalise_grade_to_10000 df grade_total :
  cellwise dropped
    (λ name x, if decide (name = "Grade")
               then round_Int64 (num_op (λ g, g * (QcZ 10000 / QcZ grade_total))%Qc x)
               else x)
    df (normalise_grade_to_10000 df grade_total).
Proof. apply cellwise_map_col. Qed.

Lemma foldl_existing (f : cell → cell) cols df :
  foldl (λ df col, map_col col f df) df (filter (λ c, c ∈ columns df) cols)
  = foldl (λ df col, if decide (col ∈ columns df) then map_col col f df else df) df cols.
Proof.
  revert df. induction cols as [| c cols IH]; intros df; [done|].
  rewrite filter_cons. simpl. case_decide as Hc; simpl; [|apply IH].
  apply (IH (map_col c f df)).
Qed.

Lemma cellwise_scale_cols_to_100 df cols :
  cellwise dropped
    (fold_cols ((λ c, (c, λ y, round_Int64 (num_op (λ x, x * QcZ 100)%Qc y))) <$> cols))
    df (scale_cols_to_100 df cols).
Proof.
  unfold scale_cols_to_100. rewrite foldl_existing.
  pose proof (cellwise_fold_cols
    ((λ c, (c, λ y, round_Int64 (num_op (λ x, x * QcZ 100)%Qc y))) <$> cols) df) as H.
  by rewrite foldl_fmap in H.
Qed.

Lemma cellwise_scale_cols_to_10000 df (m : list (string * Z)) :
  cellwise dropped
    (fold_cols ((λ p, (p.1, λ y, round_Int64
                        (num_op (λ x, x * (QcZ 10000 / QcZ p.2))%Qc y))) <$> m))
    df (scale_cols_to_10000 df m).
Proof.
  unfold scale_cols_to_10000. revert df.
  induction m as [| [c z] m IH]; intros df; simpl.
  { apply cellwise_refl. }
  eapply cellwise_ext; [|eapply cellwise_trans; [apply (cellwise_map_col_if c)|apply IH]].
  intros name x _. unfold fold_cols. simpl. done.
Qed.

End cellwise.

(** ** The pipelines, step by step *)

Lemma preprocess_pipeline S parse self a :
  preprocess S parse self a
  = pipeline S (csv_file self a) (rename_map_of a) (table_name a) (tail_of parse a).
Proof.
  destruct a;
    unfold preprocess, pipeline, tail_of, csv_file, rename_map_of, table_name;
    [unfold preprocess_test_1 | unfold preprocess_test_2 | unfold preprocess_test_3
    | unfold preprocess_test_4 | unfold preprocess_mock_test | unfold preprocess_sum_test];
    reflexivity.
Qed.

Lemma pipeline_run S path rename_map name tail w :
  pipeline S path rename_map name tail w =
  match files w !! path with
  | None => (Raise (FileNotFoundError path), w)
  | Some t =>
      match check_required_columns (renamed t rename_map) ["research_id"; "Grade"] name with
      | Raise e => (Raise e, w)
      | Ok _ =>
          match keep_best_attempt S (renamed t rename_map) with
          | Raise e => (Raise e, w)
          | Ok df => (Ok (tail df), w)
          end
      end
  end.
Proof.
  unfold pipeline, read_csv, mbind, M_bind, lift, mret, M_ret, renamed.
  destruct (files w !! path) as [t|]; [|done].
  destruct (check_required_columns _ _ _); [|done].
  by destruct (keep_best_attempt _ _).
Qed.

Lemma keep_best_attempt_inv (S : sorter) (df d : DataFrame) :
  keep_best_attempt S df = Ok d →
  "Grade" ∈ columns df ∧ "research_id" ∈ columns df ∧
  comparable (get (columns df) "Grade" <$>
              filter (λ r, isna (get (columns df) "Grade" r) = false) (rows df)).
Proof.
  unfold keep_best_attempt, sort_values_desc, drop_duplicates.
  case_decide as Hg; [|done].
  destruct (comparable _) eqn:Hcmp; [|done]. simpl.
  case_decide as Hid; [|done]. by intros _.
Qed.

Lemma keep_best_attempt_rows (S : sorter) (df d : DataFrame) :
  ascending_index df → keep_best_attempt S df = Ok d →
  columns d = columns df ∧ rows d `sublist_of` rows df.
Proof.
  intros Hasc Hd.
  destruct (keep_best_attempt_inv S df d Hd) as (Hg & Hid & Hcmp).
  destruct (keep_best_attempt_sorted S df Hg Hid Hasc Hcmp) as (out & Hout & Hsub & _).
  rewrite Hout in Hd. by simplify_eq.
Qed.

Lemma renamed_ascending t rename_map : ascending_index (renamed t rename_map).
Proof. apply (frame_of_ascending t). Qed.

Lemma renamed_rows t rename_map r :
  r ∈ rows (renamed t rename_map) → body t !! label r = Some (cells r).
Proof.
  unfold renamed. simpl. intros Hr. apply list_elem_of_lookup in Hr as [i Hi].
  rewrite list_lookup_imap in Hi.
  destruct (body t !! i) as [cs|] eqn:E; simplify_eq/=. done.
Qed.

(** ** Rounding *)




(** The rounded value is an integer nearest to the argument: it lies within
    one half of it, whatever way a tie is broken. *)
Lemma round_half_even_nearest (q : Qc) :
  (- Qc_half ≤ QcZ (round_half_even q) - q)%Qc ∧
  (QcZ (round_half_even q) - q ≤ Qc_half)%Qc.
Proof.
  pose proof (Qfloor_le (this q)) as Hlo.
  pose proof (Qlt_floor (this q)) as Hhi.
  unfold round_half_even. cbv zeta. fold (Qcfloor q) in *.
  repeat case_decide; [| |destruct (Z.even (Qcfloor q))];
    unfold Qcle, Qclt, Qcminus, Qcplus, Qcopp, Qc_half, QcZ, Qc_of_Z, Q2Qc in *;
    simpl in *; rewrite ?Qred_correct in *; rewrite ?inject_Z_plus in *;
    simpl in *; change (inject_Z 1) with 1%Q in *;
    generalize dependent (inject_Z (Qcfloor q)); generalize (this q);
    intros; split; lra.
Qed.




(** ** The normalised grade *)

(** A row of the frame a pipeline returns comes from the row of the file
    with the same label; each of its cells is the cell of the file changed
    by the steps after the deduplication. *)
Lemma pipeline_cells S path rename_map name tail F w w' df t r :
  (∀ d, cellwise ["State"; "Time_taken"] F d (tail d)) →
  pipeline S path rename_map name tail w = (Ok df, w') →
  files w !! path = Some t → r ∈ rows df →
  ∀ c, c ∉ ["State"; "Time_taken"] →
    cell_at (columns df) c (cells r) = F c <$> raw_cell t rename_map c (label r).
Proof.
  intros Htail Hrun Ht Hr c Hc.
  rewrite pipeline_run, Ht in Hrun.
  destruct (check_required_columns _ _ _); [|done].
  destruct (keep_best_attempt S (renamed t rename_map)) as [d|] eqn:Hd; [|done].
  simplify_eq.
  destruct (keep_best_attempt_rows S _ _ (renamed_ascending t rename_map) Hd)
    as [Hcols Hsub].
  destruct (Htail d) as [_ Hrows].
  apply list_elem_of_lookup in Hr as [i Hi].
  destruct (Forall2_lookup_r _ _ _ _ _ Hrows Hi) as (r0 & Hr0 & Hl & Hcell).
  rewrite Hcell by done. f_equal.
  assert (r0 ∈ rows (renamed t rename_map)) as Hin.
  { eapply elem_of_sublist; [|exact Hsub]. by eapply list_elem_of_lookup_2. }
  apply renamed_rows in Hin. unfold raw_cell. rewrite Hl, Hin. simpl.
  by rewrite Hcols.
Qed.

Ltac cellwise_chain :=
  first
    [ apply cellwise_remove_redundant_columns
    | eapply cellwise_trans;
      [| first [ apply cellwise_clean_numeric_columns
               | apply cellwise_normalise_grade_to_10000
               | apply cellwise_scale_cols_to_100
               | apply cellwise_scale_cols_to_10000
               | apply cellwise_map_col ]];
      cellwise_chain ].




(** ** Coercion *)

Lemma coerce_num parse x : ∃ q, coerce parse x = Num q.
Proof.
  unfold coerce, replace_dash. case_decide; [by eexists|].
  destruct x as [| q | s]; simpl; [by eexists..|].
  destruct (parse s); by eexists.
Qed.

Lemma coerce_non_numeric parse x : non_numeric parse x → coerce parse x = Num (QcZ 0).
Proof.
  unfold coerce, replace_dash.
  intros [->|[->|(s & -> & Hs)]]; [done..|].
  case_decide; [done|]. simpl. by rewrite Hs.
Qed.

Lemma fold_cols_clean parse cols c y :
  c ∈ cols →
  fold_cols ((λ c, (c, λ y, fillna (Num (QcZ 0)) (to_numeric_coerce parse y))) <$> cols)
            c (replace_dash y)
  = coerce parse y.
Proof.
  set (f := λ y, fillna (Num (QcZ 0)) (to_numeric_coerce parse y)).
  assert (∀ l z, (∃ q, z = Num q) → fold_cols ((λ c, (c, f)) <$> l) c z = z) as Hnum.
  { induction l as [| c' l IH]; intros z [q ->]; [done|].
    unfold fold_cols in *. simpl. case_decide; apply IH; by eexists. }
  unfold coerce. fold (f (replace_dash y)). generalize (replace_dash y). clear y.
  induction cols as [| c' cols IH]; intros y Hc; [by inv Hc|].
  unfold fold_cols in *. simpl. case_decide as Hcc.
  - apply Hnum. unfold f. destruct y as [| q | s]; simpl; [by eexists..|].
    destruct (parse s); by eexists.
  - apply IH. apply elem_of_cons in Hc as [->|Hc]; done.
Qed.

(** C5.  [clean_numeric_columns] is a total function: it returns a frame
    with the same columns and a row for every row; in every listed column
    every cell that is there becomes a number, and that number is 0 when the
    cell was empty, the placeholder or text that does not parse. *)
Theorem clean_numeric_columns_zero (parse : string → option Qc)
    (df : DataFrame) (cols : list string) :
  columns (clean_numeric_columns parse df cols) = columns df ∧
  Forall2 (λ r r', label r' = label r ∧
             ∀ c x, c ∈ cols → cell_at (columns df) c (cells r) = Some x →
               ∃ q, cell_at (columns df) c (cells r') = Some (Num q) ∧
                    coerce parse x = Num q ∧
                    (non_numeric parse x → q = QcZ 0))
          (rows df) (rows (clean_numeric_columns parse df cols)).
Proof.
  destruct (cellwise_clean_numeric_columns [] parse df cols) as [Hcols Hrows].
  assert (columns (clean_numeric_columns parse df cols) = columns df) as Heq.
  { unfold clean_numeric_columns.
    set (step := λ (df : DataFrame) (col : string), _).
    assert (∀ l d, columns (foldl step d l) = columns d) as Hfold.
    { induction l as [| c l IH]; intros d; simpl; [done|].
      rewrite IH. unfold step. by case_decide. }
    by rewrite Hfold. }
  split; [done|].
  eapply Forall2_impl; [exact Hrows|]. intros r r' [Hl Hcell]. split; [done|].
  intros c x Hc Hx. rewrite Heq in Hcell.
  rewrite Hcell, Hx by set_solver. simpl.
  rewrite fold_cols_clean by done.
  destruct (coerce_num parse x) as [q Hq]. exists q. split_and!; [by rewrite Hq | done |].
  intros Hnon. apply coerce_non_numeric in Hnon. congruence.
Qed.

(** The cells of the example: the empty grade and the placeholder of S2
    become 0, the numbers stay. *)
Example clean_numeric_columns_example :
  clean_numeric_columns no_parse (renamed example_test_1 rename_map_test_1)
    ["Grade"; "Q1"; "Q2"; "Q3"; "Q4"; "Q5"; "Q6"]
  = mkDF ["research_id"; "State"; "Grade"; "Q1"]
      [mkRow 0 [Str "S1"; Str "Finished"; Num (QcZ 480); Num (Q2Qc (8 # 10))];
       mkRow 1 [Str "S1"; Str "Finished"; Num (QcZ 300); Num (Q2Qc (5 # 10))];
       mkRow 2 [Str "S2"; Str "In progress"; Num (QcZ 0); Num (QcZ 0)]].
Proof. apply (bool_decide_unpack _). vm_compute. exact I. Qed.

(** ** The run *)

Lemma run_write_all S parse self :
  run S parse self
  = (_ ← connect (db_path self);
     write_all (steps S parse self)
       (_ ← close; emit (Print ("Database written successfully: " +:+ db_path self)))).
Proof. reflexivity. Qed.

Lemma reader_outcomes {A} (l : list (string * M A)) w w' :
  Forall (λ s, reader s.2) l → files w' = files w →
  (λ s, (s.1, (s.2 w').1)) <$> l = (λ s, (s.1, (s.2 w).1)) <$> l.
Proof.
  intros Hl Hf. induction Hl as [| [n m] l [f Hm] Hl IH]; csimpl; [done|].
  f_equal; [|done]. simpl in *. by rewrite !Hm, Hf.
Qed.

Lemma write_all_written l k w :
  Forall (λ s, reader s.2) l →
  write_all l k w =
  match written (outcomes l w) (db w) with
  | (None, d) => k (set_db w d)
  | (Some e, d) => (Raise e, set_db w d)
  end.
Proof.
  intros Hl. revert w. induction Hl as [| [n m] l [f Hm] Hl IH]; intros w; simpl.
  { by destruct w. }
  simpl in Hm. unfold mbind, M_bind at 1. rewrite Hm. simpl.
  destruct (f (files w)) as [df|e]; [|by destruct w].
  unfold mbind, M_bind, write_table. simpl.
  rewrite IH. simpl. unfold outcomes.
  by rewrite (reader_outcomes l w (mkWorld _ _ _ _)) by done.
Qed.

Lemma pipeline_reader S path rename_map name tail :
  reader (pipeline S path rename_map name tail).
Proof.
  exists (λ fs, match fs !! path with
                | None => Raise (FileNotFoundError path)
                | Some t =>
                    match check_required_columns (renamed t rename_map)
                            ["research_id"; "Grade"] name with
                    | Raise e => Raise e
                    | Ok _ =>
                        match keep_best_attempt S (renamed t rename_map) with
                        | Raise e => Raise e
                        | Ok df => Ok (tail df)
                        end
                    end
                end).
  intros w. rewrite pipeline_run. destruct (files w !! path); [|done].
  destruct (check_required_columns _ _ _); [|done].
  by destruct (keep_best_attempt _ _).
Qed.

Lemma preprocess_reader S parse self a : reader (preprocess S parse self a).
Proof. rewrite preprocess_pipeline. apply pipeline_reader. Qed.

Lemma preprocess_student_rate_reader self : reader (preprocess_student_rate self).
Proof.
  exists (λ fs, match fs !! file_rate self with
                | Some t =>
                    let df := strip_column_names (frame_of t) in
                    Ok (mkDF (columns df)
                          ((λ r, mkRow (label r) (fillna (Num (QcZ 0)) <$> cells r))
                             <$> rows df))
                | None => Raise (FileNotFoundError (file_rate self))
                end).
  intros w. unfold preprocess_student_rate, mbind, M_bind, read_csv.
  by destruct (files w !! file_rate self).
Qed.

Lemma steps_readers S parse self : Forall (λ s, reader s.2) (steps S parse self).
Proof.
  unfold steps. repeat constructor; simpl;
    first [ apply preprocess_student_rate_reader
          | apply (preprocess_reader S parse self Test_1)
          | apply (preprocess_reader S parse self Test_2)
          | apply (preprocess_reader S parse self Test_3)
          | apply (preprocess_reader S parse self Test_4)
          | apply (preprocess_reader S parse self Mock_Test)
          | apply (preprocess_reader S parse self Sum_Test) ].
Qed.

(** What [run] returns and how it leaves the world. *)
Lemma run_written S parse self w :
  run S parse self w =
  match written (outcomes (steps S parse self) w) (db w) with
  | (None, d) =>
      (Ok tt, mkWorld (files w) d (open_connections w)
                (output w ++ [Print ("Database written successfully: " +:+ db_path self)]))
  | (Some e, d) =>
      (Raise e, mkWorld (files w) d (Datatypes.S (open_connections w)) (output w))
  end.
Proof.
  rewrite run_write_all. unfold mbind, M_bind at 1. unfold connect.
  rewrite write_all_written by apply steps_readers.
  unfold outcomes.
  rewrite (reader_outcomes _ w (mkWorld _ _ _ _)) by (apply steps_readers || done).
  change (db (mkWorld (files w) (db w) (Datatypes.S (open_connections w)) (output w)))
    with (db w).
  destruct (written ((λ s : string * M DataFrame, (s.1, (s.2 w).1)) <$> steps S parse self)
              (db w)) as [[e|] d]; reflexivity.
Qed.

Lemma written_app_ok (l : list (string * DataFrame)) rest d :
  written (((λ p, (p.1, Ok p.2)) <$> l) ++ rest) d = written rest (with_tables d l).
Proof.
  revert d. induction l as [| [n df] l IH]; intros d; simpl; [done|]. apply IH.
Qed.

Lemma written_none os d d' :
  written os d = (None, d') →
  ∃ l, os = (λ p, (p.1, Ok p.2)) <$> l ∧ d' = with_tables d l.
Proof.
  revert d. induction os as [| [n [df|e]] os IH]; intros d; simpl.
  - intros [= <-]. by exists [].
  - intros (l & -> & ->)%IH. by exists ((n, df) :: l).
  - done.
Qed.

Lemma with_tables_lookup_ne d l n :
  n ∉ l.*1 → with_tables d l !! n = d !! n.
Proof.
  revert d. induction l as [| [n0 df] l IH]; intros d Hn; [done|].
  unfold with_tables in *. simpl. rewrite IH by set_solver.
  apply lookup_insert_ne. set_solver.
Qed.

Lemma with_tables_lookup d l p :
  NoDup l.*1 → p ∈ l → with_tables d l !! p.1 = Some (table_of p.2).
Proof.
  revert d. induction l as [| [n0 df] l IH]; intros d Hnd Hp; [by inv Hp|].
  apply NoDup_cons in Hnd as [Hn0 Hnd].
  apply elem_of_cons in Hp as [->|Hp].
  - unfold with_tables. simpl. fold (with_tables (<[n0:=table_of df]> d) l).
    rewrite with_tables_lookup_ne by done. apply lookup_insert_eq.
  - unfold with_tables. simpl. by apply IH.
Qed.

Lemma with_tables_idem d l :
  NoDup l.*1 → with_tables (with_tables d l) l = with_tables d l.
Proof.
  intros Hnd. apply map_eq. intros n.
  destruct (decide (n ∈ l.*1)) as [Hn|Hn].
  - apply list_elem_of_fmap in Hn as (p & -> & Hp). by rewrite !with_tables_lookup.
  - by rewrite !with_tables_lookup_ne.
Qed.

(** ** Missing columns *)

Lemma preprocess_missing S parse self a w t :
  files w !! csv_file self a = Some t →
  filter (λ c, c ∉ columns (renamed t (rename_map_of a))) ["research_id"; "Grade"] ≠ [] →
  preprocess S parse self a w
  = (Raise (MissingColumns (table_name a)
              (filter (λ c, c ∉ columns (renamed t (rename_map_of a)))
                      ["research_id"; "Grade"])
              (columns (renamed t (rename_map_of a)))), w).
Proof.
  intros Ht Hmiss. rewrite preprocess_pipeline, pipeline_run, Ht.
  unfold check_required_columns. by rewrite decide_False.
Qed.

Lemma steps_names S parse self :
  (steps S parse self).*1
  = ["Test_1"; "Test_2"; "Test_3"; "Test_4"; "Mock_Test"; "Student_Rate"; "Sum_Test"].
Proof. reflexivity. Qed.

Lemma steps_position S parse self a :
  drop (position a) (steps S parse self)
  = (table_name a, preprocess S parse self a)
      :: drop (Datatypes.S (position a)) (steps S parse self).
Proof. by destruct a. Qed.

(** C6.  When research_id or Grade is absent from a raw table after the
    renaming, the normalisation of that table raises the error that names
    the table and all the missing columns.  In a run whose earlier steps
    succeeded, [run] raises that error; the database then holds the tables of
    the earlier steps, each as normalised in this run, and the table of this
    assessment is as it was before the run. *)
Theorem missing_columns_abort (S : sorter) (parse : string → option Qc)
    (self : CWPreprocessor) (a : assessment) (w : World) (t : Table)
    (earlier : list (string * DataFrame)) :
  files w !! csv_file self a = Some t →
  filter (λ c, c ∉ columns (renamed t (rename_map_of a))) ["research_id"; "Grade"] ≠ [] →
  Forall2 (λ s p, s.1 = p.1 ∧ (s.2 w).1 = Ok p.2)
          (take (position a) (steps S parse self)) earlier →
  let e := MissingColumns (table_name a)
             (filter (λ c, c ∉ columns (renamed t (rename_map_of a)))
                     ["research_id"; "Grade"])
             (columns (renamed t (rename_map_of a))) in
  preprocess S parse self a w = (Raise e, w) ∧
  ∃ w', run S parse self w = (Raise e, w') ∧
        db w' = with_tables (db w) earlier ∧
        db w' !! table_name a = db w !! table_name a ∧
        ∀ p, p ∈ earlier → db w' !! p.1 = Some (table_of p.2).
Proof.
  intros Ht Hmiss Hearlier e.
  pose proof (preprocess_missing S parse self a w t Ht Hmiss) as Hpre. fold e in Hpre.
  split; [done|].
  assert (earlier.*1 = (take (position a) (steps S parse self)).*1) as Hnames.
  { clear -Hearlier. induction Hearlier as [| s p l l' [Hn _] _ IH]; csimpl; [done|].
    by rewrite IH, <- Hn. }
  assert (outcomes (steps S parse self) w
          = ((λ p, (p.1, Ok p.2)) <$> earlier)
              ++ (table_name a, Raise e)
              :: outcomes (drop (Datatypes.S (position a)) (steps S parse self)) w) as Hout.
  { rewrite <- (take_drop (position a) (steps S parse self)) at 1.
    unfold outcomes. rewrite fmap_app, steps_position. csimpl. rewrite Hpre. simpl.
    f_equal. clear -Hearlier.
    induction Hearlier as [| s p l l' [Hn Hok] _ IH]; csimpl; [done|].
    by rewrite IH, <- Hn, Hok. }
  eexists. split_and!.
  - rewrite run_written, Hout, written_app_ok. simpl. reflexivity.
  - done.
  - simpl. apply with_tables_lookup_ne.
    rewrite Hnames, fmap_take, steps_names.
    destruct a; apply (bool_decide_unpack _); vm_compute; exact I.
  - intros p Hp. simpl. apply with_tables_lookup; [|done].
    rewrite Hnames, fmap_take, steps_names.
    destruct a; apply (bool_decide_unpack _); vm_compute; exact I.
Qed.

Lemma missing_columns_abort_witness :
  let e := MissingColumns "Test_2" ["Grade"] ["research_id"; "Mark"] in
  preprocess stable_sorter no_parse example_pre Test_2 example_world_no_grade
    = (Raise e, example_world_no_grade) ∧
  ∃ w', run stable_sorter no_parse example_pre example_world_no_grade = (Raise e, w') ∧
        db w' = with_tables (db example_world_no_grade)
                  [("Test_1", example_test_1_normalised)] ∧
        db w' !! table_name Test_2 = db example_world_no_grade !! table_name Test_2 ∧
        ∀ p, p ∈ [("Test_1", example_test_1_normalised)] →
             db w' !! p.1 = Some (table_of p.2).
Proof.
  apply (missing_columns_abort stable_sorter no_parse example_pre Test_2
           example_world_no_grade example_test_2_no_grade
           [("Test_1", example_test_1_normalised)]).
  - reflexivity.
  - vm_compute. discriminate.
  - repeat constructor.
Defined.

(** ** Running twice *)

Lemma outcomes_names (l : list (string * M DataFrame)) w :
  (outcomes l w).*1 = l.*1.
Proof. unfold outcomes. induction l as [| [n m] l IH]; csimpl; by f_equal. Qed.

Lemma run_ok_inv S parse self w w1 :
  run S parse self w = (Ok tt, w1) →
  ∃ l, outcomes (steps S parse self) w = (λ p, (p.1, Ok p.2)) <$> l ∧
       NoDup l.*1 ∧
       w1 = mkWorld (files w) (with_tables (db w) l) (open_connections w)
              (output w ++ [Print ("Database written successfully: " +:+ db_path self)]).
Proof.
  rewrite run_written.
  destruct (written _ _) as [[e|] d] eqn:Hw; [done|]. intros [= <-].
  apply written_none in Hw as (l & Hl & ->). exists l. split_and!; [done| |done].
  assert (l.*1 = (outcomes (steps S parse self) w).*1) as ->.
  { rewrite Hl. clear. induction l as [| [n df] l IH]; csimpl; by f_equal. }
  rewrite outcomes_names, steps_names.
  apply (bool_decide_unpack _). vm_compute. exact I.
Qed.

Lemma run_same_files S parse self w w' l :
  files w' = files w →
  outcomes (steps S parse self) w = (λ p, (p.1, Ok p.2)) <$> l →
  run S parse self w'
  = (Ok tt, mkWorld (files w') (with_tables (db w') l) (open_connections w')
              (output w' ++ [Print ("Database written successfully: " +:+ db_path self)])).
Proof.
  intros Hf Hl. rewrite run_written.
  unfold outcomes in *.
  rewrite (reader_outcomes _ w w') by (apply steps_readers || done).
  rewrite Hl. rewrite <- (app_nil_r (_ <$> l)), written_app_ok. done.
Qed.

(** C7.  [write_table] puts the table under its name and leaves every other
    table as it was.  After a run that succeeded, a second run on the same
    files succeeds and leaves the database as the first run left it; and a
    run on the same files from any other database ends with the same seven
    tables. *)
Theorem rerun_idempotent (S : sorter) (parse : string → option Qc)
    (self : CWPreprocessor) (w w1 : World) :
  run S parse self w = (Ok tt, w1) →
  (∀ df name w0,
     db (write_table df name w0).2 !! name = Some (table_of df) ∧
     ∀ other, other ≠ name → db (write_table df name w0).2 !! other = db w0 !! other) ∧
  (∃ w2, run S parse self w1 = (Ok tt, w2) ∧ db w2 = db w1) ∧
  (∀ w', files w' = files w →
     ∃ w1', run S parse self w' = (Ok tt, w1') ∧
            ∀ name, name ∈ (steps S parse self).*1 → db w1' !! name = db w1 !! name).
Proof.
  intros Hrun. split_and!.
  - intros df name w0. simpl. split; [apply lookup_insert_eq|].
    intros other Hne. by apply lookup_insert_ne.
  - destruct (run_ok_inv _ _ _ _ _ Hrun) as (l & Hl & Hnd & ->).
    eexists. split; [by apply (run_same_files S parse self w)|].
    simpl. by apply with_tables_idem.
  - intros w' Hf.
    destruct (run_ok_inv _ _ _ _ _ Hrun) as (l & Hl & Hnd & ->).
    eexists. split; [by apply (run_same_files S parse self w)|].
    intros name Hname. simpl.
    assert (name ∈ l.*1) as Hin.
    { rewrite <- (outcomes_names (steps S parse self) w), Hl in Hname.
      clear -Hname. induction l as [| [n df] l IH]; csimpl in *; set_solver. }
    apply list_elem_of_fmap in Hin as (p & -> & Hp).
    by rewrite !with_tables_lookup.
Qed.

Lemma rerun_idempotent_witness :
  let w1 := (run stable_sorter no_parse example_pre example_world_full).2 in
  (∀ df name w0,
     db (write_table df name w0).2 !! name = Some (table_of df) ∧
     ∀ other, other ≠ name → db (write_table df name w0).2 !! other = db w0 !! other) ∧
  (∃ w2, run stable_sorter no_parse example_pre w1 = (Ok tt, w2) ∧ db w2 = db w1) ∧
  (∀ w', files w' = files example_world_full →
     ∃ w1', run stable_sorter no_parse example_pre w' = (Ok tt, w1') ∧
            ∀ name, name ∈ (steps stable_sorter no_parse example_pre).*1 →
                    db w1' !! name = db w1 !! name).
Proof.
  apply (rerun_idempotent stable_sorter no_parse example_pre example_world_full).
  apply (bool_decide_unpack _). vm_compute. exact I.
Defined.

(** ** The connection *)

Lemma bind_run {A B} (m : M A) (f : A → M B) w :
  (m ≫= f) w = match m w with
               | (Ok a, w') => f a w'
               | (Raise e, w') => (Raise e, w')
               end.
Proof. reflexivity. Qed.

Lemma mapM_read_id_grade (l : list string) w :
  mapM (λ table, df ← read_id_grade table; mret (table, df)) l w
  = (mapM_result (λ table, match select_id_grade (db w) table with
                           | Ok df => Ok (table, df)
                           | Raise e => Raise e
                           end) l, w).
Proof.
  induction l as [| table l IH]; [done|].
  change (mapM ?f (table :: l)) with (y ← f table; k ← mapM f l; mret (y :: k)).
  rewrite !bind_run. unfold read_id_grade at 1.
  simpl mapM_result.
  destruct (select_id_grade (db w) table) as [df|e]; [|done].
  unfold mret at 1, M_ret at 1. rewrite bind_run, IH.
  by destruct (mapM_result _ l).
Qed.

(** What [find_underperforming_students] returns and how it leaves the
    world. *)
Lemma find_underperforming_students_run S db_path w :
  find_underperforming_students S db_path w =
  match select_id_grade (db w) "Sum_Test" with
  | Raise e => (Raise e, opened w)
  | Ok df_sum =>
      match select_formative (db w) with
      | Raise e => (Raise e, opened w)
      | Ok formative_results =>
          match underperforming S df_sum formative_results with
          | Raise e => (Raise e, opened w)
          | Ok [] =>
              (Ok tt, printed w
                 [Print "No underperforming students found (after inactive filter)."])
          | Ok df_result =>
              (Ok tt, printed w
                 [PrintTable (under_table df_result);
                  ShowGroupedBar
                    "Underperforming Students: Summative vs Lowest Formative Grade"
                    (research_id <$> df_result)
                    ((λ r, Num (Summative_Grade r)) <$> df_result)
                    ((λ r, Num (default (QcZ 0) (Lowest_Formative_Grade r)))
                       <$> df_result)])
          end
      end
  end.
Proof.
  unfold find_underperforming_students.
  unfold mbind, M_bind at 1. unfold connect. fold (opened w).
  unfold mbind, M_bind at 1. unfold read_id_grade at 1.
  change (db (opened w)) with (db w).
  destruct (select_id_grade (db w) "Sum_Test") as [df_sum|e]; [|done].
  unfold mbind, M_bind at 1. rewrite mapM_read_id_grade.
  change (db (opened w)) with (db w). fold (select_formative (db w)).
  destruct (select_formative (db w)) as [formative_results|e]; [|done].
  unfold mbind, M_bind at 1. unfold lift.
  destruct (underperforming S df_sum formative_results) as [df_result|e]; [|done].
  destruct df_result as [| r df_result].
  - rewrite decide_True by done.
    unfold mbind, M_bind, emit, close, printed, opened. simpl. done.
  - rewrite decide_False by done.
    unfold mbind, M_bind, emit, close, printed, opened. simpl.
    by rewrite <- (assoc_L (++)).
Qed.

(** ** student_performance *)

Lemma student_performance_run db_path student_id test_name w :
  student_performance db_path student_id test_name w =
  match db w !! test_name with
  | None => (Raise (DatabaseError ("SELECT * FROM " +:+ test_name)), opened w)
  | Some t =>
      let df_test := frame_of t in
      if decide ("research_id" ∈ columns df_test) then
        match filter (λ r, cell_eqb (get (columns df_test) "research_id" r) student_id = true)
                (rows df_test) with
        | [] => (Ok tt, printed w [Print "Student ID not found in this test."])
        | r :: _ =>
            let absolute_scores :=
              (λ c, (c, get (columns df_test) c r)) <$> question_cols df_test in
            match mapM_result (λ c, column_mean (column df_test c))
                    (question_cols df_test) with
            | Raise e => (Raise e, opened w)
            | Ok average_scores =>
                match mapM_result (λ p : string * cell * cell,
                                     match cell_sub p.1.2 p.2 with
                                     | Ok d => Ok (p.1.1, d)
                                     | Raise e => Raise e
                                     end)
                        (zip absolute_scores average_scores) with
                | Raise e => (Raise e, opened w)
                | Ok relative_scores =>
                    (Ok tt, printed w [ShowBar "Score (%)" absolute_scores;
                                       ShowBar "Score Difference" relative_scores])
                end
            end
        end
      else (Raise (KeyError "research_id"), opened w)
  end.
Proof.
  unfold student_performance.
  rewrite bind_run. unfold connect. fold (opened w).
  rewrite bind_run. unfold read_table. change (db (opened w)) with (db w).
  destruct (db w !! test_name) as [t|]; [|done].
  cbv zeta. rewrite bind_run. unfold lift at 1.
  case_decide as Hid; [|done].
  destruct (filter _ (rows (frame_of t))) as [| r rest].
  - unfold mbind, M_bind, emit, close, printed, opened. simpl. done.
  - rewrite bind_run. unfold lift at 1.
    destruct (mapM_result _ (question_cols (frame_of t))) as [avg|e]; [|done].
    rewrite bind_run. unfold lift at 1.
    destruct (mapM_result _ (zip _ avg)) as [rel|e]; [|done].
    unfold mbind, M_bind, emit, close, printed, opened. simpl.
    by rewrite <- (assoc_L (++)).
Qed.



Lemma cell_eqb_true c v : cell_eqb c v = true ↔ c = v ∧ v ≠ NaN.
Proof.
  unfold cell_eqb. rewrite andb_true_iff, bool_decide_eq_true, negb_true_iff.
  split; intros [-> H]; (split; [done|]); by destruct v.
Qed.



(** The student S1 of the example scored 80 on Q1, 40 above the mean of
    80 and 0; S9 is not in the table. *)
Example student_performance_example :
  student_performance "cw.db" (Str "S1") "Test_1" example_store
    = (Ok tt, printed example_store
                [ShowBar "Score (%)" [("Q1", Num (QcZ 80))];
                 ShowBar "Score Difference" [("Q1", Num (QcZ 40))]]) ∧
  student_performance "cw.db" (Str "S9") "Test_1" example_store
    = (Ok tt, printed example_store [Print "Student ID not found in this test."]).
Proof. split; apply (bool_decide_unpack _); vm_compute; exact I. Qed.

(** ** The connection on every path *)

(** C9 (amended).  A pipeline run or an analysis call that returns (the
    normal end, the not-found return, the empty-result return) has closed the
    connection it opened; one that raises leaves it open. *)
Theorem connection_closed_on_return :
  (∀ S parse self w, closed_unless_raised w (run S parse self w)) ∧
  (∀ S db_path w, closed_unless_raised w (find_underperforming_students S db_path w)) ∧
  (∀ db_path student_id test_name w,
     closed_unless_raised w (student_performance db_path student_id test_name w)).
Proof.
  unfold closed_unless_raised. split_and!.
  - intros S parse self w. rewrite run_written.
    by destruct (written (outcomes (steps S parse self) w) (db w)) as [[e|] d].
  - intros S db_path w. rewrite find_underperforming_students_run.
    destruct (select_id_grade (db w) "Sum_Test") as [df_sum|]; [|done].
    destruct (select_formative (db w)) as [formative|]; [|done].
    destruct (underperforming S df_sum formative) as [[| r l]|]; done.
  - intros db_path student_id test_name w. rewrite student_performance_run.
    destruct (db w !! test_name) as [t|]; [|done]. cbv zeta.
    case_decide; [|done].
    destruct (filter _ _); [done|].
    destruct (mapM_result _ (question_cols (frame_of t))); [|done].
    by destruct (mapM_result _ _).
Qed.

(** C9, as the claim states it, fails on the error paths: after the
    SchemaError of the run, and after the failed table read of either
    analysis call, the connection that the call opened is still open. *)
Lemma connection_left_open_counterexample :
  (run stable_sorter no_parse example_pre example_world_no_grade).1
    = Raise (MissingColumns "Test_2" ["Grade"] ["research_id"; "Mark"]) ∧
  open_connections example_world_no_grade = 0%nat ∧
  open_connections (run stable_sorter no_parse example_pre example_world_no_grade).2
    = 1%nat ∧
  (find_underperforming_students stable_sorter "cw.db" example_world_full).1
    = Raise (DatabaseError "SELECT research_id, Grade FROM Sum_Test") ∧
  open_connections
    (find_underperforming_students stable_sorter "cw.db" example_world_full).2 = 1%nat ∧
  (student_performance "cw.db" (Str "S1") "Test_9" example_store).1
    = Raise (DatabaseError "SELECT * FROM Test_9") ∧
  open_connections (student_performance "cw.db" (Str "S1") "Test_9" example_store).2
    = 1%nat.
Proof. split_and!; apply (bool_decide_unpack _); vm_compute; exact I. Qed.

(** ** The order of the lowest-formative sort *)

Global Instance id_le_trans : Transitive id_le.
Proof.
  intros [| x | x] [| y | y] [| z | z]; simpl; try done; try lia.
  - apply Qcle_trans.
  - intros ??. by etrans.
Qed.

Global Instance id_le_total : Total id_le.
Proof.
  intros [| x | x] [| y | y]; simpl; try lia.
  - destruct (total Qcle x y); auto.
  - destruct (total String.le x y); auto.
Qed.

Lemma id_le_antisym (a b : cell) : id_le a b → id_le b a → a = b.
Proof.
  destruct a as [| x | x], b as [| y | y]; simpl; try done; try lia.
  - intros H1 H2. f_equal. by apply Qcle_antisym.
  - intros H1 H2. f_equal. by apply (anti_symm String.le).
Qed.

Global Instance low_le_trans : Transitive low_le.
Proof.
  intros r1 r2 r3. unfold low_le.
  destruct (decide (f_id r1 = f_id r2)) as [E12|N12],
           (decide (f_id r2 = f_id r3)) as [E23|N23].
  - rewrite (decide_True (P := f_id r1 = f_id r3)) by congruence.
    destruct (decide (f_grade r1 = f_grade r2)) as [G12|G12],
             (decide (f_grade r2 = f_grade r3)) as [G23|G23].
    + rewrite (decide_True (P := f_grade r1 = f_grade r3)) by congruence.
      intros ??. by etrans.
    + rewrite (decide_False (P := f_grade r1 = f_grade r3)) by congruence.
      intros _ H. by rewrite G12.
    + rewrite (decide_False (P := f_grade r1 = f_grade r3)) by congruence.
      intros H _. by rewrite <- G23.
    + intros H1 H2. assert (f_grade r1 ≤ f_grade r3)%Qc as H13 by by etrans.
      case_decide as G13; [|done].
      exfalso. apply G12. apply Qcle_antisym; [done|]. by rewrite G13.
  - rewrite (decide_False (P := f_id r1 = f_id r3)) by congruence.
    intros _ H. by rewrite E12.
  - rewrite (decide_False (P := f_id r1 = f_id r3)) by congruence.
    intros H _. by rewrite <- E23.
  - intros H1 H2. assert (id_le (f_id r1) (f_id r3)) as H13 by by etrans.
    case_decide as E13; [|done].
    exfalso. apply N12. apply id_le_antisym; [done|]. by rewrite E13.
Qed.

Global Instance low_le_total : Total low_le.
Proof.
  intros r1 r2. unfold low_le.
  destruct (decide (f_id r1 = f_id r2)) as [E|N].
  - rewrite (decide_True (P := f_id r2 = f_id r1)) by done.
    destruct (decide (f_grade r1 = f_grade r2)) as [G|G].
    + rewrite (decide_True (P := f_grade r2 = f_grade r1)) by done.
      apply (total String.le).
    + rewrite (decide_False (P := f_grade r2 = f_grade r1)) by done.
      apply (total Qcle).
  - rewrite (decide_False (P := f_id r2 = f_id r1)) by done.
    apply (total id_le).
Qed.

(** ** Joins and groups *)

Lemma merge_left_elem {L R} (key_l : L → cell) (key_r : R → cell)
    (left : list L) (right : list R) (x : L * option R) :
  x ∈ merge_left key_l key_r left right ↔
  x.1 ∈ left ∧
  match x.2 with
  | None => filter (λ r, key_r r = key_l x.1) right = []
  | Some r => r ∈ right ∧ key_r r = key_l x.1
  end.
Proof.
  unfold merge_left. rewrite list_elem_of_bind. destruct x as [l o]. simpl. split.
  - intros (l' & Hx & Hl').
    destruct (filter (λ r, key_r r = key_l l') right) as [| m ms] eqn:E.
    + apply list_elem_of_singleton in Hx as [= -> ->]. done.
    + change ((l, o) ∈ (λ r, (l', Some r)) <$> (m :: ms)) in Hx.
      apply list_elem_of_fmap in Hx as (r & [= -> ->] & Hr).
      rewrite <- E in Hr. apply list_elem_of_filter in Hr. tauto.
  - intros [Hl Ho]. exists l. split; [|done].
    destruct o as [r|].
    + destruct Ho as [Hr Hk].
      assert (r ∈ filter (λ r, key_r r = key_l l) right) as Hin
        by by apply list_elem_of_filter.
      destruct (filter (λ r, key_r r = key_l l) right) as [| m ms]; [by inv Hin|].
      exact (list_elem_of_fmap_2 (λ r, (l, Some r)) (m :: ms) r Hin).
    + rewrite Ho. by left.
Qed.

Lemma groupby_size_elem (l : list formative_row) k n :
  (k, n) ∈ groupby_size l ↔
  k ∈ f_id <$> l ∧ n = length (filter (λ r, f_id r = k) l).
Proof.
  unfold groupby_size. rewrite list_elem_of_fmap. split.
  - intros (k' & [= <- ->] & Hk). split; [|done].
    rewrite merge_sort_Permutation in Hk. by rewrite elem_of_remove_dups in Hk.
  - intros [Hk ->]. exists k. split; [done|].
    rewrite merge_sort_Permutation. by rewrite elem_of_remove_dups.
Qed.

(** ** The underperformance result *)

(** The rows of the result: one for every Sum_Test row strictly below the
    mean whose student has three attempts or more, with the attempts and the
    row of [lowest_formative] of that student. *)
Lemma underperforming_rows S sum_rows formative_results fs ss :
  numeric_formative (formative_cells formative_results) = Ok fs →
  numeric (dropna sum_rows) = Ok ss →
  ∃ result, underperforming S sum_rows formative_results = Ok result ∧
    ∀ r, r ∈ result ↔
      ∃ s g o, (s, g) ∈ ss ∧ below (mean (snd <$> ss)) g ∧
               (3 ≤ attempts_of s fs)%nat ∧
               match o with
               | Some y => y ∈ lowest_formative (attended fs) ∧ f_id y = s
               | None => filter (λ y, f_id y = s) (lowest_formative (attended fs)) = []
               end ∧
               r = mkUnder s g (f_grade <$> o) (f_test <$> o) (attempts_of s fs).
Proof.
  intros Hfs Hss. unfold underperforming.
  fold (formative_cells formative_results). rewrite Hfs, Hss.
  fold (attended fs). eexists. split; [done|].
  intros r. rewrite list_elem_of_filter, list_elem_of_fmap.
  set (under := sort_by_grade S (filter (λ p, below (mean ss.*2) p.2) ss)).
  assert (∀ p, p ∈ under ↔ p ∈ ss ∧ below (mean ss.*2) p.2) as Hunder.
  { intros p. unfold under, sort_by_grade. rewrite take_rows_perm.
    - rewrite list_elem_of_filter. tauto.
    - rewrite <- (length_fmap (λ p, Num p.2)). apply argsort_perm. }
  assert (∀ (x : cell * Qc * option (cell * nat)),
            x ∈ merge_left fst fst under (groupby_size (attended fs)) →
            default 0%nat (snd <$> x.2) = attempts_of x.1.1 fs) as Hcount.
  { intros [[s g] o] Hx. apply merge_left_elem in Hx as [_ Ho]. simpl in *.
    unfold attempts_of. destruct o as [[k n]|]; simpl in *.
    - destruct Ho as [Hk ->]. by apply groupby_size_elem in Hk as [_ ->].
    - destruct (filter (λ r, f_id r = s) (attended fs)) as [| y l] eqn:E; [done|].
      exfalso. assert (y ∈ y :: l) as Hy by left. rewrite <- E in Hy.
      apply list_elem_of_filter in Hy as [Hys Hy].
      assert ((s, length (filter (λ r, f_id r = s) (attended fs)))
                ∈ groupby_size (attended fs)) as Hin.
      { apply groupby_size_elem. split; [|done]. rewrite <- Hys.
        by apply list_elem_of_fmap_2. }
      assert ((s, length (filter (λ r, f_id r = s) (attended fs)))
                ∈ filter (λ r : cell * nat, r.1 = s) (groupby_size (attended fs))) as Hin'
        by by apply list_elem_of_filter.
      rewrite Ho in Hin'. by inv Hin'. }
  split.
  - intros [Hatt (x & -> & Hx)].
    destruct x as [[[s g] o1] o]. simpl in Hatt.
    apply merge_left_elem in Hx as [Hx1 Ho]. simpl in Hx1, Ho.
    pose proof (Hcount _ Hx1) as Hc. simpl in Hc.
    apply merge_left_elem in Hx1 as [Hsg _]. simpl in Hsg.
    apply Hunder in Hsg as [Hsg Hbelow]. simpl in Hbelow.
    exists s, g, o. simpl. rewrite Hc in Hatt |- *. split_and!; done.
  - intros (s & g & o & Hsg & Hbelow & Hatt & Ho & ->).
    assert ((s, g) ∈ under) as Hu by by apply Hunder.
    set (o1 := head (filter (λ r : cell * nat, r.1 = s) (groupby_size (attended fs)))).
    assert ((s, g, o1) ∈ merge_left fst fst under (groupby_size (attended fs))) as H1.
    { apply merge_left_elem. split; [done|]. simpl. unfold o1.
      destruct (filter _ (groupby_size (attended fs))) as [| y l] eqn:E; [done|]. simpl.
      assert (y ∈ y :: l) as Hy by left. rewrite <- E in Hy.
      by apply list_elem_of_filter in Hy as [? ?]. }
    pose proof (Hcount _ H1) as Hc. simpl in Hc.
    split.
    + simpl. lia.
    + exists (s, g, o1, o). split.
      * simpl. by rewrite Hc.
      * apply merge_left_elem. split; [done|]. simpl. destruct o; [tauto|done].
Qed.

Lemma underperforming_inv S sum_rows formative_results result :
  underperforming S sum_rows formative_results = Ok result →
  ∃ fs ss, numeric_formative (formative_cells formative_results) = Ok fs ∧
           numeric (dropna sum_rows) = Ok ss.
Proof.
  unfold underperforming. fold (formative_cells formative_results).
  destruct (numeric_formative _) as [fs|]; [|done].
  destruct (numeric _) as [ss|]; [|done]. eauto.
Qed.

Lemma lowest_formative_elem (l : list formative_row) y :
  y ∈ lowest_formative l → y ∈ l.
Proof.
  unfold lowest_formative. intros Hy.
  rewrite <- (merge_sort_Permutation low_le l).
  eapply elem_of_sublist; [exact Hy | apply first_of_each_sublist].
Qed.

Lemma lowest_formative_unique (l : list formative_row) y y' :
  y ∈ lowest_formative l → y' ∈ lowest_formative l → f_id y = f_id y' → y = y'.
Proof. apply NoDup_fmap_eq, first_of_each_NoDup. Qed.

(** The row of a student in [lowest_formative] is not above any row of
    that student, in the order of the sort. *)
Lemma lowest_formative_least (l : list formative_row) x :
  x ∈ l → ∃ y, y ∈ lowest_formative l ∧ f_id y = f_id x ∧ low_le y x.
Proof.
  intros Hx. unfold lowest_formative.
  rewrite <- (merge_sort_Permutation low_le l) in Hx.
  destruct (first_of_each_before f_id [] _ x Hx) as (y & l1 & l2 & Heq & Hy & Hk & Hor).
  { set_solver. }
  exists y. split_and!; [done..|].
  destruct Hor as [->|Hx2].
  { destruct (total low_le y y); done. }
  pose proof (StronglySorted_merge_sort low_le l) as Hs.
  rewrite Heq in Hs.
  apply StronglySorted_app_1_r, StronglySorted_cons in Hs as [Hs _].
  rewrite Forall_forall in Hs. by apply Hs.
Qed.

Lemma low_le_same_id (y x : formative_row) :
  f_id y = f_id x → low_le y x →
  (f_grade y < f_grade x)%Qc ∨
  (f_grade y = f_grade x ∧ String.le (f_test y) (f_test x)).
Proof.
  intros Hid. unfold low_le. rewrite decide_True by done.
  case_decide as Hg; [by right|]. intros Hle. left.
  apply Qcle_lt_or_eq in Hle as [?| ?]; [done|]. exfalso. by apply Hg.
Qed.

(** C3.  For Sum_Test rows [ss] and formative rows [fs] with an identifier
    and a number as grade: a student appears in the result with the
    summative grade [g] exactly when the Sum_Test row (student, [g]) exists,
    [g] is strictly below the mean of the Sum_Test grades, and the student
    has three or more formative rows with a grade above 0.  So a student at
    the mean is not in the result; a student below the mean with two
    attempts is not in it, and is in it when the formative rows give three
    attempts. *)
Theorem underperforming_iff (S : sorter) (sum_rows : list (cell * cell))
    (formative_results : list (string * list (cell * cell)))
    (fs : list formative_row) (ss : list (cell * Qc)) :
  numeric_formative (formative_cells formative_results) = Ok fs →
  numeric (dropna sum_rows) = Ok ss →
  ∃ result, underperforming S sum_rows formative_results = Ok result ∧
    (∀ s g, (∃ r, r ∈ result ∧ research_id r = s ∧ Summative_Grade r = g) ↔
            (s, g) ∈ ss ∧ below (mean (snd <$> ss)) g ∧ (3 ≤ attempts_of s fs)%nat) ∧
    (∀ r, r ∈ result → mean (snd <$> ss) ≠ Some (Summative_Grade r)) ∧
    (∀ s g, (s, g) ∈ ss → below (mean (snd <$> ss)) g →
       (attempts_of s fs = 2%nat → ¬ ∃ r, r ∈ result ∧ research_id r = s) ∧
       ∀ formative_results' fs',
         numeric_formative (formative_cells formative_results') = Ok fs' →
         attempts_of s fs' = 3%nat →
         ∃ result' r, underperforming S sum_rows formative_results' = Ok result' ∧
                      r ∈ result' ∧ research_id r = s ∧ Summative_Grade r = g).
Proof.
  intros Hfs Hss.
  assert (∀ fr' fs', numeric_formative (formative_cells fr') = Ok fs' →
            ∃ result, underperforming S sum_rows fr' = Ok result ∧
              ∀ s g, (∃ r, r ∈ result ∧ research_id r = s ∧ Summative_Grade r = g) ↔
                     (s, g) ∈ ss ∧ below (mean (snd <$> ss)) g ∧
                     (3 ≤ attempts_of s fs')%nat) as Hiff.
  { intros fr' fs' Hfs'.
    destruct (underperforming_rows S sum_rows fr' fs' ss Hfs' Hss)
      as (result & Hres & Hrows).
    exists result. split; [done|]. intros s g. split.
    - intros (r & Hr & <- & <-). apply Hrows in Hr as (s & g & o & ? & ? & ? & _ & ->).
      done.
    - intros (Hsg & Hbelow & Hatt).
      set (low := filter (λ y, f_id y = s) (lowest_formative (attended fs'))).
      exists (mkUnder s g (f_grade <$> head low) (f_test <$> head low)
                (attempts_of s fs')).
      split; [|done]. apply Hrows. exists s, g, (head low). split_and!; try done.
      unfold low. destruct (filter _ _) as [| y l] eqn:E; simpl; [done|].
      assert (y ∈ y :: l) as Hy by left. rewrite <- E in Hy.
      by apply list_elem_of_filter in Hy as [? ?]. }
  destruct (Hiff formative_results fs Hfs) as (result & Hres & Hrows).
  exists result. split_and!; [done | done | |].
  - intros r Hr Hmean.
    destruct (Hrows (research_id r) (Summative_Grade r)) as [H _].
    destruct H as (_ & Hbelow & _); [by exists r|].
    rewrite Hmean in Hbelow. simpl in Hbelow. by apply Qclt_not_eq in Hbelow.
  - intros s g Hsg Hbelow. split.
    + intros Htwo (r & Hr & Hs).
      destruct (Hrows s (Summative_Grade r)) as [H _].
      destruct H as (_ & _ & Hatt); [by exists r|]. lia.
    + intros fr' fs' Hfs' Hthree.
      destruct (Hiff fr' fs' Hfs') as (result' & Hres' & Hrows').
      destruct (Hrows' s g) as [_ H].
      destruct H as (r & Hr & Hs & Hg); [split_and!; [done..|lia]|].
      by exists result', r.
Qed.

(** C10.  Every row of the result has a lowest formative grade, above 0,
    and a lowest formative test: a row with three attempts or more has an
    attempted formative row, so the left join finds its row of
    [lowest_formative]. *)
Theorem reported_lowest_formative (S : sorter) (sum_rows : list (cell * cell))
    (formative_results : list (string * list (cell * cell)))
    (result : list under_row) (r : under_row) :
  underperforming S sum_rows formative_results = Ok result → r ∈ result →
  ∃ q t, Lowest_Formative_Grade r = Some q ∧ (QcZ 0 < q)%Qc ∧
         Lowest_Formative_Test r = Some t ∧ (3 ≤ Attempts r)%nat.
Proof.
  intros Hres Hr.
  destruct (underperforming_inv _ _ _ _ Hres) as (fs & ss & Hfs & Hss).
  destruct (underperforming_rows S _ _ _ _ Hfs Hss) as (result' & Hres' & Hrows).
  rewrite Hres in Hres'. simplify_eq.
  apply Hrows in Hr as (s & g & o & _ & _ & Hatt & Ho & ->). simpl.
  destruct o as [y|].
  - destruct Ho as [Hy _]. apply lowest_formative_elem in Hy.
    apply list_elem_of_filter in Hy as [Hpos _]. by exists (f_grade y), (f_test y).
  - exfalso. unfold attempts_of in Hatt.
    destruct (filter (λ x, f_id x = s) (attended fs)) as [| x l] eqn:E; [simpl in Hatt; lia|].
    assert (x ∈ x :: l) as Hx by left. rewrite <- E in Hx.
    apply list_elem_of_filter in Hx as [Hxs Hx].
    destruct (lowest_formative_least _ x Hx) as (y & Hy & Hys & _).
    assert (y ∈ filter (λ y, f_id y = s) (lowest_formative (attended fs))) as Hin.
    { apply list_elem_of_filter. split; [congruence|done]. }
    rewrite Ho in Hin. by inv Hin.
Qed.

(** C4.  For a student with an attempted formative row, [lowest_formative]
    has one row of that student; it is an attempted row of the student, no
    attempted row of the student has a lower grade, and among those with the
    same grade none has an earlier test name; the result reports the grade
    and the test of that row. *)
Theorem lowest_formative_minimum (fs : list formative_row) (s : cell) :
  (∃ x, x ∈ attended fs ∧ f_id x = s) →
  ∃ y, y ∈ lowest_formative (attended fs) ∧ f_id y = s ∧ y ∈ attended fs ∧
       (∀ y', y' ∈ lowest_formative (attended fs) → f_id y' = s → y' = y) ∧
       (∀ x, x ∈ attended fs → f_id x = s →
          (f_grade y < f_grade x)%Qc ∨
          (f_grade y = f_grade x ∧ String.le (f_test y) (f_test x))) ∧
       (∀ S sum_rows formative_results result r,
          numeric_formative (formative_cells formative_results) = Ok fs →
          underperforming S sum_rows formative_results = Ok result →
          r ∈ result → research_id r = s →
          Lowest_Formative_Grade r = Some (f_grade y) ∧
          Lowest_Formative_Test r = Some (f_test y)).
Proof.
  intros (x0 & Hx0 & Hs0).
  destruct (lowest_formative_least _ x0 Hx0) as (y & Hy & Hys & _).
  exists y. split_and!; [done | congruence | by apply lowest_formative_elem | | |].
  - intros y' Hy' Hys'. apply (lowest_formative_unique (attended fs)); [done..|congruence].
  - intros x Hx Hxs.
    destruct (lowest_formative_least _ x Hx) as (y' & Hy' & Hys' & Hle).
    assert (y' = y) as ->.
    { apply (lowest_formative_unique (attended fs)); [done..|congruence]. }
    by apply low_le_same_id.
  - intros S sum_rows formative_results result r Hfs Hres Hr Hrs.
    destruct (underperforming_inv _ _ _ _ Hres) as (fs' & ss & Hfs' & Hss).
    assert (fs' = fs) as -> by congruence.
    destruct (underperforming_rows S _ _ _ _ Hfs Hss) as (result' & Hres' & Hrows).
    assert (result' = result) as -> by congruence.
    apply Hrows in Hr as (s' & g & o & _ & _ & _ & Ho & ->). simpl in *. subst s'.
    destruct o as [y'|]; simpl.
    + destruct Ho as [Hy' Hys'].
      assert (y' = y) as ->; [|done].
      apply (lowest_formative_unique (attended fs)); [done..|congruence].
    + exfalso.
      assert (y ∈ filter (λ y, f_id y = s) (lowest_formative (attended fs))) as Hin.
      { apply list_elem_of_filter. split; [congruence|done]. }
      rewrite Ho in Hin. by inv Hin.
Qed.

(** ** The example cohort *)

Lemma underperforming_iff_witness :
  ∃ result, underperforming stable_sorter example_sum_rows example_formative = Ok result ∧
    (∀ s g, (∃ r, r ∈ result ∧ research_id r = s ∧ Summative_Grade r = g) ↔
            (s, g) ∈ example_ss ∧ below (mean (snd <$> example_ss)) g ∧
            (3 ≤ attempts_of s example_fs)%nat) ∧
    (∀ r, r ∈ result → mean (snd <$> example_ss) ≠ Some (Summative_Grade r)) ∧
    (∀ s g, (s, g) ∈ example_ss → below (mean (snd <$> example_ss)) g →
       (attempts_of s example_fs = 2%nat → ¬ ∃ r, r ∈ result ∧ research_id r = s) ∧
       ∀ formative_results' fs',
         numeric_formative (formative_cells formative_results') = Ok fs' →
         attempts_of s fs' = 3%nat →
         ∃ result' r,
           underperforming stable_sorter example_sum_rows formative_results' = Ok result' ∧
           r ∈ result' ∧ research_id r = s ∧ Summative_Grade r = g).
Proof.
  apply (underperforming_iff stable_sorter example_sum_rows example_formative
           example_fs example_ss).
  - apply (bool_decide_unpack _). vm_compute. exact I.
  - apply (bool_decide_unpack _). vm_compute. exact I.
Defined.

(** A is reported, with three attempts and the earlier of the two tests of
    the lowest grade; B, below the mean with two attempts, is not; with a
    third attempt B is reported as well, after A, whose summative grade is
    lower. *)
Example underperforming_example :
  underperforming stable_sorter example_sum_rows example_formative = Ok example_result ∧
  underperforming stable_sorter example_sum_rows example_formative_third
    = Ok [mkUnder (Str "A") (QcZ 3000) (Some (QcZ 2000)) (Some "Test_1") 3;
          mkUnder (Str "B") (QcZ 5000) (Some (QcZ 500)) (Some "Mock_Test") 3].
Proof. split; apply (bool_decide_unpack _); vm_compute; exact I. Qed.

Lemma reported_lowest_formative_witness :
  ∃ q t, Lowest_Formative_Grade
           (mkUnder (Str "A") (QcZ 3000) (Some (QcZ 2000)) (Some "Test_1") 3) = Some q ∧
         (QcZ 0 < q)%Qc ∧
         Lowest_Formative_Test
           (mkUnder (Str "A") (QcZ 3000) (Some (QcZ 2000)) (Some "Test_1") 3) = Some t ∧
         (3 ≤ Attempts (mkUnder (Str "A") (QcZ 3000) (Some (QcZ 2000)) (Some "Test_1") 3))%nat.
Proof.
  apply (reported_lowest_formative stable_sorter example_sum_rows example_formative
           example_result).
  - apply (bool_decide_unpack _). vm_compute. exact I.
  - apply (bool_decide_unpack _). vm_compute. exact I.
Defined.

Lemma lowest_formative_minimum_witness :
  ∃ y, y ∈ lowest_formative (attended example_fs) ∧ f_id y = Str "A" ∧
       y ∈ attended example_fs ∧
       (∀ y', y' ∈ lowest_formative (attended example_fs) → f_id y' = Str "A" → y' = y) ∧
       (∀ x, x ∈ attended example_fs → f_id x = Str "A" →
          (f_grade y < f_grade x)%Qc ∨
          (f_grade y = f_grade x ∧ String.le (f_test y) (f_test x))) ∧
       (∀ S sum_rows formative_results result r,
          numeric_formative (formative_cells formative_results) = Ok example_fs →
          underperforming S sum_rows formative_results = Ok result →
          r ∈ result → research_id r = Str "A" →
          Lowest_Formative_Grade r = Some (f_grade y) ∧
          Lowest_Formative_Test r = Some (f_test y)).
Proof.
  apply (lowest_formative_minimum example_fs (Str "A")).
  exists (mkFormative (Str "A") (QcZ 4000) "Test_3"). split.
  - apply (bool_decide_unpack _). vm_compute. exact I.
  - reflexivity.
Defined.

(** The example of the specification: two rows of S1 with the grade 20, in
    Test_2 and in Test_1; the weakest result is that of Test_1. *)
Example lowest_formative_tie :
  lowest_formative
    (attended [mkFormative (Str "S1") (QcZ 20) "Test_2";
               mkFormative (Str "S1") (QcZ 20) "Test_1";
               mkFormative (Str "S1") (QcZ 35) "Mock_Test"])
  = [mkFormative (Str "S1") (QcZ 20) "Test_1"].
Proof. apply (bool_decide_unpack _). vm_compute. exact I. Qed.

(** ** Binary64 and the exact model *)

(** For every whole-number grade from 0 to the denominator, the binary64
    computation of the pipelines gives the integer that the exact model
    gives: on these grades float64 rounding plays no part.  (For grades with
    decimals the product can fall next to a half, where binary64 may round
    to the other neighbour.) *)
Lemma float_normalise_whole_grades (grade_total k : Z) :
  grade_total ∈ [600; 700; 1000] → (0 ≤ k ≤ grade_total)%Z →
  float_agrees grade_total k = true.
Proof.
  intros HD Hk.
  assert (forallb (float_agrees grade_total)
            (Z.of_nat <$> seq 0 (Datatypes.S (Z.to_nat grade_total))) = true) as Hall.
  { repeat (apply elem_of_cons in HD as [->|HD]; [vm_compute; reflexivity|]).
    by inv HD. }
  rewrite forallb_forall in Hall. apply Hall, list_elem_of_In.
  apply list_elem_of_fmap. exists (Z.to_nat k). split; [lia|].
  apply elem_of_seq. lia.
Qed.

(** A grade with decimals at a tie: 0.27 out of 600 is exactly 4.5 on the
    scale of 10000.  The exact model rounds it to the even neighbour 4; in
    binary64 the product is a little above 4.5 and rounds to 5.  Both are
    nearest integers of 4.5 ([round_half_even_nearest]). *)
Example float_normalise_at_a_tie :
  float_normalise (float_of_Z 27 / float_of_Z 100) (float_of_Z 600) = float_of_Z 5 ∧
  round_half_even (QcZ 27 / QcZ 100 * QcZ 10000 / QcZ 600) = 4.
Proof. split; vm_compute; reflexivity. Qed.

(** * More of the code: the steps, the pipelines, the run, the analyses *)

(** The world after the run on the seven exports. *)
Definition example_world_written : World :=
  (run stable_sorter no_parse example_pre example_world_full).2.

Lemma QcZ_le (a b : Z) : (QcZ a ≤ QcZ b)%Qc ↔ (a ≤ b)%Z.
Proof.
  unfold Qcle, QcZ, Qc_of_Z, Qle. simpl. lia.
Qed.

Lemma round_half_even_le (q : Qc) (n : Z) :
  (q ≤ QcZ n)%Qc → (round_half_even q ≤ n)%Z.
Proof.
  intros Hq. destruct (round_half_even_nearest q) as [_ H].
  revert Hq H. generalize (round_half_even q). intros r.
  unfold Qcle, Qcminus, Qcplus, Qcopp, Qc_half, QcZ, Qc_of_Z, Q2Qc. simpl.
  rewrite ?Qred_correct. intros Hq H.
  assert (inject_Z r <= inject_Z n + (1 # 2))%Q as Hle.
  { revert Hq H. generalize (inject_Z r), (inject_Z n), (this q). intros. lra. }
  unfold Qle in Hle. simpl in Hle. lia.
Qed.

Lemma round_half_even_ge (q : Qc) (n : Z) :
  (QcZ n ≤ q)%Qc → (n ≤ round_half_even q)%Z.
Proof.
  intros Hq. destruct (round_half_even_nearest q) as [H _].
  revert Hq H. generalize (round_half_even q). intros r.
  unfold Qcle, Qcminus, Qcplus, Qcopp, Qc_half, QcZ, Qc_of_Z, Q2Qc. simpl.
  rewrite ?Qred_correct. intros Hq H.
  assert (inject_Z n <= inject_Z r + (1 # 2))%Q as Hle.
  { revert Hq H. generalize (inject_Z r), (inject_Z n), (this q). intros. lra. }
  unfold Qle in Hle. simpl in Hle. lia.
Qed.

Lemma round_half_even_QcZ (n : Z) : round_half_even (QcZ n) = n.
Proof.
  apply Z.le_antisymm; [apply round_half_even_le | apply round_half_even_ge];
    by apply QcZ_le.
Qed.


(** ** Column updates *)

Lemma fold_cols_notin (fs : list (string * (cell → cell))) name x :
  name ∉ fs.*1 → fold_cols fs name x = x.
Proof.
  unfold fold_cols. revert x. induction fs as [| [c f] fs IH]; intros x Hn; simpl; [done|].
  rewrite fmap_cons, not_elem_of_cons in Hn. destruct Hn as [Hne Hn]. simpl in Hne.
  rewrite decide_False by done. by apply IH.
Qed.

Lemma fold_cols_in (fs : list (string * (cell → cell))) name f x :
  NoDup fs.*1 → (name, f) ∈ fs → fold_cols fs name x = f x.
Proof.
  unfold fold_cols. revert x. induction fs as [| [c g] fs IH]; intros x Hnd Hin; simpl.
  { by apply elem_of_nil in Hin. }
  rewrite fmap_cons in Hnd. apply NoDup_cons in Hnd as [Hc Hnd]. simpl in Hc.
  apply elem_of_cons in Hin as [[= -> ->]|Hin].
  - rewrite decide_True by done. by apply fold_cols_notin.
  - rewrite decide_False.
    + by apply IH.
    + intros ->. apply Hc. apply list_elem_of_fmap. by exists (c, f).
Qed.

Lemma foldl_columns {A} (step : DataFrame → A → DataFrame) (l : list A) (d : DataFrame) :
  (∀ d a, columns (step d a) = columns d) → columns (foldl step d l) = columns d.
Proof.
  intros Hstep. revert d. induction l as [| a l IH]; intros d; simpl; [done|].
  by rewrite IH, Hstep.
Qed.

Lemma scale_cols_to_100_columns df cols :
  columns (scale_cols_to_100 df cols) = columns df.
Proof. unfold scale_cols_to_100. by apply foldl_columns. Qed.

Lemma scale_cols_to_10000_columns df m :
  columns (scale_cols_to_10000 df m) = columns df.
Proof.
  unfold scale_cols_to_10000. apply foldl_columns.
  intros d [c z]. by case_decide.
Qed.




Example scale_cols_to_100_example :
  scale_cols_to_100 example_scores ["Q1"; "Q2"]
  = mkDF ["research_id"; "Q1"; "Q4"]
      [mkRow 0 [Str "S1"; Num (QcZ 80); Num (QcZ 150)];
       mkRow 2 [Str "S2"; NaN; Num (QcZ 200)]].
Proof. apply (bool_decide_unpack _). vm_compute. exact I. Qed.


Example scale_cols_to_10000_example :
  scale_cols_to_10000 example_scores [("Q4", 200); ("Q9", 2000)]
  = mkDF ["research_id"; "Q1"; "Q4"]
      [mkRow 0 [Str "S1"; Num (Q2Qc (8 # 10)); Num (QcZ 7500)];
       mkRow 2 [Str "S2"; NaN; Num (QcZ 10000)]].
Proof. apply (bool_decide_unpack _). vm_compute. exact I. Qed.





(** ** The small steps of the preprocessor *)

Lemma filter_ext_in {A} (P Q : A → Prop) `{∀ x, Decision (P x)} `{∀ x, Decision (Q x)}
    (l : list A) :
  (∀ x, x ∈ l → P x ↔ Q x) → filter P l = filter Q l.
Proof.
  induction l as [| x l IH]; intros Hl; [done|].
  rewrite !filter_cons. rewrite IH by (intros y Hy; apply Hl; by right).
  destruct (decide (P x)) as [HP|HP], (decide (Q x)) as [HQ|HQ]; try done.
  - apply Hl in HP; [done | by left].
  - apply Hl in HQ; [done | by left].
Qed.

Lemma filter_all {A} (P : A → Prop) `{∀ x, Decision (P x)} (l : list A) :
  (∀ x, x ∈ l → P x) → filter P l = l.
Proof.
  induction l as [| x l IH]; intros Hl; [done|].
  rewrite filter_cons, decide_True by (apply Hl; by left).
  f_equal. apply IH. intros y Hy. apply Hl. by right.
Qed.

Lemma filter_nil_not_elem {A} (P : A → Prop) `{∀ x, Decision (P x)} (l : list A) :
  filter P l = [] ↔ ∀ x, x ∈ l → ¬ P x.
Proof.
  split.
  - intros Hnil x Hx HP.
    assert (x ∈ filter P l) as Hin by (by apply list_elem_of_filter).
    rewrite Hnil in Hin. by apply elem_of_nil in Hin.
  - intros Hl. destruct (filter P l) as [| y l'] eqn:E; [done|].
    assert (y ∈ filter P l) as Hin by (rewrite E; left).
    apply list_elem_of_filter in Hin as [HP Hy]. by destruct (Hl y Hy).
Qed.

(** X4.  [remove_redundant_columns] leaves the columns of the frame that
    are not listed, in their order; every row keeps its label and, in each
    column that is left, its cell; when no listed column exists the frame is
    returned as it is (nothing is raised for a name that is no column). *)
Theorem remove_redundant_columns_drops (df : DataFrame) (cols_to_drop : list string) :
  let out := remove_redundant_columns df cols_to_drop in
  columns out = filter (λ c, c ∉ cols_to_drop) (columns df) ∧
  (∀ c, c ∈ cols_to_drop → c ∉ columns out) ∧
  Forall2 (λ r r', label r' = label r ∧
             ∀ c, c ∉ cols_to_drop →
               cell_at (columns out) c (cells r') = cell_at (columns df) c (cells r))
          (rows df) (rows out) ∧
  ((∀ c, c ∈ cols_to_drop → c ∉ columns df) → out = df).
Proof.
  intros out.
  assert (columns out = filter (λ c, c ∉ cols_to_drop) (columns df)) as Hcols.
  { unfold out, remove_redundant_columns. case_decide as Hex.
    - symmetry. apply filter_all. intros c Hc Hd.
      pose proof (proj1 (filter_nil_not_elem _ _) Hex) as Hex'. by apply (Hex' c Hd).
    - simpl. apply filter_ext_in. intros c Hc.
      rewrite list_elem_of_filter. naive_solver. }
  split_and!.
  - done.
  - intros c Hc. rewrite Hcols, list_elem_of_filter. naive_solver.
  - destruct (cellwise_remove_redundant_columns cols_to_drop df) as [_ Hrows].
    eapply Forall2_impl; [exact Hrows|]. intros r r' [Hl Hcell]. split; [done|].
    intros c Hc. unfold out. rewrite (Hcell c Hc). by destruct (cell_at _ _ _).
  - intros Hno. unfold out, remove_redundant_columns.
    rewrite decide_True; [done|]. apply filter_nil_not_elem. intros c Hc Hin.
    by apply (Hno c).
Qed.

Example remove_redundant_columns_example :
  remove_redundant_columns (renamed example_test_1 rename_map_test_1)
    ["State"; "Time_taken"]
  = mkDF ["research_id"; "Grade"; "Q1"]
      [mkRow 0 [Str "S1"; Num (QcZ 480); Num (Q2Qc (8 # 10))];
       mkRow 1 [Str "S1"; Num (QcZ 300); Num (Q2Qc (5 # 10))];
       mkRow 2 [Str "S2"; NaN; Str "-"]].
Proof. apply (bool_decide_unpack _). vm_compute. exact I. Qed.

(** X5.  [check_required_columns] returns when every required column is
    a column of the frame, and only then; otherwise it raises the error that
    names the table, the required columns that are absent (all of them, in
    the order of [required]) and the columns of the frame. *)
Theorem check_required_columns_missing (df : DataFrame) (required : list string)
    (table_name : string) :
  (check_required_columns df required table_name = Ok tt ↔
   ∀ c, c ∈ required → c ∈ columns df) ∧
  (∀ e, check_required_columns df required table_name = Raise e →
     ∃ missing, e = MissingColumns table_name missing (columns df) ∧
       missing ≠ [] ∧ missing `sublist_of` required ∧
       ∀ c, c ∈ missing ↔ c ∈ required ∧ c ∉ columns df).
Proof.
  unfold check_required_columns. split.
  - case_decide as Hm.
    + split; [|done]. intros _ c Hc.
      destruct (decide (c ∈ columns df)) as [|Hn]; [done|].
      pose proof (proj1 (filter_nil_not_elem _ _) Hm) as Hm'. by destruct (Hm' c Hc).
    + split; [done|]. intros Hall. destruct Hm.
      apply filter_nil_not_elem. intros c Hc Hn. by apply Hn, Hall.
  - intros e. case_decide as Hm; [done|]. intros [= <-].
    eexists. split_and!; [done | done | apply sublist_filter |].
    intros c. rewrite list_elem_of_filter. naive_solver.
Qed.



Example write_table_read_back_example :
  ((write_table example_test_1_normalised "Test_1" ≫= λ _, read_table "Test_1")
     example_world).1
  = Ok (mkDF ["research_id"; "Grade"; "Q1"]
          [mkRow 0 [Str "S1"; Num (QcZ 8000); Num (QcZ 80)];
           mkRow 1 [Str "S2"; Num (QcZ 0); Num (QcZ 0)]]).
Proof. apply (bool_decide_unpack _). vm_compute. exact I. Qed.

(** ** Column names *)










Example strip_column_names_example :
  columns (strip_column_names (frame_of example_test_1))
    = [("research id"); "State"; "Grade/600"; "Q 1 /100"] ∧
  strip "  Grade /600  " = "Grade /600" ∧ strip "   " = "".
Proof. repeat split; vm_compute; reflexivity. Qed.

(** X8.  [preprocess_student_rate]: without the file it raises
    FileNotFoundError (and nothing else is ever raised: no column is
    required); with the file it returns every row of the file, in the
    order of the file and with no row left out (there is no deduplication),
    under the column names without the white space at their ends; every
    missing value is 0 and every other cell is as in the file. *)
Theorem preprocess_student_rate_fills (self : CWPreprocessor) (w : World) :
  match files w !! file_rate self with
  | None =>
      preprocess_student_rate self w = (Raise (FileNotFoundError (file_rate self)), w)
  | Some t =>
      ∃ df, preprocess_student_rate self w = (Ok df, w) ∧
        columns df = strip <$> header t ∧
        rows df = imap (λ i cs, mkRow i (fillna (Num (QcZ 0)) <$> cs)) (body t) ∧
        (∀ r c, r ∈ rows df → c ∈ cells r → c ≠ NaN) ∧
        Forall2 (λ cs r, Forall2 (λ x y, y = if decide (x = NaN) then Num (QcZ 0) else x)
                                 cs (cells r))
                (body t) (rows df)
  end.
Proof.
  unfold preprocess_student_rate, mbind, M_bind, read_csv.
  destruct (files w !! file_rate self) as [t|]; [|done].
  eexists. split; [reflexivity|]. simpl.
  assert ((λ r, mkRow (label r) (fillna (Num (QcZ 0)) <$> cells r)) <$> imap mkRow (body t)
          = imap (λ i cs, mkRow i (fillna (Num (QcZ 0)) <$> cs)) (body t)) as Hrows.
  { by rewrite fmap_imap. }
  rewrite Hrows. split_and!; [done | done | |].
  - intros r c Hr Hc. apply elem_of_lookup_imap in Hr as (i & cs & -> & _).
    simpl in Hc. apply list_elem_of_fmap in Hc as (x & -> & _).
    by destruct x.
  - apply Forall2_same_length_lookup. split; [by rewrite length_imap|].
    intros i cs r Hcs Hr. rewrite list_lookup_imap, Hcs in Hr. simplify_eq/=.
    apply Forall2_fmap_r, Forall_Forall2_diag, Forall_forall. intros x _.
    by destruct x.
Qed.

Example preprocess_student_rate_example :
  preprocess_student_rate example_pre example_world_full
  = (Ok (mkDF ["research id"; "rate"] [mkRow 0 [Str "S1"; Num (QcZ 0)]]),
     example_world_full).
Proof. apply (bool_decide_unpack _). vm_compute. exact I. Qed.

(** ** The deduplication: errors and a second application *)

Lemma sublist_length_eq {A} (l1 l2 : list A) :
  l1 `sublist_of` l2 → (length l2 ≤ length l1)%nat → l1 = l2.
Proof.
  induction 1 as [| x l1 l2 Hsub IH | x l1 l2 Hsub IH]; simpl; intros Hlen.
  - done.
  - f_equal. apply IH. lia.
  - apply sublist_length in Hsub. lia.
Qed.

Lemma comparable_alt (l : list cell) :
  comparable l ↔ Forall (λ c, is_num c = true) l ∨ Forall (λ c, is_str c = true) l.
Proof.
  unfold comparable. rewrite orb_True, !forallb_True.
  split.
  - intros [H|H]; [left|right]; (eapply Forall_impl; [exact H|]);
      intros c Hc; by apply Is_true_true_1.
  - intros [H|H]; [left|right]; (eapply Forall_impl; [exact H|]);
      intros c Hc; simpl; by rewrite Hc.
Qed.

Lemma comparable_sublist (l1 l2 : list cell) :
  l1 `sublist_of` l2 → comparable l2 → comparable l1.
Proof.
  intros Hsub. rewrite !comparable_alt.
  intros [H|H]; [left|right]; rewrite Forall_forall in *; intros c Hc;
    apply H; by eapply elem_of_sublist.
Qed.

Lemma filter_sublist {A} (P : A → Prop) `{∀ x, Decision (P x)} (l1 l2 : list A) :
  l1 `sublist_of` l2 → filter P l1 `sublist_of` filter P l2.
Proof.
  induction 1 as [| x l1 l2 Hsub IH | x l1 l2 Hsub IH]; [done| |].
  - rewrite !filter_cons. destruct (decide (P x)); [by constructor | done].
  - rewrite filter_cons. destruct (decide (P x)); [by constructor | done].
Qed.


(** X10.  A second deduplication changes nothing: on the frame that
    [keep_best_attempt] returned, [keep_best_attempt] returns that frame
    again, whatever the sort (stable or not) of either call. *)
Theorem keep_best_attempt_idempotent (S S' : sorter) (df out : DataFrame) :
  ascending_index df → keep_best_attempt S df = Ok out →
  keep_best_attempt S' out = Ok out.
Proof.
  intros Hasc Hout.
  destruct (keep_best_attempt_inv S df out Hout) as (Hg & Hid & Hcmp).
  destruct (keep_best_attempt_sorted S df Hg Hid Hasc Hcmp)
    as (out0 & Hout0 & Hsub0 & Hnd0 & _).
  rewrite Hout in Hout0. injection Hout0 as ->.
  set (out := mkDF (columns df) out0).
  assert (ascending_index out) as Hasc'.
  { unfold ascending_index in *. simpl.
    eapply StronglySorted_sublist; [|exact Hasc]. by apply fmap_sublist. }
  assert (comparable (get (columns out) "Grade" <$>
            filter (λ r, isna (get (columns out) "Grade" r) = false) (rows out))) as Hcmp'.
  { eapply comparable_sublist; [|exact Hcmp]. simpl.
    apply fmap_sublist. by apply filter_sublist. }
  destruct (keep_best_attempt_sorted S' out Hg Hid Hasc' Hcmp')
    as (out1 & Hout1 & Hsub1 & _ & Hall).
  rewrite Hout1. do 2 f_equal. simpl in *.
  apply sublist_length_eq; [done|].
  apply submseteq_length, NoDup_submseteq.
  - by apply NoDup_fmap_1 in Hnd0.
  - intros r Hr. destruct (Hall r Hr) as (r' & Hr' & Heq & _).
    assert (r' = r) as ->; [|done].
    eapply (NoDup_fmap_eq _ out0); [exact Hnd0 | | done | exact Heq].
    by eapply elem_of_sublist.
Qed.

Lemma keep_best_attempt_idempotent_witness :
  ascending_index tied_attempts ∧
  keep_best_attempt reversing_sorter tied_attempts
    = Ok (mkDF ["research_id"; "Grade"] [mkRow 1 [Str "S1"; Num (QcZ 480)]]) ∧
  keep_best_attempt stable_sorter
      (mkDF ["research_id"; "Grade"] [mkRow 1 [Str "S1"; Num (QcZ 480)]])
    = Ok (mkDF ["research_id"; "Grade"] [mkRow 1 [Str "S1"; Num (QcZ 480)]]).
Proof.
  assert (ascending_index tied_attempts) as Hasc by apply frame_of_ascending.
  assert (keep_best_attempt reversing_sorter tied_attempts
          = Ok (mkDF ["research_id"; "Grade"] [mkRow 1 [Str "S1"; Num (QcZ 480)]])) as Hout.
  { apply (bool_decide_unpack _). vm_compute. exact I. }
  split; [exact Hasc|]. split; [exact Hout|].
  exact (keep_best_attempt_idempotent reversing_sorter stable_sorter tied_attempts _ Hasc Hout).
Defined.

(** ** The pipelines: every column *)

Lemma clean_numeric_columns_columns parse df cols :
  columns (clean_numeric_columns parse df cols) = columns df.
Proof.
  unfold clean_numeric_columns.
  rewrite foldl_columns; [done|]. intros d c. by case_decide.
Qed.

Lemma remove_redundant_columns_columns df cols :
  columns (remove_redundant_columns df cols) = filter (λ c, c ∉ cols) (columns df).
Proof.
  unfold remove_redundant_columns. case_decide as Hex.
  - symmetry. apply filter_all. intros c Hc Hd.
    pose proof (proj1 (filter_nil_not_elem _ _) Hex) as Hex'. by apply (Hex' c Hd).
  - simpl. apply filter_ext_in. intros c Hc.
    rewrite list_elem_of_filter. naive_solver.
Qed.

Lemma map_col_columns c f df : columns (map_col c f df) = columns df.
Proof. done. Qed.

Lemma normalise_grade_to_10000_columns df grade_total :
  columns (normalise_grade_to_10000 df grade_total) = columns df.
Proof. done. Qed.

Lemma tail_of_columns parse a d :
  columns (tail_of parse a d) = filter (λ c, c ∉ ["State"; "Time_taken"]) (columns d).
Proof.
  rewrite <- remove_redundant_columns_columns.
  destruct a; unfold tail_of; cbv zeta;
    repeat first [ rewrite scale_cols_to_10000_columns
                 | rewrite scale_cols_to_100_columns
                 | rewrite normalise_grade_to_10000_columns
                 | rewrite map_col_columns
                 | rewrite clean_numeric_columns_columns ];
    reflexivity.
Qed.

Lemma fold_cols_const_notin (f : cell → cell) (cols : list string) c y :
  c ∉ cols → fold_cols ((λ c0, (c0, f)) <$> cols) c y = y.
Proof.
  intros Hc. apply fold_cols_notin. rewrite <- list_fmap_compose.
  by rewrite list_fmap_id.
Qed.

Lemma fold_cols_max_notin (h : Z → cell → cell) (m : list (string * Z)) c y :
  c ∉ m.*1 → fold_cols ((λ p, (p.1, h p.2)) <$> m) c y = y.
Proof.
  intros Hc. apply fold_cols_notin. by rewrite <- list_fmap_compose.
Qed.

Lemma fold_cols_const (f : cell → cell) (cols : list string) c y :
  NoDup cols →
  fold_cols ((λ c0, (c0, f)) <$> cols) c y = if bool_decide (c ∈ cols) then f y else y.
Proof.
  intros Hnd. case_bool_decide as Hc.
  - apply fold_cols_in.
    + rewrite <- list_fmap_compose. by rewrite list_fmap_id.
    + apply list_elem_of_fmap. by exists c.
  - by apply fold_cols_const_notin.
Qed.

Lemma assoc_Some {V} (m : list (string * V)) c v : assoc c m = Some v → (c, v) ∈ m.
Proof.
  induction m as [| [c' v'] m IH]; simpl; [done|].
  case_decide; [intros [= <-]; subst; left | intros H'; right; by apply IH].
Qed.

Lemma assoc_None {V} (m : list (string * V)) c : assoc c m = None → c ∉ m.*1.
Proof.
  induction m as [| [c' v'] m IH]; simpl; [intros _; apply not_elem_of_nil|].
  case_decide; [done|]. intros H'. apply not_elem_of_cons. split; [done | by apply IH].
Qed.

Lemma fold_cols_max (h : Z → cell → cell) (m : list (string * Z)) c y :
  NoDup m.*1 →
  fold_cols ((λ p, (p.1, h p.2)) <$> m) c y
  = match assoc c m with Some z => h z y | None => y end.
Proof.
  intros Hnd. destruct (assoc c m) as [z|] eqn:E.
  - apply (fold_cols_in _ c (h z)).
    + by rewrite <- list_fmap_compose.
    + apply list_elem_of_fmap. exists (c, z). split; [done|]. by apply assoc_Some.
  - apply fold_cols_max_notin. by apply assoc_None.
Qed.

Ltac notin_cols :=
  simpl; rewrite ?not_elem_of_cons; split_and?; first [done | apply not_elem_of_nil].

Ltac by_computation := apply (bool_decide_unpack _); vm_compute; exact I.

(** The layers of column updates at a column with a known name. *)
Ltac eval_layers :=
  repeat first
    [ rewrite fold_cols_const by by_computation;
      lazymatch goal with
      | |- context [bool_decide (?c ∈ ?l)] =>
          let v := eval vm_compute in (bool_decide (c ∈ l)) in
          change (bool_decide (c ∈ l)) with v; cbv iota
      end
    | rewrite (fold_cols_max
                 (λ z y, round_Int64 (num_op (λ x0, x0 * (QcZ 10000 / QcZ z))%Qc y)))
        by by_computation;
      lazymatch goal with
      | |- context [assoc ?c ?m] =>
          let v := eval vm_compute in (assoc c m) in
          change (assoc c m) with v; cbv iota beta
      end
    | rewrite (decide_True (P := "Grade" = "Grade")) by done
    | rewrite (decide_False (P := _ = "Grade")) by done ].

Lemma cellwise_tail_of_cells parse a :
  ∃ F, (∀ d, cellwise ["State"; "Time_taken"] F d (tail_of parse a d)) ∧
       (∀ c k x g, (c, k) ∈ question_factor a → coerce parse x = Num g →
          F c x = Num (QcZ (round_half_even (g * k)))) ∧
       (∀ c x, c ∈ cols_numeric a → ∃ z, F c x = Num (QcZ z)) ∧
       (∀ c x, c ∉ cols_numeric a → F c x = replace_dash x).
Proof.
  destruct a; eexists;
    (split; [intros d; unfold tail_of; cellwise_chain|]);
    (split; [|split]).
  all: try (intros c k x g Hin Hg; unfold question_factor in Hin; cbv zeta in Hin;
            rewrite ?elem_of_app in Hin; destruct_or?;
            apply list_elem_of_fmap in Hin as (p & Heq & Hp); injection Heq as -> ->;
            repeat (apply elem_of_cons in Hp as [->|Hp];
                    [cbn [fst snd]; eval_layers; unfold coerce in Hg; rewrite Hg;
                     reflexivity|]);
            by apply elem_of_nil in Hp).
  all: try (intros c x Hin; destruct (coerce_num parse x) as [q Hq];
            unfold cols_numeric in Hin;
            repeat (apply elem_of_cons in Hin as [->|Hin];
                    [eval_layers; unfold coerce in Hq; rewrite Hq;
                     eexists; reflexivity|]);
            by apply elem_of_nil in Hin).
  all: intros c x Hn; unfold cols_numeric in Hn;
    rewrite !not_elem_of_cons in Hn; destruct_and!;
    repeat first
      [ rewrite (fold_cols_const_notin _ _ c) by notin_cols
      | rewrite (fold_cols_max_notin
                   (λ z y, round_Int64 (num_op (λ x0, x0 * (QcZ 10000 / QcZ z))%Qc y)) _ c)
          by notin_cols
      | rewrite (decide_False (P := c = "Grade")) by done ];
    reflexivity.
Qed.


Lemma cols_numeric_kept a c : c ∈ cols_numeric a → c ∉ ["State"; "Time_taken"].
Proof. destruct a; simpl; set_solver. Qed.

Lemma preprocess_ok_file S parse self a w w' df :
  preprocess S parse self a w = (Ok df, w') →
  w' = w ∧ ∃ t d, files w !! csv_file self a = Some t ∧
    check_required_columns (renamed t (rename_map_of a)) ["research_id"; "Grade"]
      (table_name a) = Ok tt ∧
    keep_best_attempt S (renamed t (rename_map_of a)) = Ok d ∧
    df = tail_of parse a d.
Proof.
  rewrite preprocess_pipeline, pipeline_run. intros Hrun.
  destruct (files w !! csv_file self a) as [t|]; [|done].
  destruct (check_required_columns _ _ _) as [[]|] eqn:Hchk; [|done].
  destruct (keep_best_attempt S _) as [d|] eqn:Hd; [|done].
  simplify_eq. split; [done|]. by exists t, d.
Qed.



(** X12.  The other columns of a pipeline: in a column that is neither
    dropped nor made numeric (research_id, Started_on, ...) a cell of the
    returned frame is the cell of the file, except that the placeholder
    ["-"] has become the number 0: [df.replace("-", 0)] is applied to the
    whole frame, not only to the numeric columns. *)
Theorem other_columns_placeholder (S : sorter) (parse : string → option Qc)
    (self : CWPreprocessor) (a : assessment) (w w' : World) (df : DataFrame)
    (t : Table) (r : Row) (c : string) :
  preprocess S parse self a w = (Ok df, w') →
  files w !! csv_file self a = Some t →
  r ∈ rows df →
  c ∉ cols_numeric a → c ∉ ["State"; "Time_taken"] →
  cell_at (columns df) c (cells r)
    = replace_dash <$> raw_cell t (rename_map_of a) c (label r).
Proof.
  intros Hrun Ht Hr Hc Hd. rewrite preprocess_pipeline in Hrun.
  destruct (cellwise_tail_of_cells parse a) as (F & Htail & _ & _ & HF).
  rewrite (pipeline_cells _ _ _ _ _ F _ _ _ _ _ Htail Hrun Ht Hr c Hd).
  destruct (raw_cell _ _ _ _); simpl; [|done]. by rewrite HF.
Qed.

(** X13.  The numeric columns of a pipeline hold integers: in the frame
    that the pipeline of an assessment returns, every cell of Grade and of
    the question columns that the pipeline cleans is an integer number,
    never a missing value and never text. *)
Theorem numeric_columns_integers (S : sorter) (parse : string → option Qc)
    (self : CWPreprocessor) (a : assessment) (w w' : World) (df : DataFrame)
    (r : Row) (c : string) (y : cell) :
  preprocess S parse self a w = (Ok df, w') →
  r ∈ rows df → c ∈ cols_numeric a →
  cell_at (columns df) c (cells r) = Some y →
  ∃ z, y = Num (QcZ z).
Proof.
  intros Hrun Hr Hc Hy.
  destruct (preprocess_ok_file _ _ _ _ _ _ _ Hrun) as (_ & t & d & Ht & _).
  rewrite preprocess_pipeline in Hrun.
  destruct (cellwise_tail_of_cells parse a) as (F & Htail & _ & HF & _).
  rewrite (pipeline_cells _ _ _ _ _ F _ _ _ _ _ Htail Hrun Ht Hr c) in Hy
    by (by eapply cols_numeric_kept).
  destruct (raw_cell _ _ _ _) as [x|]; simplify_eq/=.
  by apply HF.
Qed.

Lemma check_required_columns_ok df required name :
  check_required_columns df required name = Ok tt → ∀ c, c ∈ required → c ∈ columns df.
Proof.
  unfold check_required_columns. case_decide as Hm; [|done]. intros _ c Hc.
  destruct (decide (c ∈ columns df)) as [|Hn]; [done|].
  pose proof (proj1 (filter_nil_not_elem _ _) Hm) as Hm'. by destruct (Hm' c Hc).
Qed.

(** X14.  The columns of a pipeline: the frame that the pipeline of an
    assessment returns has the columns of the file, in the order of the
    file, under their names without the white space at the ends and renamed
    by the [rename_map], without State and Time_taken; research_id and
    Grade are among them. *)
Theorem pipeline_columns (S : sorter) (parse : string → option Qc)
    (self : CWPreprocessor) (a : assessment) (w w' : World) (df : DataFrame)
    (t : Table) :
  preprocess S parse self a w = (Ok df, w') →
  files w !! csv_file self a = Some t →
  columns df
    = filter (λ c, c ∉ ["State"; "Time_taken"])
        ((λ h, default (strip h) (assoc (strip h) (rename_map_of a))) <$> header t) ∧
  "research_id" ∈ columns df ∧ "Grade" ∈ columns df.
Proof.
  intros Hrun Ht.
  destruct (preprocess_ok_file _ _ _ _ _ _ _ Hrun) as (_ & t' & d & Ht' & Hchk & Hd & ->).
  rewrite Ht in Ht'. injection Ht' as <-.
  destruct (keep_best_attempt_rows S _ _ (renamed_ascending t (rename_map_of a)) Hd)
    as [Hcols _].
  assert (columns (tail_of parse a d)
          = filter (λ c, c ∉ ["State"; "Time_taken"])
              ((λ h, default (strip h) (assoc (strip h) (rename_map_of a))) <$> header t))
    as Heq.
  { rewrite tail_of_columns, Hcols. unfold renamed. simpl.
    by rewrite <- list_fmap_compose. }
  split; [done|].
  rewrite tail_of_columns, Hcols.
  pose proof (check_required_columns_ok _ _ _ Hchk) as Hreq.
  split; apply list_elem_of_filter; (split; [set_solver | apply Hreq; set_solver]).
Qed.

Lemma other_columns_placeholder_witness :
  cell_at ["research_id"; "Grade"; "Q1"] "research_id" [Str "S1"; Num (QcZ 8000); Num (QcZ 80)]
    = replace_dash <$> raw_cell example_test_1 (rename_map_of Test_1) "research_id" 0.
Proof.
  apply (other_columns_placeholder stable_sorter no_parse example_pre Test_1
           example_world example_world
           (mkDF ["research_id"; "Grade"; "Q1"]
              [mkRow 0 [Str "S1"; Num (QcZ 8000); Num (QcZ 80)];
               mkRow 2 [Str "S2"; Num (QcZ 0); Num (QcZ 0)]])
           example_test_1
           (mkRow 0 [Str "S1"; Num (QcZ 8000); Num (QcZ 80)])
           "research_id").
  - apply (bool_decide_unpack _). vm_compute. exact I.
  - reflexivity.
  - apply (bool_decide_unpack _). vm_compute. exact I.
  - apply (bool_decide_unpack _). vm_compute. exact I.
  - apply (bool_decide_unpack _). vm_compute. exact I.
Defined.

Lemma numeric_columns_integers_witness : ∃ z, Num (QcZ 0) = Num (QcZ z).
Proof.
  apply (numeric_columns_integers stable_sorter no_parse example_pre Test_1
           example_world example_world
           (mkDF ["research_id"; "Grade"; "Q1"]
              [mkRow 0 [Str "S1"; Num (QcZ 8000); Num (QcZ 80)];
               mkRow 2 [Str "S2"; Num (QcZ 0); Num (QcZ 0)]])
           (mkRow 2 [Str "S2"; Num (QcZ 0); Num (QcZ 0)])
           "Q1" (Num (QcZ 0))).
  - apply (bool_decide_unpack _). vm_compute. exact I.
  - apply (bool_decide_unpack _). vm_compute. exact I.
  - apply (bool_decide_unpack _). vm_compute. exact I.
  - reflexivity.
Defined.

Lemma pipeline_columns_witness :
  columns example_test_1_normalised
    = filter (λ c, c ∉ ["State"; "Time_taken"])
        ((λ h, default (strip h) (assoc (strip h) (rename_map_of Test_1)))
           <$> header example_test_1) ∧
  "research_id" ∈ columns example_test_1_normalised ∧
  "Grade" ∈ columns example_test_1_normalised.
Proof.
  apply (pipeline_columns stable_sorter no_parse example_pre Test_1
           example_world example_world example_test_1_normalised example_test_1).
  - apply (bool_decide_unpack _). vm_compute. exact I.
  - reflexivity.
Defined.

Lemma Forall2_labels (P : Row → Row → Prop) (l l' : list Row) :
  Forall2 (λ r r', label r' = label r ∧ P r r') l l' → label <$> l' = label <$> l.
Proof.
  induction 1 as [| r r' l l' [Hl _] _ IH]; [done|].
  rewrite !fmap_cons. by rewrite Hl, IH.
Qed.

Lemma raw_id_renamed t rename_map r :
  r ∈ rows (renamed t rename_map) →
  get (columns (renamed t rename_map)) "research_id" r = raw_id t rename_map (label r).
Proof.
  intros Hr. unfold raw_id, raw_cell, get. by rewrite (renamed_rows _ _ _ Hr).
Qed.

(** X15.  One row for each student: the rows of the frame that a
    pipeline returns come from different rows of the file, in the order of
    the file; no two of them come from rows with the same research_id, and
    every research_id of the file is that of one of them.  This holds for
    every sort, stable or not, and for every file on which the pipeline
    returns. *)
Theorem pipeline_one_row_per_student (S : sorter) (parse : string → option Qc)
    (self : CWPreprocessor) (a : assessment) (w w' : World) (df : DataFrame)
    (t : Table) :
  preprocess S parse self a w = (Ok df, w') →
  files w !! csv_file self a = Some t →
  StronglySorted lt (label <$> rows df) ∧
  (∀ r, r ∈ rows df → (label r < length (body t))%nat) ∧
  NoDup ((λ r, raw_id t (rename_map_of a) (label r)) <$> rows df) ∧
  ∀ i, (i < length (body t))%nat →
    ∃ r, r ∈ rows df ∧
         raw_id t (rename_map_of a) (label r) = raw_id t (rename_map_of a) i.
Proof.
  intros Hrun Ht.
  destruct (preprocess_ok_file _ _ _ _ _ _ _ Hrun) as (_ & t' & d & Ht' & _ & Hd & ->).
  rewrite Ht in Ht'. injection Ht' as <-.
  pose proof (renamed_ascending t (rename_map_of a)) as Hasc.
  pose proof (raw_id_renamed t (rename_map_of a)) as Hrid.
  pose proof (renamed_rows t (rename_map_of a)) as Hbody.
  assert (∀ i cs, body t !! i = Some cs → mkRow i cs ∈ rows (renamed t (rename_map_of a)))
    as Himap.
  { intros i cs Hcs. unfold renamed. simpl. apply elem_of_lookup_imap. by exists i, cs. }
  remember (renamed t (rename_map_of a)) as df0 eqn:Hdf0. clear Hdf0.
  destruct (keep_best_attempt_inv S df0 d Hd) as (Hg & Hid & Hcmp).
  destruct (keep_best_attempt_sorted S df0 Hg Hid Hasc Hcmp)
    as (out & Hout & Hsub & Hnd & Hall).
  rewrite Hd in Hout. injection Hout as ->.
  destruct (cellwise_tail_of_cells parse a) as (F & Htail & _).
  destruct (Htail (mkDF (columns df0) out)) as [_ Hrows].
  apply Forall2_labels in Hrows. simpl in Hrows.
  remember (rows (tail_of parse a (mkDF (columns df0) out))) as rs eqn:Hrs. clear Hrs.
  assert (∀ r, r ∈ out → get (columns df0) "research_id" r
                         = raw_id t (rename_map_of a) (label r)) as Hraw.
  { intros r Hr. apply Hrid. by eapply elem_of_sublist. }
  assert ((λ r, raw_id t (rename_map_of a) (label r)) <$> rs
          = get (columns df0) "research_id" <$> out) as Hids.
  { rewrite (list_fmap_compose label (raw_id t (rename_map_of a))), Hrows.
    rewrite <- list_fmap_compose. apply list_fmap_ext. intros i r Hi. simpl.
    symmetry. apply Hraw. by eapply list_elem_of_lookup_2. }
  split_and!.
  - rewrite Hrows. eapply StronglySorted_sublist; [|exact Hasc].
    by apply fmap_sublist.
  - intros r Hr.
    assert (label r ∈ label <$> out) as Hin.
    { rewrite <- Hrows. apply list_elem_of_fmap. by exists r. }
    apply list_elem_of_fmap in Hin as (r0 & -> & Hr0).
    assert (r0 ∈ rows df0) as Hr0' by (by eapply elem_of_sublist).
    apply Hbody in Hr0'. by apply lookup_lt_Some in Hr0'.
  - by rewrite Hids.
  - intros i Hi. apply lookup_lt_is_Some in Hi as [cs Hcs].
    pose proof (Himap i cs Hcs) as Hr.
    destruct (Hall _ Hr) as (r' & Hr' & Heq & _).
    assert (label r' ∈ label <$> rs) as Hin.
    { rewrite Hrows. apply list_elem_of_fmap. by exists r'. }
    apply list_elem_of_fmap in Hin as (r & Hl & Hrin).
    exists r. split; [done|]. rewrite <- Hl, <- (Hraw r' Hr'), Heq.
    by apply (Hrid (mkRow i cs)).
Qed.

Lemma pipeline_one_row_per_student_witness :
  StronglySorted lt (label <$> rows example_test_1_normalised) ∧
  (∀ r, r ∈ rows example_test_1_normalised → (label r < length (body example_test_1))%nat) ∧
  NoDup ((λ r, raw_id example_test_1 (rename_map_of Test_1) (label r))
           <$> rows example_test_1_normalised) ∧
  ∀ i, (i < length (body example_test_1))%nat →
    ∃ r, r ∈ rows example_test_1_normalised ∧
         raw_id example_test_1 (rename_map_of Test_1) (label r)
         = raw_id example_test_1 (rename_map_of Test_1) i.
Proof.
  apply (pipeline_one_row_per_student stable_sorter no_parse example_pre Test_1
           example_world example_world example_test_1_normalised example_test_1).
  - apply (bool_decide_unpack _). vm_compute. exact I.
  - reflexivity.
Defined.


(** ** The run: what it changes *)

Lemma written_lookup_ne os d n :
  n ∉ os.*1 → (written os d).2 !! n = d !! n.
Proof.
  revert d. induction os as [| [n0 [df|e]] os IH]; intros d Hn; simpl; [done| |done].
  rewrite fmap_cons, not_elem_of_cons in Hn. destruct Hn as [Hne Hn]. simpl in Hne.
  rewrite IH by done. by apply lookup_insert_ne.
Qed.

Lemma written_is_Some os d n :
  is_Some (d !! n) → is_Some ((written os d).2 !! n).
Proof.
  revert d. induction os as [| [n0 [df|e]] os IH]; intros d Hn; simpl; [done| |done].
  apply IH. rewrite lookup_insert_is_Some. destruct (decide (n0 = n)); auto.
Qed.

(** X17.  What a run leaves alone, whether it returns or raises: the
    files; every table of the database under another name than the seven
    that it writes; the existence of every table that was there (a table is
    replaced, never removed).  It prints its one line when it returns, and
    nothing when it raises. *)
Theorem run_frame (S : sorter) (parse : string → option Qc) (self : CWPreprocessor)
    (w : World) :
  let o := run S parse self w in
  files o.2 = files w ∧
  (∀ name,
     name ∉ ["Test_1"; "Test_2"; "Test_3"; "Test_4"; "Mock_Test"; "Student_Rate"; "Sum_Test"] →
     db o.2 !! name = db w !! name) ∧
  (∀ name, is_Some (db w !! name) → is_Some (db o.2 !! name)) ∧
  output o.2
  = match o.1 with
    | Ok _ => output w ++ [Print ("Database written successfully: " +:+ db_path self)]
    | Raise _ => output w
    end.
Proof.
  intros o. unfold o. rewrite run_written.
  pose proof (written_lookup_ne (outcomes (steps S parse self) w) (db w)) as Hne.
  pose proof (written_is_Some (outcomes (steps S parse self) w) (db w)) as Hsome.
  rewrite outcomes_names, steps_names in Hne.
  destruct (written (outcomes (steps S parse self) w) (db w)) as [[e|] d]; simpl in *;
    split_and!; auto.
Qed.

Lemma Forall2_outcomes (l : list (string * M DataFrame)) (earlier : list (string * DataFrame)) w :
  Forall2 (λ s p, s.1 = p.1 ∧ (s.2 w).1 = Ok p.2) l earlier →
  outcomes l w = (λ p, (p.1, Ok p.2)) <$> earlier ∧ earlier.*1 = l.*1.
Proof.
  unfold outcomes. induction 1 as [| s p l l' [Hn Hok] _ [IH1 IH2]]; csimpl; [done|].
  by rewrite IH1, IH2, <- Hn, Hok.
Qed.

(** X18.  The first step of a run that raises ends the run with its
    exception, whatever the exception (a missing file, missing columns,
    grades that cannot be ordered) and whichever of the seven steps it is:
    the tables of the steps before it are written, as returned in this run;
    the table of the failing step and those of the steps after it are as
    they were before the run; the connection stays open and nothing is
    printed. *)
Theorem run_first_failure (S : sorter) (parse : string → option Qc)
    (self : CWPreprocessor) (w : World) (n : nat) (name : string) (m : M DataFrame)
    (e : exn) (earlier : list (string * DataFrame)) :
  steps S parse self !! n = Some (name, m) →
  Forall2 (λ s p, s.1 = p.1 ∧ (s.2 w).1 = Ok p.2) (take n (steps S parse self)) earlier →
  (m w).1 = Raise e →
  run S parse self w
    = (Raise e, mkWorld (files w) (with_tables (db w) earlier)
                  (Datatypes.S (open_connections w)) (output w)) ∧
  (∀ p, p ∈ earlier → with_tables (db w) earlier !! p.1 = Some (table_of p.2)) ∧
  (∀ s, s ∈ drop n (steps S parse self) →
        with_tables (db w) earlier !! s.1 = db w !! s.1).
Proof.
  intros Hn Hearlier He.
  destruct (Forall2_outcomes _ _ _ Hearlier) as [Hout Hnames].
  assert (NoDup (steps S parse self).*1) as Hnd.
  { rewrite steps_names. apply (bool_decide_unpack _). vm_compute. exact I. }
  rewrite <- (take_drop n (steps S parse self)) in Hnd at 1.
  rewrite fmap_app in Hnd. apply NoDup_app in Hnd as (Hnd1 & Hdisj & _).
  split_and!.
  - rewrite run_written.
    rewrite <- (take_drop n (steps S parse self)) at 1.
    unfold outcomes in *. rewrite fmap_app, Hout.
    rewrite (drop_S _ _ _ Hn). csimpl. rewrite He. by rewrite written_app_ok.
  - intros p Hp. apply with_tables_lookup; [|done]. by rewrite Hnames.
  - intros s Hs. apply with_tables_lookup_ne. rewrite Hnames. intros Hin.
    apply (Hdisj _ Hin). apply list_elem_of_fmap. by exists s.
Qed.

Lemma run_first_failure_witness :
  run stable_sorter no_parse example_pre example_world
    = (Raise (FileNotFoundError "test_2.csv"),
       mkWorld (files example_world)
         (with_tables (db example_world) [("Test_1", example_test_1_normalised)])
         (Datatypes.S (open_connections example_world)) (output example_world)) ∧
  (∀ p, p ∈ [("Test_1", example_test_1_normalised)] →
        with_tables (db example_world) [("Test_1", example_test_1_normalised)] !! p.1
        = Some (table_of p.2)) ∧
  (∀ s, s ∈ drop 1 (steps stable_sorter no_parse example_pre) →
        with_tables (db example_world) [("Test_1", example_test_1_normalised)] !! s.1
        = db example_world !! s.1).
Proof.
  apply (run_first_failure stable_sorter no_parse example_pre example_world 1
           "Test_2" (preprocess_test_2 stable_sorter no_parse example_pre)
           (FileNotFoundError "test_2.csv") [("Test_1", example_test_1_normalised)]).
  - reflexivity.
  - repeat constructor.
  - reflexivity.
Defined.

(** X19.  A run that returns has written the seven tables: the table of
    each assessment is the frame that its pipeline returns on the files, and
    Student_Rate is the frame of [preprocess_student_rate]; no step raised;
    the connection is closed and the one line is printed. *)
Theorem run_writes_all_tables (S : sorter) (parse : string → option Qc)
    (self : CWPreprocessor) (w w1 : World) :
  run S parse self w = (Ok tt, w1) →
  (∀ a, ∃ df, preprocess S parse self a w = (Ok df, w) ∧
              db w1 !! table_name a = Some (table_of df)) ∧
  (∃ df, preprocess_student_rate self w = (Ok df, w) ∧
         db w1 !! "Student_Rate" = Some (table_of df)) ∧
  open_connections w1 = open_connections w ∧
  output w1 = output w ++ [Print ("Database written successfully: " +:+ db_path self)].
Proof.
  intros Hrun.
  destruct (run_ok_inv _ _ _ _ _ Hrun) as (l & Hl & Hnd & ->). simpl.
  assert (∀ name m, (name, m) ∈ steps S parse self → reader m →
            ∃ df, m w = (Ok df, w) ∧
                  with_tables (db w) l !! name = Some (table_of df)) as Hstep.
  { intros name m Hin [f Hf].
    assert ((name, (m w).1) ∈ outcomes (steps S parse self) w) as Ho.
    { unfold outcomes. apply list_elem_of_fmap. by exists (name, m). }
    rewrite Hl in Ho. apply list_elem_of_fmap in Ho as ([n df] & [= -> Hok] & Hp).
    simpl in *. exists df. split.
    - rewrite Hf in *. simpl in Hok. by rewrite Hok.
    - by apply (with_tables_lookup (db w) l (n, df)). }
  split_and!; [| |done|done].
  - intros a. apply Hstep; [|apply preprocess_reader].
    destruct a; unfold steps, table_name, preprocess; set_solver.
  - apply Hstep; [|apply preprocess_student_rate_reader]. unfold steps. set_solver.
Qed.

(** ** The underperformance result: order and counts *)

Lemma filter_key_unique {A} (key : A → cell) (l : list A) (k : cell) :
  NoDup (key <$> l) → (length (filter (λ r, key r = k) l) ≤ 1)%nat.
Proof.
  induction l as [| x l IH]; intros Hnd; [simpl; lia|].
  rewrite fmap_cons in Hnd. apply NoDup_cons in Hnd as [Hx Hnd].
  rewrite filter_cons. case_decide as Hk; [|by apply IH].
  assert (filter (λ r, key r = k) l = []) as ->; [|simpl; lia].
  apply filter_nil_not_elem. intros y Hy Hyk. apply Hx.
  apply list_elem_of_fmap. exists y. split; [congruence|done].
Qed.

(** A left join with a right side that has one row for each key gives one
    row for each left row, in the order of the left side. *)
Lemma merge_left_fst {L R} (key_l : L → cell) (key_r : R → cell)
    (left : list L) (right : list R) :
  NoDup (key_r <$> right) → fst <$> merge_left key_l key_r left right = left.
Proof.
  intros Hnd. unfold merge_left. induction left as [| l left IH]; [done|].
  rewrite bind_cons, fmap_app, IH.
  pose proof (filter_key_unique key_r right (key_l l) Hnd) as Hlen.
  destruct (filter (λ r, key_r r = key_l l) right) as [| m [| m' ms]]; simpl in *;
    [done | done | lia].
Qed.

Lemma groupby_size_NoDup (l : list formative_row) : NoDup (fst <$> groupby_size l).
Proof.
  unfold groupby_size. rewrite <- list_fmap_compose. simpl.
  rewrite list_fmap_id. rewrite merge_sort_Permutation. apply NoDup_remove_dups.
Qed.

Lemma lowest_formative_NoDup (l : list formative_row) :
  NoDup (f_id <$> lowest_formative l).
Proof. apply first_of_each_NoDup. Qed.

Lemma sort_by_grade_perm (S : sorter) (l : list (cell * Qc)) : sort_by_grade S l ≡ₚ l.
Proof.
  unfold sort_by_grade. apply take_rows_perm.
  rewrite <- (length_fmap (λ p, Num p.2)). apply argsort_perm.
Qed.

Lemma StronglySorted_fmap_2 {A B} (f : A → B) (R : relation B) (l : list A) :
  StronglySorted (λ a b, R (f a) (f b)) l → StronglySorted R (f <$> l).
Proof.
  induction 1 as [| x l Hl IH Hx]; [constructor|].
  rewrite fmap_cons. constructor; [done|]. by apply Forall_fmap.
Qed.

Lemma sort_by_grade_sorted (S : sorter) (l : list (cell * Qc)) :
  StronglySorted Qcle (snd <$> sort_by_grade S l).
Proof.
  unfold sort_by_grade.
  pose proof (argsort_sorted S ((λ p, Num p.2) <$> l)) as Hs.
  rewrite <- take_rows_fmap in Hs.
  assert (comparable ((λ p : cell * Qc, Num p.2) <$> l)) as Hc.
  { apply comparable_alt. left. apply Forall_fmap, Forall_forall. by intros [??] _. }
  specialize (Hs Hc).
  apply Sorted_StronglySorted in Hs; [|apply _].
  apply StronglySorted_fmap_inv in Hs.
  apply StronglySorted_fmap_2.
  eapply StronglySorted_weaken; [|exact Hs]. by intros x y.
Qed.

(** The rows of the result before the filter of inactive students: one
    for each row of [df_under], in its order. *)
Lemma underperforming_shape S sum_rows formative_results ss result :
  numeric (dropna sum_rows) = Ok ss →
  underperforming S sum_rows formative_results = Ok result →
  (λ r, (research_id r, Summative_Grade r)) <$> result
    `sublist_of` sort_by_grade S (filter (λ p, below (mean (snd <$> ss)) p.2) ss).
Proof.
  intros Hss. unfold underperforming. fold (formative_cells formative_results).
  destruct (numeric_formative _) as [fs|]; [|done]. rewrite Hss. intros [= <-].
  set (under := sort_by_grade S _).
  set (m1 := merge_left fst fst under _).
  set (m2 := merge_left _ f_id m1 _).
  assert (fst <$> m1 = under) as H1 by apply merge_left_fst, groupby_size_NoDup.
  assert (fst <$> m2 = m1) as H2 by apply merge_left_fst, lowest_formative_NoDup.
  rewrite <- H1, <- H2, <- !list_fmap_compose.
  etrans; [apply fmap_sublist, sublist_filter|].
  rewrite <- list_fmap_compose.
  erewrite list_fmap_ext; [done|]. by intros i [[[s g] o1] o] _.
Qed.

(** X20.  The order of the result: each Sum_Test row strictly below the
    mean gives at most one row of the result (the two joins add columns, not
    rows), and the rows of the result are in ascending order of the
    summative grade; when no research_id occurs twice in Sum_Test, no
    student is reported twice. *)
Theorem underperforming_order (S : sorter) (sum_rows : list (cell * cell))
    (formative_results : list (string * list (cell * cell)))
    (ss : list (cell * Qc)) (result : list under_row) :
  numeric (dropna sum_rows) = Ok ss →
  underperforming S sum_rows formative_results = Ok result →
  (λ r, (research_id r, Summative_Grade r)) <$> result
    `sublist_of` sort_by_grade S (filter (λ p, below (mean (snd <$> ss)) p.2) ss) ∧
  StronglySorted Qcle (Summative_Grade <$> result) ∧
  (length result ≤ length ss)%nat ∧
  (NoDup (fst <$> ss) → NoDup (research_id <$> result)).
Proof.
  intros Hss Hres.
  pose proof (underperforming_shape _ _ _ _ _ Hss Hres) as Hsub.
  split_and!.
  - done.
  - apply (fmap_sublist snd) in Hsub. rewrite <- list_fmap_compose in Hsub.
    eapply StronglySorted_sublist; [exact Hsub|]. apply sort_by_grade_sorted.
  - apply sublist_length in Hsub. rewrite length_fmap in Hsub.
    rewrite sort_by_grade_perm in Hsub.
    etrans; [exact Hsub|]. apply sublist_length, sublist_filter.
  - intros Hnd. apply (fmap_sublist fst) in Hsub. rewrite <- list_fmap_compose in Hsub.
    eapply NoDup_sublist; [exact Hsub|].
    rewrite sort_by_grade_perm.
    eapply NoDup_sublist; [|exact Hnd]. apply fmap_sublist, sublist_filter.
Qed.

(** X21.  The Attempts of a reported row is the number of the formative
    rows of that student with a grade above 0: a row with the grade 0 is
    not an attempt, so the number is at most that of the student's rows in
    the five formative tables. *)
Theorem attempts_counted (S : sorter) (sum_rows : list (cell * cell))
    (formative_results : list (string * list (cell * cell)))
    (fs : list formative_row) (result : list under_row) (r : under_row) :
  numeric_formative (formative_cells formative_results) = Ok fs →
  underperforming S sum_rows formative_results = Ok result → r ∈ result →
  Attempts r = attempts_of (research_id r) fs ∧
  Attempts r
  = length (filter (λ x, f_id x = research_id r ∧ (QcZ 0 < f_grade x)%Qc) fs) ∧
  (Attempts r ≤ length (filter (λ x, f_id x = research_id r) fs))%nat.
Proof.
  intros Hfs Hres Hr.
  destruct (underperforming_inv _ _ _ _ Hres) as (fs' & ss & Hfs' & Hss).
  rewrite Hfs in Hfs'. injection Hfs' as <-.
  destruct (underperforming_rows S _ _ _ _ Hfs Hss) as (result' & Hres' & Hrows).
  rewrite Hres in Hres'. injection Hres' as <-.
  destruct (proj1 (Hrows r) Hr) as (s & g & o & _ & _ & _ & _ & ->). simpl.
  unfold attempts_of, attended. rewrite list_filter_filter.
  split_and!; [done | done |].
  rewrite <- list_filter_filter.
  apply sublist_length, filter_sublist, sublist_filter.
Qed.

Lemma attempts_counted_witness :
  Attempts (mkUnder (Str "A") (QcZ 3000) (Some (QcZ 2000)) (Some "Test_1") 3)
  = attempts_of (Str "A") example_fs ∧
  Attempts (mkUnder (Str "A") (QcZ 3000) (Some (QcZ 2000)) (Some "Test_1") 3)
  = length (filter (λ x, f_id x = Str "A" ∧ (QcZ 0 < f_grade x)%Qc) example_fs) ∧
  (Attempts (mkUnder (Str "A") (QcZ 3000) (Some (QcZ 2000)) (Some "Test_1") 3)
   ≤ length (filter (λ x, f_id x = Str "A") example_fs))%nat.
Proof.
  apply (attempts_counted stable_sorter example_sum_rows example_formative example_fs
           example_result
           (mkUnder (Str "A") (QcZ 3000) (Some (QcZ 2000)) (Some "Test_1") 3)).
  - apply (bool_decide_unpack _). vm_compute. exact I.
  - apply (bool_decide_unpack _). vm_compute. exact I.
  - left.
Defined.

Lemma underperforming_order_witness :
  (λ r, (research_id r, Summative_Grade r)) <$> example_result
    `sublist_of` sort_by_grade stable_sorter
                   (filter (λ p, below (mean (snd <$> example_ss)) p.2) example_ss) ∧
  StronglySorted Qcle (Summative_Grade <$> example_result) ∧
  (length example_result ≤ length example_ss)%nat ∧
  (NoDup (fst <$> example_ss) → NoDup (research_id <$> example_result)).
Proof.
  apply (underperforming_order stable_sorter example_sum_rows example_formative
           example_ss example_result).
  - apply (bool_decide_unpack _). vm_compute. exact I.
  - apply (bool_decide_unpack _). vm_compute. exact I.
Defined.

(** ** The mean *)

Lemma QcZ_succ (n : nat) : QcZ (Z.of_nat (Datatypes.S n)) = (QcZ (Z.of_nat n) + QcZ 1)%Qc.
Proof.
  apply Qc_is_canon. unfold QcZ, Qc_of_Z, Qcplus, Q2Qc. simpl this at 1.
  cbn [this]. rewrite Qred_correct, Nat2Z.inj_succ, <- Z.add_1_r.
  by rewrite inject_Z_plus.
Qed.

Lemma QcZ_0 : QcZ 0 = Q2Qc 0.
Proof. by apply Qc_is_canon. Qed.

Lemma QcZ_1 : QcZ 1 = Q2Qc 1.
Proof. by apply Qc_is_canon. Qed.

Lemma Qcsum_le (l : list Qc) (g : Qc) :
  (∀ x, x ∈ l → (x ≤ g)%Qc) → (Qcsum l ≤ g * QcZ (Z.of_nat (length l)))%Qc.
Proof.
  induction l as [| x l IH]; intros Hl.
  - cbn [Qcsum foldr length]. change (Z.of_nat 0) with 0. rewrite QcZ_0.
    replace (g * Q2Qc 0)%Qc with (Q2Qc 0) by ring.
    apply Qcle_refl.
  - cbn [Qcsum foldr length]. rewrite QcZ_succ.
    replace (g * (QcZ (Z.of_nat (length l)) + QcZ 1))%Qc
      with (g + g * QcZ (Z.of_nat (length l)))%Qc.
    + apply Qcplus_le_compat; [apply Hl; left|]. apply IH. intros y Hy. apply Hl. by right.
    + rewrite QcZ_1. ring.
Qed.

(** A value strictly below the mean is strictly below one of the values. *)
Lemma below_mean_below_one (l : list Qc) (g : Qc) :
  below (mean l) g → ∃ x, x ∈ l ∧ (g < x)%Qc.
Proof.
  intros Hb.
  destruct (decide (Exists (λ x, (g < x)%Qc) l)) as [He|Hn].
  { apply Exists_exists in He as (x & ? & ?). eauto. }
  exfalso. apply not_Exists_Forall in Hn; [|intros x; apply _].
  rewrite Forall_forall in Hn.
  assert (∀ x, x ∈ l → (x ≤ g)%Qc) as Hle.
  { intros x Hx. apply Qcnot_lt_le. by apply Hn. }
  apply Qcsum_le in Hle.
  destruct l as [| x0 l0]; [done|].
  change (Qcsum (x0 :: l0) ≤ g * QcZ (Z.of_nat (length (x0 :: l0))))%Qc in Hle.
  change (g < Qcsum (x0 :: l0) / QcZ (Z.of_nat (length (x0 :: l0))))%Qc in Hb.
  set (n := QcZ (Z.of_nat (length (x0 :: l0)))) in *.
  assert (Q2Qc 0 < n)%Qc as Hn0.
  { unfold n, Qclt, QcZ, Qc_of_Z, Qlt. simpl. lia. }
  assert (n ≠ Q2Qc 0) as Hne.
  { intros H0. rewrite H0 in Hn0. by apply Qclt_not_eq in Hn0. }
  apply (Qcmult_lt_compat_r _ _ n) in Hb; [|done].
  replace (Qcsum (x0 :: l0) / n * n)%Qc with (Qcsum (x0 :: l0)) in Hb by (field; done).
  eapply Qclt_not_le; [exact Hb|]. exact Hle.
Qed.

(** X22.  A reported student is strictly below some other row of
    Sum_Test: a student with the highest summative grade is never reported,
    and when all the summative grades are equal (or Sum_Test has one row, or
    no row with a grade) nobody is reported, whatever the formative
    results. *)
Theorem top_scorer_not_reported (S : sorter) (sum_rows : list (cell * cell))
    (formative_results : list (string * list (cell * cell)))
    (ss : list (cell * Qc)) (result : list under_row) :
  numeric (dropna sum_rows) = Ok ss →
  underperforming S sum_rows formative_results = Ok result →
  (∀ r, r ∈ result →
     (research_id r, Summative_Grade r) ∈ ss ∧
     ∃ p, p ∈ ss ∧ (Summative_Grade r < p.2)%Qc) ∧
  ((∀ p q, p ∈ ss → q ∈ ss → p.2 = q.2) → result = []).
Proof.
  intros Hss Hres.
  assert (∀ r, r ∈ result →
            (research_id r, Summative_Grade r) ∈ ss ∧
            ∃ p, p ∈ ss ∧ (Summative_Grade r < p.2)%Qc) as Hall.
  { intros r Hr.
    pose proof (underperforming_shape _ _ _ _ _ Hss Hres) as Hsub.
    assert ((research_id r, Summative_Grade r)
              ∈ (λ r, (research_id r, Summative_Grade r)) <$> result) as Hin.
    { apply list_elem_of_fmap. by exists r. }
    eapply elem_of_sublist in Hin; [|exact Hsub].
    rewrite sort_by_grade_perm in Hin.
    apply list_elem_of_filter in Hin as [Hb Hin]. simpl in Hb. split; [done|].
    apply below_mean_below_one in Hb as (x & Hx & Hlt).
    apply list_elem_of_fmap in Hx as (p & -> & Hp). by exists p. }
  split; [done|].
  intros Heq. destruct result as [| r result]; [done|]. exfalso.
  destruct (Hall r) as [Hr (p & Hp & Hlt)]; [left|].
  rewrite <- (Heq _ _ Hr Hp) in Hlt. simpl in Hlt. by apply Qclt_not_eq in Hlt.
Qed.

Lemma top_scorer_not_reported_witness :
  (∀ r, r ∈ example_result →
     (research_id r, Summative_Grade r) ∈ example_ss ∧
     ∃ p, p ∈ example_ss ∧ (Summative_Grade r < p.2)%Qc) ∧
  ((∀ p q, p ∈ example_ss → q ∈ example_ss → p.2 = q.2) → example_result = []).
Proof.
  apply (top_scorer_not_reported stable_sorter example_sum_rows example_formative
           example_ss example_result).
  - apply (bool_decide_unpack _). vm_compute. exact I.
  - apply (bool_decide_unpack _). vm_compute. exact I.
Defined.

Lemma run_writes_all_tables_witness :
  (∀ a, ∃ df, preprocess stable_sorter no_parse example_pre a example_world_full
                = (Ok df, example_world_full) ∧
              db example_world_written !! table_name a = Some (table_of df)) ∧
  (∃ df, preprocess_student_rate example_pre example_world_full
           = (Ok df, example_world_full) ∧
         db example_world_written !! "Student_Rate" = Some (table_of df)) ∧
  open_connections example_world_written = open_connections example_world_full ∧
  output example_world_written
  = output example_world_full
      ++ [Print ("Database written successfully: " +:+ db_path example_pre)].
Proof.
  apply (run_writes_all_tables stable_sorter no_parse example_pre example_world_full
           example_world_written).
  apply (bool_decide_unpack _). vm_compute. exact I.
Defined.

(** ** The analyses: failures and what they leave alone *)

Lemma select_id_grade_ok (d : gmap string Table) (table : string) (t : Table) :
  d !! table = Some t → "research_id" ∈ header t → "Grade" ∈ header t →
  select_id_grade d table
  = Ok ((λ r, (get (header t) "research_id" r, get (header t) "Grade" r))
          <$> rows (frame_of t)).
Proof.
  intros Ht Hid Hg. unfold select_id_grade. rewrite Ht. by rewrite decide_True.
Qed.

Lemma select_id_grade_fails (d : gmap string Table) (table : string) :
  d !! table = None ∨
  (∃ t, d !! table = Some t ∧ ¬ ("research_id" ∈ header t ∧ "Grade" ∈ header t)) →
  select_id_grade d table
  = Raise (DatabaseError ("SELECT research_id, Grade FROM " +:+ table)).
Proof.
  unfold select_id_grade. intros [->|(t & -> & Hn)]; [done|]. by rewrite decide_False.
Qed.

Lemma mapM_result_first_raise {A B} (f : A → result B) (l1 : list A) x (l2 : list A) e :
  (∀ y, y ∈ l1 → ∃ b, f y = Ok b) → f x = Raise e →
  mapM_result f (l1 ++ x :: l2) = Raise e.
Proof.
  intros Hok Hx. induction l1 as [| y l1 IH]; simpl.
  - by rewrite Hx.
  - destruct (Hok y) as [b ->]; [left|].
    rewrite IH; [done|]. intros z Hz. apply Hok. by right.
Qed.

(** X23.  A query of [find_underperforming_students] that fails (the
    table is not in the database, or it has no research_id or no Grade
    column) ends the call with SQLite's error for that query: the first one
    that fails, in the order Sum_Test, Test_1, ..., Mock_Test.  Nothing is
    printed or plotted, and the connection stays open. *)
Theorem find_underperforming_students_query_fails (S : sorter) (db_path : string)
    (w : World) (n : nat) (table : string) :
  ["Sum_Test"; "Test_1"; "Test_2"; "Test_3"; "Test_4"; "Mock_Test"] !! n = Some table →
  (∀ t', t' ∈ take n ["Sum_Test"; "Test_1"; "Test_2"; "Test_3"; "Test_4"; "Mock_Test"] →
         ∃ t, db w !! t' = Some t ∧ "research_id" ∈ header t ∧ "Grade" ∈ header t) →
  (db w !! table = None ∨
   ∃ t, db w !! table = Some t ∧ ¬ ("research_id" ∈ header t ∧ "Grade" ∈ header t)) →
  find_underperforming_students S db_path w
  = (Raise (DatabaseError ("SELECT research_id, Grade FROM " +:+ table)), opened w).
Proof.
  intros Hn Hprev Hfail. rewrite find_underperforming_students_run.
  destruct n as [| n].
  - injection Hn as <-. by rewrite select_id_grade_fails.
  - destruct (Hprev "Sum_Test") as (t0 & Ht0 & Hid0 & Hg0); [left|].
    rewrite (select_id_grade_ok _ _ _ Ht0 Hid0 Hg0).
    change (["Test_1"; "Test_2"; "Test_3"; "Test_4"; "Mock_Test"] !! n = Some table) in Hn.
    unfold select_formative.
    rewrite <- (take_drop_middle _ _ _ Hn).
    rewrite (mapM_result_first_raise _ _ _ _
               (DatabaseError ("SELECT research_id, Grade FROM " +:+ table))); [done| |].
    + intros y Hy. destruct (Hprev y) as (t & Ht & Hid & Hg).
      { rewrite firstn_cons. by right. }
      rewrite (select_id_grade_ok _ _ _ Ht Hid Hg). eauto.
    + by rewrite select_id_grade_fails.
Qed.

Lemma find_underperforming_students_query_fails_witness :
  find_underperforming_students stable_sorter "cw.db" example_store
  = (Raise (DatabaseError ("SELECT research_id, Grade FROM " +:+ "Sum_Test")),
     opened example_store).
Proof.
  apply (find_underperforming_students_query_fails stable_sorter "cw.db" example_store
           0 "Sum_Test").
  - reflexivity.
  - intros t' Ht'. by apply elem_of_nil in Ht'.
  - left. reflexivity.
Defined.

(** X24.  The two analyses only read: whether they return or raise,
    [find_underperforming_students] and [student_performance] leave the
    files and every table of the database as they are. *)
Theorem analyses_read_only :
  (∀ S db_path w,
     files (find_underperforming_students S db_path w).2 = files w ∧
     db (find_underperforming_students S db_path w).2 = db w) ∧
  (∀ db_path student_id test_name w,
     files (student_performance db_path student_id test_name w).2 = files w ∧
     db (student_performance db_path student_id test_name w).2 = db w).
Proof.
  split.
  - intros S db_path w. rewrite find_underperforming_students_run.
    destruct (select_id_grade (db w) "Sum_Test") as [df_sum|]; [|done].
    destruct (select_formative (db w)) as [formative|]; [|done].
    destruct (underperforming S df_sum formative) as [[| r l]|]; done.
  - intros db_path student_id test_name w. rewrite student_performance_run.
    destruct (db w !! test_name) as [t|]; [|done]. cbv zeta.
    case_decide; [|done].
    destruct (filter _ _); [done|].
    destruct (mapM_result _ (question_cols (frame_of t))); [|done].
    by destruct (mapM_result _ _).
Qed.

(** X25.  How [student_performance] fails on the database: with
    SQLite's error when the table is not in the database, and with KeyError
    when the table has no research_id column.  In both cases the error is
    raised before anything is shown, and the connection stays open. *)
Theorem student_performance_failures (db_path : string) (student_id : cell)
    (test_name : string) (w : World) :
  (db w !! test_name = None →
   student_performance db_path student_id test_name w
   = (Raise (DatabaseError ("SELECT * FROM " +:+ test_name)), opened w)) ∧
  (∀ t, db w !! test_name = Some t → "research_id" ∉ header t →
   student_performance db_path student_id test_name w
   = (Raise (KeyError "research_id"), opened w)).
Proof.
  split.
  - intros Ht. by rewrite student_performance_run, Ht.
  - intros t Ht Hid. rewrite student_performance_run, Ht. cbv zeta.
    by rewrite decide_False.
Qed.

(** X26.  A missing value as identifier finds no student: for a table
    with a research_id column, [student_performance] with a missing
    [student_id] prints the not-found message, even when rows of the table
    have no research_id (a missing value equals nothing, itself included). *)
Theorem student_performance_missing_id (db_path test_name : string) (w : World)
    (t : Table) :
  db w !! test_name = Some t → "research_id" ∈ header t →
  student_performance db_path NaN test_name w
  = (Ok tt, printed w [Print "Student ID not found in this test."]).
Proof.
  intros Ht Hid. rewrite student_performance_run, Ht. cbv zeta.
  rewrite decide_True by done.
  assert (filter (λ r, cell_eqb (get (columns (frame_of t)) "research_id" r) NaN = true)
            (rows (frame_of t)) = []) as ->; [|done].
  apply filter_nil_not_elem. intros r _ Hr. apply cell_eqb_true in Hr as [_ Hn]. done.
Qed.

Lemma student_performance_missing_id_witness :
  student_performance "cw.db" NaN "Test_1" example_store
  = (Ok tt, printed example_store [Print "Student ID not found in this test."]).
Proof.
  apply (student_performance_missing_id "cw.db" "Test_1" example_store
           (table_of example_test_1_normalised)).
  - reflexivity.
  - apply (bool_decide_unpack _). vm_compute. exact I.
Defined.

(** ** The analysis after a run *)

Lemma run_step_tables S parse self w w1 name (m : M DataFrame) :
  run S parse self w = (Ok tt, w1) →
  (name, m) ∈ steps S parse self → reader m →
  ∃ df, m w = (Ok df, w) ∧ db w1 !! name = Some (table_of df).
Proof.
  intros Hrun Hin [f Hf].
  destruct (run_ok_inv _ _ _ _ _ Hrun) as (l & Hl & Hnd & ->). simpl.
  assert ((name, (m w).1) ∈ outcomes (steps S parse self) w) as Ho.
  { unfold outcomes. apply list_elem_of_fmap. by exists (name, m). }
  rewrite Hl in Ho. apply list_elem_of_fmap in Ho as ([n df] & [= -> Hok] & Hp).
  simpl in *. exists df. split.
  - rewrite Hf in *. simpl in Hok. by rewrite Hok.
  - by apply (with_tables_lookup (db w) l (n, df)).
Qed.

Lemma run_assessment_table S parse self w w1 a :
  run S parse self w = (Ok tt, w1) →
  ∃ df, preprocess S parse self a w = (Ok df, w) ∧
        db w1 !! table_name a = Some (table_of df).
Proof.
  intros Hrun. apply (run_step_tables S parse self w w1); [done | | apply preprocess_reader].
  destruct a; unfold steps, table_name, preprocess; set_solver.
Qed.

Lemma preprocess_required_columns S parse self a w w' df :
  preprocess S parse self a w = (Ok df, w') →
  "research_id" ∈ columns df ∧ "Grade" ∈ columns df.
Proof.
  intros Hrun.
  destruct (preprocess_ok_file _ _ _ _ _ _ _ Hrun) as (_ & t & d & Ht & Hchk & Hd & ->).
  destruct (keep_best_attempt_rows S _ _ (renamed_ascending t (rename_map_of a)) Hd)
    as [Hcols _].
  rewrite tail_of_columns, Hcols.
  pose proof (check_required_columns_ok _ _ _ Hchk) as Hreq.
  split; apply list_elem_of_filter; (split; [set_solver | apply Hreq; set_solver]).
Qed.

Lemma Grade_numeric a : "Grade" ∈ cols_numeric a.
Proof. destruct a; left. Qed.

Lemma preprocess_grade_number S parse self a w w' df r :
  preprocess S parse self a w = (Ok df, w') → r ∈ rows df →
  get (columns df) "Grade" r = NaN ∨ ∃ q, get (columns df) "Grade" r = Num q.
Proof.
  intros Hrun Hr.
  destruct (preprocess_ok_file _ _ _ _ _ _ _ Hrun) as (_ & t & d & Ht & _).
  rewrite preprocess_pipeline in Hrun.
  pose proof (cols_numeric_kept a "Grade" (Grade_numeric a)) as Hkept.
  destruct (cellwise_tail_of_cells parse a) as (F & Htail & _ & HF & _).
  unfold get.
  rewrite (pipeline_cells _ _ _ _ _ F _ _ _ _ _ Htail Hrun Ht Hr "Grade" Hkept).
  destruct (raw_cell _ _ _ _) as [x|]; simpl; [|by left].
  destruct (HF "Grade" x (Grade_numeric a)) as [z ->]. right. eauto.
Qed.

(** The rows that the query of the analysis reads in the table of an
    assessment after a run: the grade of each is a number or is missing. *)
Lemma stored_grades S parse self w w1 a :
  run S parse self w = (Ok tt, w1) →
  ∃ l, select_id_grade (db w1) (table_name a) = Ok l ∧
       Forall (λ p : cell * cell, p.2 = NaN ∨ ∃ q, p.2 = Num q) l.
Proof.
  intros Hrun.
  destruct (run_assessment_table S parse self w w1 a Hrun) as (df & Hdf & Ht).
  destruct (preprocess_required_columns _ _ _ _ _ _ _ Hdf) as [Hid Hg].
  rewrite (select_id_grade_ok _ _ _ Ht Hid Hg). eexists. split; [done|].
  apply Forall_fmap, Forall_forall. intros r' Hr'. simpl.
  apply elem_of_lookup_imap in Hr' as (i & cs & -> & Hcs).
  unfold table_of in Hcs. simpl in Hcs.
  apply list_lookup_fmap_Some in Hcs as (r & -> & Hr).
  change (get (columns df) "Grade" (mkRow i (cells r)))
    with (get (columns df) "Grade" r).
  apply (preprocess_grade_number _ _ _ _ _ _ _ r Hdf).
  by eapply list_elem_of_lookup_2.
Qed.

Lemma numeric_dropna_ok (l : list (cell * cell)) :
  Forall (λ p : cell * cell, p.2 = NaN ∨ ∃ q, p.2 = Num q) l →
  ∃ ss, numeric (dropna l) = Ok ss.
Proof.
  intros Hl. unfold numeric.
  destruct (mapM_is_Some_2
              (λ p : cell * cell, match p.2 with Num q => Some (p.1, q) | _ => None end)
              (dropna l)) as [ss Hss].
  - apply Forall_forall. intros p Hp. unfold dropna in Hp.
    apply list_elem_of_filter in Hp as [[_ Hna] Hp].
    rewrite Forall_forall in Hl. destruct (Hl p Hp) as [Hn|[q Hq]]; simpl.
    + by rewrite Hn in Hna.
    + by rewrite Hq.
  - rewrite Hss. eauto.
Qed.

Lemma numeric_formative_ok (formative_results : list (string * list (cell * cell))) :
  Forall (λ tl, Forall (λ p : cell * cell, p.2 = NaN ∨ ∃ q, p.2 = Num q) tl.2)
         formative_results →
  ∃ fs, numeric_formative (formative_cells formative_results) = Ok fs.
Proof.
  intros Hl. unfold numeric_formative.
  destruct (mapM_is_Some_2
              (λ p : cell * cell * string,
                 match p.1.2 with
                 | Num q => Some (mkFormative p.1.1 q p.2)
                 | _ => None
                 end)
              (formative_cells formative_results)) as [fs Hfs].
  - apply Forall_forall. intros p Hp. unfold formative_cells in Hp.
    apply list_elem_of_filter in Hp as [[_ Hna] Hp].
    apply list_elem_of_bind in Hp as ([table l] & Hp & Htl).
    apply list_elem_of_fmap in Hp as (p0 & -> & Hp0).
    rewrite Forall_forall in Hl. specialize (Hl _ Htl). simpl in Hl.
    rewrite Forall_forall in Hl. destruct (Hl p0 Hp0) as [Hn|[q Hq]]; simpl in *.
    + by rewrite Hn in Hna.
    + by rewrite Hq.
  - rewrite Hfs. eauto.
Qed.

(** X27.  On the database that a run has written, with text as
    identifiers, the cohort analysis does not fail:
    [find_underperforming_students] finds its six tables with their two
    columns and only numbers as grades, returns, shows its output, closes
    its connection and leaves the database as the run wrote it. *)
Theorem analysis_after_run (S S' : sorter) (parse : string → option Qc)
    (self : CWPreprocessor) (db_path : string) (w w1 : World) :
  run S parse self w = (Ok tt, w1) →
  text_ids (db w1) →
  ∃ w2, find_underperforming_students S' db_path w1 = (Ok tt, w2) ∧
        db w2 = db w1 ∧ files w2 = files w1 ∧
        open_connections w2 = open_connections w1 ∧
        ∃ shown, output w2 = output w1 ++ shown ∧ shown ≠ [].
Proof.
  intros Hrun _. rewrite find_underperforming_students_run.
  destruct (stored_grades S parse self w w1 Sum_Test Hrun) as (df_sum & H0 & Hsum).
  change (table_name Sum_Test) with "Sum_Test" in H0. rewrite H0.
  assert (∃ formative_results, select_formative (db w1) = Ok formative_results ∧
            Forall (λ tl, Forall (λ p : cell * cell, p.2 = NaN ∨ ∃ q, p.2 = Num q) tl.2)
                   formative_results) as (formative_results & -> & Hform).
  { unfold select_formative.
    destruct (stored_grades S parse self w w1 Test_1 Hrun) as (l1 & H1 & Hl1).
    destruct (stored_grades S parse self w w1 Test_2 Hrun) as (l2 & H2 & Hl2).
    destruct (stored_grades S parse self w w1 Test_3 Hrun) as (l3 & H3 & Hl3).
    destruct (stored_grades S parse self w w1 Test_4 Hrun) as (l4 & H4 & Hl4).
    destruct (stored_grades S parse self w w1 Mock_Test Hrun) as (l5 & H5 & Hl5).
    change (table_name Test_1) with "Test_1" in H1.
    change (table_name Test_2) with "Test_2" in H2.
    change (table_name Test_3) with "Test_3" in H3.
    change (table_name Test_4) with "Test_4" in H4.
    change (table_name Mock_Test) with "Mock_Test" in H5.
    cbn [mapM_result]. rewrite H1, H2, H3, H4, H5.
    eexists. split; [done|]. by repeat constructor. }
  destruct (numeric_dropna_ok _ Hsum) as [ss Hss].
  destruct (numeric_formative_ok _ Hform) as [fs Hfs].
  destruct (underperforming_rows S' _ _ _ _ Hfs Hss) as (result & -> & _).
  destruct result as [| r result]; (eexists; split; [done|]); simpl;
    (split_and!; [done..|]); eexists; (split; [done|]); done.
Qed.

Lemma analysis_after_run_witness :
  ∃ w2, find_underperforming_students stable_sorter "cw.db" example_world_written
          = (Ok tt, w2) ∧
        db w2 = db example_world_written ∧ files w2 = files example_world_written ∧
        open_connections w2 = open_connections example_world_written ∧
        ∃ shown, output w2 = output example_world_written ++ shown ∧ shown ≠ [].
Proof.
  apply (analysis_after_run stable_sorter stable_sorter no_parse example_pre "cw.db"
           example_world_full example_world_written).
  - apply (bool_decide_unpack _). vm_compute. exact I.
  - unfold text_ids.
    repeat (apply Forall_cons; split; [vm_compute; repeat constructor|]).
    constructor.
Defined.

(** X28.  What [find_underperforming_students] shows when it returns:
    the one message when the result is empty; otherwise the table of the
    result and one chart with a bar pair for each row of the table, in its
    order.  Every row has a lowest formative grade, so the [fillna(0)] of
    the chart replaces nothing: the second series of the chart is the
    Lowest_Formative_Grade column of the table. *)
Theorem find_underperforming_students_output (S : sorter) (db_path : string)
    (w w' : World) :
  find_underperforming_students S db_path w = (Ok tt, w') →
  ∃ df_sum formative_results result,
    select_id_grade (db w) "Sum_Test" = Ok df_sum ∧
    select_formative (db w) = Ok formative_results ∧
    underperforming S df_sum formative_results = Ok result ∧
    w' = printed w
           (if decide (result = []) then
              [Print "No underperforming students found (after inactive filter)."]
            else
              [PrintTable (under_table result);
               ShowGroupedBar
                 "Underperforming Students: Summative vs Lowest Formative Grade"
                 (research_id <$> result)
                 ((λ r, Num (Summative_Grade r)) <$> result)
                 ((λ r, from_option Num NaN (Lowest_Formative_Grade r)) <$> result)]) ∧
    Forall (λ r, is_Some (Lowest_Formative_Grade r)) result.
Proof.
  rewrite find_underperforming_students_run. intros Hrun.
  destruct (select_id_grade (db w) "Sum_Test") as [df_sum|]; [|done].
  destruct (select_formative (db w)) as [formative_results|]; [|done].
  destruct (underperforming S df_sum formative_results) as [result|] eqn:Hres; [|done].
  assert (Forall (λ r, is_Some (Lowest_Formative_Grade r)) result) as Hlow.
  { apply Forall_forall. intros r Hr.
    destruct (underperforming_inv _ _ _ _ Hres) as (fs & ss & Hfs & Hss).
    destruct (underperforming_rows S _ _ _ _ Hfs Hss) as (result' & Hres' & Hrows).
    rewrite Hres in Hres'. injection Hres' as <-.
    destruct (proj1 (Hrows r) Hr) as (s & g & o & _ & _ & Hatt & Ho & ->). simpl.
    destruct o as [y|]; [by eexists|]. exfalso. unfold attempts_of in Hatt.
    destruct (filter (λ x, f_id x = s) (attended fs)) as [| x l] eqn:E;
      [simpl in Hatt; lia|].
    assert (x ∈ x :: l) as Hx by left. rewrite <- E in Hx.
    apply list_elem_of_filter in Hx as [Hxs Hx].
    destruct (lowest_formative_least _ x Hx) as (y & Hy & Hys & _).
    assert (y ∈ filter (λ y, f_id y = s) (lowest_formative (attended fs))) as Hin.
    { apply list_elem_of_filter. split; [congruence|done]. }
    rewrite Ho in Hin. by apply elem_of_nil in Hin. }
  exists df_sum, formative_results, result. split_and!; [done | done | done | | done].
  destruct result as [| r result].
  - rewrite decide_True by done. by injection Hrun as <-.
  - rewrite decide_False by done. injection Hrun as <-.
    assert ((λ r, from_option Num NaN (Lowest_Formative_Grade r)) <$> r :: result
            = (λ r, Num (default (QcZ 0) (Lowest_Formative_Grade r))) <$> r :: result)
      as ->; [|done].
    apply Forall_fmap_ext. eapply Forall_impl; [exact Hlow|].
    by intros r' [q ->].
Qed.

Lemma find_underperforming_students_output_witness :
  ∃ df_sum formative_results result,
    select_id_grade (db example_world_written) "Sum_Test" = Ok df_sum ∧
    select_formative (db example_world_written) = Ok formative_results ∧
    underperforming stable_sorter df_sum formative_results = Ok result ∧
    (find_underperforming_students stable_sorter "cw.db" example_world_written).2
    = printed example_world_written
        (if decide (result = []) then
           [Print "No underperforming students found (after inactive filter)."]
         else
           [PrintTable (under_table result);
            ShowGroupedBar
              "Underperforming Students: Summative vs Lowest Formative Grade"
              (research_id <$> result)
              ((λ r, Num (Summative_Grade r)) <$> result)
              ((λ r, from_option Num NaN (Lowest_Formative_Grade r)) <$> result)]) ∧
    Forall (λ r, is_Some (Lowest_Formative_Grade r)) result.
Proof.
  apply (find_underperforming_students_output stable_sorter "cw.db"
           example_world_written).
  apply (bool_decide_unpack _). vm_compute. exact I.
Defined.
